(** * libsocks: a SOCKS4 interposer on connect(2)

    Shallow embedding of [socks.c].  The library overrides [connect]: calls that
    qualify are redirected to a SOCKS4 proxy, everything else is handed to the
    real [connect] found with [dlsym].

    - The operating system is an external collaborator.  It is a parameter: a
      record of primitives ([connect], [getsockopt], [fcntl], [send], [recv],
      [shutdown]) that read and write [errno] and an abstract world.
    - The program is written in state-passing style over [errno], the world and
      a log of the calls made, which is there to state what a run did and did
      not attempt.
    - The two transfer loops need not terminate (a primitive may report
      [EINTR] for ever).  They take a bound on the number of iterations and
      return [None] when it is exceeded; results do not depend on the bound
      once it is large enough ([connect_more_fuel]).
    - Integers are in [Z].  No operation of the program can leave the range of
      its C type, given results of the primitives that are in range.
    - Port and address of a [sockaddr_in] are in network byte order; the byte
      order of the host is a parameter, and [ntohl] and the memory image of
      the request depend on it.
    - [connect] takes the result of [_init] as a parameter: [socks_server],
      the list that [getaddrinfo] produced, empty when [SOCKS_SERVER] is unset
      or could not be resolved.  [_init] itself is in module [Init]. *)

From Stdlib Require Import ZArith List Bool Lia.
From Stdlib Require String.
Import ListNotations.
Local Open Scope Z_scope.

Set Implicit Arguments.

(** ** Constants of the system headers (Linux values) *)

Definition AF_INET : Z := 2.
Definition SOCK_STREAM : Z := 1.
Definition SOL_SOCKET : Z := 1.
Definition SO_TYPE : Z := 3.
Definition SO_DOMAIN : Z := 39.
Definition F_GETFL : Z := 3.
Definition F_SETFL : Z := 4.
Definition O_NONBLOCK : Z := 2048.
Definition SHUT_RDWR : Z := 2.
Definition EINTR : Z := 4.
Definition EAGAIN : Z := 11.
Definition ECONNREFUSED : Z := 111.
Definition INADDR_ANY : Z := 0.
Definition INADDR_BROADCAST : Z := 0xffffffff.

(** [sizeof(struct sockaddr)], [sizeof(int)], and the sizes of the two packed
    wire structures. *)
Definition sizeof_sockaddr : Z := 16.
Definition sizeof_int : Z := 4.
Definition sizeof_socks4_request : Z := 9.
Definition sizeof_socks4_response : Z := 8.

Definition SOCKS4_REQUEST_GRANTED : Z := 0x5a.

(** [IN_MULTICAST] of <netinet/in.h>: a test on the top nibble of its argument,
    which the header expects in host byte order. *)
Definition IN_MULTICAST (a : Z) : bool :=
  Z.land a 0xf0000000 =? 0xe0000000.

(** ** Byte order *)

Inductive endianness : Type := LittleEndian | BigEndian.

(** Byte number [k] of an integer, byte 0 being the least significant. *)
Definition byte_at (k : Z) (x : Z) : Z := Z.land (Z.shiftr x (8 * k)) 255.

(** Big-endian (network order) encodings. *)
Definition be16 (x : Z) : list Z := [byte_at 1 x; byte_at 0 x].
Definition be32 (x : Z) : list Z :=
  [byte_at 3 x; byte_at 2 x; byte_at 1 x; byte_at 0 x].

(** The bytes a [uint16_t] / [uint32_t] object occupies in memory. *)
Definition store16 (host : endianness) (x : Z) : list Z :=
  match host with
  | BigEndian => be16 x
  | LittleEndian => rev (be16 x)
  end.

Definition store32 (host : endianness) (x : Z) : list Z :=
  match host with
  | BigEndian => be32 x
  | LittleEndian => rev (be32 x)
  end.

Definition bswap16 (x : Z) : Z :=
  Z.lor (Z.shiftl (byte_at 0 x) 8) (byte_at 1 x).

Definition bswap32 (x : Z) : Z :=
  Z.lor (Z.shiftl (byte_at 0 x) 24)
    (Z.lor (Z.shiftl (byte_at 1 x) 16)
       (Z.lor (Z.shiftl (byte_at 2 x) 8) (byte_at 3 x))).

Definition ntohs (host : endianness) (x : Z) : Z :=
  match host with
  | BigEndian => x
  | LittleEndian => bswap16 x
  end.

Definition ntohl (host : endianness) (x : Z) : Z :=
  match host with
  | BigEndian => x
  | LittleEndian => bswap32 x
  end.

(** ** Data *)

(** A socket address as [connect] looks at it: the family of the generic
    header, and the two fields of the [sockaddr_in] view.  The fields hold the
    integers the host reads from memory; port and address are stored in network
    byte order. *)
Record sockaddr : Type := {
  sa_family : Z;
  sin_port : Z;
  sin_addr : Z
}.

(** One node of the [addrinfo] chain; the chain itself is a list, [NULL] being
    the empty list. *)
Record addrinfo : Type := {
  ai_addr : sockaddr;
  ai_addrlen : Z
}.

(** SOCKS v4 client request message. *)
Record socks4_request : Type := {
  s4_version : Z;
  s4_command : Z;
  s4_port : Z;
  s4_addr : Z;
  s4_user : Z
}.

(** SOCKS v4 connect template. *)
Definition template : socks4_request :=
  {| s4_version := 0x04; s4_command := 0x01; s4_port := 0; s4_addr := 0;
     s4_user := 0x00 |}.

(** The memory image of the packed request structure: what [&message] points
    to, and therefore what goes on the wire. *)
Definition request_bytes (host : endianness) (m : socks4_request) : list Z :=
  [s4_version m; s4_command m] ++ store16 host (s4_port m)
    ++ store32 host (s4_addr m) ++ [s4_user m].

(** [response.s4_status]: the byte at offset 1 of the packed response. *)
Definition s4_status (response : list Z) : Z := nth 1 response 0.

(** ** The operating system *)

(** Calls of the primitives, as logged. *)
Inductive event : Type :=
| EConnect (s : Z) (addr : option sockaddr) (len : Z) (ret : Z)
| EGetsockopt (s level optname : Z) (ret : Z)
| EFcntl (s cmd : Z) (arg : option Z) (ret : Z)
| ESend (s : Z) (data : list Z) (len : Z) (ret : Z)
| ERecv (s : Z) (len : Z) (ret : Z)
| EShutdown (s how : Z) (ret : Z).

(** A primitive reads [errno] and the world and gives back its result, the new
    [errno] and the new world. *)
Definition primitive (W A : Type) : Type := Z -> W -> A * Z * W.

(** [os_connect] is the real [connect] that [_init] resolves.  [os_getsockopt]
    takes the initial contents of [opt] and [optlen] and returns the return
    value with their final contents.  [os_recv] returns the return value and
    the bytes the kernel delivers. *)
Record OS (W : Type) : Type := {
  os_connect : Z -> option sockaddr -> Z -> primitive W Z;
  os_getsockopt : Z -> Z -> Z -> Z -> Z -> primitive W (Z * Z * Z);
  os_fcntl : Z -> Z -> option Z -> primitive W Z;
  os_send : Z -> list Z -> Z -> primitive W Z;
  os_recv : Z -> Z -> primitive W (Z * list Z);
  os_shutdown : Z -> Z -> primitive W Z
}.

(** The state of the calling thread. *)
Record State (W : Type) : Type := {
  errno : Z;
  world : W;
  trace : list event
}.

Definition set_errno {W} (e : Z) (st : State W) : State W :=
  {| errno := e; world := world st; trace := trace st |}.

(** Running one primitive: the state is updated and the call is logged. *)
Definition syscall {W A} (p : primitive W A) (ev : A -> event) (st : State W)
  : A * State W :=
  let '(a, e, w) := p (errno st) (world st) in
  (a, {| errno := e; world := w; trace := trace st ++ [ev a] |}).

(** [memcpy] into a buffer at an offset, clipped to the buffer. *)
Definition write_at (off : nat) (bs buf : list Z) : list Z :=
  firstn (length buf) (firstn off buf ++ bs ++ skipn (off + length bs) buf).

(** How one iteration of a transfer loop ends: the loop goes round again with
    the given cursor and count, or leaves by [break], or the function returns. *)
Inductive step (C : Type) : Type :=
| Again (cursor : C) (len : Z)
| Break (cursor : C) (len : Z)
| Return (r : Z).
Arguments Return {C} r.

Section Program.

Context {W : Type}.

(** Byte order of the host, the operating system, the proxy endpoints that
    [_init] obtained from [getaddrinfo] ([socks_server]), and the
    indeterminate initial contents of the 8 bytes of [response]. *)
Variable host : endianness.
Variable os : OS W.
Variable socks_server : list addrinfo.
Variable uninit : list Z.

Definition real_connect (s : Z) (addr : option sockaddr) (len : Z)
  : State W -> Z * State W :=
  syscall (os_connect os s addr len) (EConnect s addr len).

Definition getsockopt (s level optname opt optlen : Z)
  : State W -> (Z * Z * Z) * State W :=
  syscall (os_getsockopt os s level optname opt optlen)
    (fun r => EGetsockopt s level optname (fst (fst r))).

Definition fcntl (s cmd : Z) (arg : option Z) : State W -> Z * State W :=
  syscall (os_fcntl os s cmd arg) (EFcntl s cmd arg).

Definition send (s : Z) (data : list Z) (len : Z) : State W -> Z * State W :=
  syscall (os_send os s data len) (ESend s data len).

Definition recv (s : Z) (len : Z) : State W -> (Z * list Z) * State W :=
  syscall (os_recv os s len) (fun r => ERecv s len (fst r)).

Definition shutdown (s how : Z) : State W -> Z * State W :=
  syscall (os_shutdown os s how) (EShutdown s how).

(** *** do_complete_send *)

(** The body of the [while] loop.  [data] is what the cursor points to: the
    bytes not yet sent. *)
Definition send_body (s : Z) (data : list Z) (len : Z) (st : State W)
  : step (list Z) * State W :=
  let '(r, st1) := send s data len st in
  if (r <? 0) && negb (errno st1 =? EINTR) && negb (errno st1 =? EAGAIN)
  then (Return (-1), st1)
  else if r >? 0
       then (Again (skipn (Z.to_nat r) data) (len - r), st1)
       else (Again data len, st1).

(** [None] when the loop is still running after [fuel] iterations. *)
Fixpoint do_complete_send (fuel : nat) (s : Z) (data : list Z) (len : Z)
  (st : State W) : option (Z * State W) :=
  if len >? 0 then
    match fuel with
    | O => None
    | S fuel' =>
        match send_body s data len st with
        | (Again data' len', st1) => do_complete_send fuel' s data' len' st1
        | (Break _ _, st1) => Some (0, st1)
        | (Return r, st1) => Some (r, st1)
        end
    end
  else Some (0, st).

(** *** do_complete_recv *)

(** The cursor is the buffer together with the offset [data] has reached. *)
Definition recv_body (s : Z) (cur : list Z * nat) (len : Z) (st : State W)
  : step (list Z * nat) * State W :=
  let '(buf, off) := cur in
  let '((r, bytes), st1) := recv s len st in
  if (r <? 0) && negb (errno st1 =? EINTR) && negb (errno st1 =? EAGAIN)
  then (Return (-1), st1)
  else if r =? 0
       then (Break (buf, off) len, st1)
       else if r >? 0
            then (Again (write_at off (firstn (Z.to_nat r) bytes) buf,
                         (off + Z.to_nat r)%nat) (len - r), st1)
            else (Again (buf, off) len, st1).

(** [return len != 0]. *)
Definition nonzero (len : Z) : Z := if len =? 0 then 0 else 1.

Fixpoint do_complete_recv (fuel : nat) (s : Z) (cur : list Z * nat) (len : Z)
  (st : State W) : option (Z * list Z * State W) :=
  if len >? 0 then
    match fuel with
    | O => None
    | S fuel' =>
        match recv_body s cur len st with
        | (Again cur' len', st1) => do_complete_recv fuel' s cur' len' st1
        | (Break cur' len', st1) => Some (nonzero len', fst cur', st1)
        | (Return r, st1) => Some (r, fst cur, st1)
        end
    end
  else Some (nonzero len, fst cur, st).

(** *** connect *)

(** Label [pass]. *)
Definition pass (saved_errno : Z) (s : Z) (_in : option sockaddr) (len : Z)
  (st : State W) : Z * State W :=
  real_connect s _in len (set_errno saved_errno st).

(** Label [error]. *)
Definition error (s : Z) (flags : Z) (st : State W) : Z * State W :=
  let saved_errno := if errno st =? 0 then ECONNREFUSED else errno st in
  let '(_, st1) := fcntl s F_SETFL (Some flags) st in
  let '(_, st2) := shutdown s SHUT_RDWR st1 in
  (-1, set_errno saved_errno st2).

(** The loop over the candidates: [server] when the loop is left, [None] for
    [NULL]. *)
Fixpoint try_servers (s : Z) (server : list addrinfo) (st : State W)
  : option addrinfo * State W :=
  match server with
  | [] => (None, st)
  | a :: next =>
      let '(r, st1) := real_connect s (Some (ai_addr a)) (ai_addrlen a) st in
      if r =? 0 then (Some a, st1) else try_servers s next st1
  end.

(** The address tests of the filter, on [ip = sa->sin_addr.s_addr]. *)
Definition ignored_address (ip : Z) : bool :=
  (ip =? INADDR_ANY) || (ip =? INADDR_BROADCAST) || IN_MULTICAST ip
  || (Z.shiftr (ntohl host ip) 24 =? 127).

(** [message = template; message.s4_port = sa->sin_port; message.s4_addr = ip]. *)
Definition message (sa : sockaddr) (ip : Z) : socks4_request :=
  {| s4_version := s4_version template;
     s4_command := s4_command template;
     s4_port := sin_port sa;
     s4_addr := ip;
     s4_user := s4_user template |}.

(** The handshake, from "connected, ask SOCKS server for connection" to the
    end of [connect]. *)
Definition negotiate (fuel : nat) (s : Z) (sa : sockaddr) (ip : Z) (flags : Z)
  (st5 : State W) : option (Z * State W) :=
  let message := message sa ip in
  match do_complete_send fuel s (request_bytes host message)
          sizeof_socks4_request st5 with
  | None => None
  | Some (r, st6) =>
      if negb (r =? 0) then Some (error s flags st6)
      else
        match do_complete_recv fuel s (uninit, O)
                sizeof_socks4_response st6 with
        | None => None
        | Some (r, response, st7) =>
            if negb (r =? 0) then Some (error s flags st7)
            else if negb (s4_status response =? SOCKS4_REQUEST_GRANTED)
                 then Some (error s flags st7)
                 else
                   let '(_, st8) := fcntl s F_SETFL (Some flags) st7 in
                   Some (0, st8)
        end
  end.

(** [None] when one of the two transfer loops is still running after [fuel]
    iterations. *)
Definition connect (fuel : nat) (s : Z) (_in : option sockaddr) (len : Z)
  (st : State W) : option (Z * State W) :=
  let saved_errno := errno st in
  match socks_server, _in with
  | [], _ | _, None => Some (pass saved_errno s _in len st)
  | _ :: _, Some sa =>
      if (s <? 0) || (len <? sizeof_sockaddr)
         || negb (sa_family sa =? AF_INET)
      then Some (pass saved_errno s _in len st)
      else
        let ip := sin_addr sa in
        if ignored_address ip then Some (pass saved_errno s _in len st)
        else
          let '((r, opt, optlen), st1) :=
            getsockopt s SOL_SOCKET SO_TYPE (-1) sizeof_int st in
          if (r <? 0) || negb (optlen =? sizeof_int)
             || negb (opt =? SOCK_STREAM)
          then Some (pass saved_errno s _in len st1)
          else
            let '((r, opt, optlen), st2) :=
              getsockopt s SOL_SOCKET SO_DOMAIN (-1) sizeof_int st1 in
            if (r <? 0) || negb (optlen =? sizeof_int)
               || negb (opt =? AF_INET)
            then Some (pass saved_errno s _in len st2)
            else
              let '(flags, st3) := fcntl s F_GETFL None st2 in
              let '(_, st4) :=
                fcntl s F_SETFL (Some (Z.land flags (Z.lnot O_NONBLOCK))) st3 in
              match try_servers s socks_server st4 with
              | (None, st5) => Some (error s flags st5)
              | (Some _, st5) => negotiate fuel s sa ip flags st5
              end
  end.

End Program.

(** ** Reading the log *)

Definition ret_of (ev : event) : Z :=
  match ev with
  | EConnect _ _ _ r | EGetsockopt _ _ _ r | EFcntl _ _ _ r
  | ESend _ _ _ r | ERecv _ _ r | EShutdown _ _ r => r
  end.

Definition is_query (ev : event) : Prop :=
  match ev with
  | EGetsockopt _ _ _ _ => True
  | _ => False
  end.

(** The bytes the kernel accepted, over the [send] calls of a log. *)
Definition sent_bytes (evs : list event) : list Z :=
  flat_map (fun ev =>
              match ev with
              | ESend _ data _ r => firstn (Z.to_nat r) data
              | _ => []
              end) evs.

(** The SOCKS4 CONNECT request of the protocol for a port and an address given
    as numbers: version 4, command 1, the port and the address in network
    order, and the empty user id. *)
Definition socks4_connect_request (port ip : Z) : list Z :=
  [0x04; 0x01] ++ be16 port ++ be32 ip ++ [0x00].

(** The attempts on a list of candidates, with the value each one returned. *)
Definition attempts (s : Z) (servers : list addrinfo) (rets : list Z)
  : list event :=
  map (fun ar => EConnect s (Some (ai_addr (fst ar))) (ai_addrlen (fst ar))
                   (snd ar))
    (combine servers rets).

(** A failure of [send] or [recv] that the loops retry. *)
Definition transient (r e : Z) : Prop :=
  r < 0 /\ (e = EINTR \/ e = EAGAIN).

(** What is asked of one iteration of a transfer loop, given the value [r] the
    primitive returned and the [errno] it left: progress by [r] on success, a
    retry of the same transfer on a transient failure, and otherwise no further
    iteration. *)
Definition loop_discipline {C} (advance : Z -> C -> C) (r e : Z) (cur : C)
  (len : Z) (next : step C) : Prop :=
  (0 < r -> next = Again (advance r cur) (len - r))
  /\ (transient r e -> next = Again cur len)
  /\ (r <= 0 -> ~ transient r e ->
      match next with Again _ _ => False | _ => True end).

Definition advance_send (r : Z) (data : list Z) : list Z :=
  skipn (Z.to_nat r) data.

Definition advance_recv (bytes : list Z) (r : Z) (cur : list Z * nat)
  : list Z * nat :=
  (write_at (snd cur) (firstn (Z.to_nat r) bytes) (fst cur),
   (snd cur + Z.to_nat r)%nat).

(** First octet of an IPv4 address held in network byte order. *)
Definition first_octet (host : endianness) (ip : Z) : Z :=
  Z.shiftr (ntohl host ip) 24.

(** The multicast range 224.0.0.0/4. *)
Definition multicast_range (host : endianness) (ip : Z) : Prop :=
  224 <= first_octet host ip <= 239.

(** Whether a [getsockopt] query succeeded and reported [v]. *)
Definition reports (q : Z * Z * Z) (v : Z) : bool :=
  let '(r, opt, optlen) := q in
  negb (r <? 0) && (optlen =? sizeof_int) && (opt =? v).

(** ** Code paths of [connect] *)

Section Paths.

Context {W : Type}.
Variable host : endianness.
Variable os : OS W.
Variable socks_server : list addrinfo.
Variable uninit : list Z.

(** The two socket queries, as [connect] makes them. *)
Definition type_query (s : Z) (st : State W) : (Z * Z * Z) * State W :=
  getsockopt os s SOL_SOCKET SO_TYPE (-1) sizeof_int st.

Definition domain_query (s : Z) (st : State W) : (Z * Z * Z) * State W :=
  getsockopt os s SOL_SOCKET SO_DOMAIN (-1) sizeof_int st.

(** A request that fails a condition of the filter.  The notion of a multicast
    target is a parameter. *)
Inductive ineligible (multicast : Z -> Prop) (s : Z) (_in : option sockaddr)
  (len : Z) (st : State W) : Prop :=
| bad_descriptor : s < 0 -> ineligible multicast s _in len st
| null_address : _in = None -> ineligible multicast s _in len st
| short_address : len < sizeof_sockaddr -> ineligible multicast s _in len st
| wrong_family sa :
    _in = Some sa -> sa_family sa <> AF_INET ->
    ineligible multicast s _in len st
| unspecified_target sa :
    _in = Some sa -> sin_addr sa = INADDR_ANY ->
    ineligible multicast s _in len st
| broadcast_target sa :
    _in = Some sa -> sin_addr sa = INADDR_BROADCAST ->
    ineligible multicast s _in len st
| multicast_target sa :
    _in = Some sa -> multicast (sin_addr sa) ->
    ineligible multicast s _in len st
| loopback_target sa :
    _in = Some sa -> first_octet host (sin_addr sa) = 127 ->
    ineligible multicast s _in len st
| not_stream :
    reports (fst (type_query s st)) SOCK_STREAM = false ->
    ineligible multicast s _in len st
| not_inet_domain :
    reports (fst (domain_query s (snd (type_query s st)))) AF_INET = false ->
    ineligible multicast s _in len st.

(** States reached from [st] by socket queries on [s] alone. *)
Inductive queried (s : Z) (st : State W) : State W -> Prop :=
| queried_none : queried s st st
| queried_more level optname opt optlen st0 q st1 :
    queried s st st0 ->
    getsockopt os s level optname opt optlen st0 = (q, st1) ->
    queried s st st1.

(** Passthrough: the call is handed to the real [connect] with the caller's
    arguments and the [errno] of entry, and nothing but socket queries came
    before. *)
Definition passed_through (s : Z) (_in : option sockaddr) (len : Z)
  (st : State W) (result : option (Z * State W)) : Prop :=
  exists queries st0,
    Forall is_query queries
    /\ trace st0 = trace st ++ queries
    /\ errno st0 = errno st
    /\ result = Some (real_connect os s _in len st0).

(** The filter let the request through, the flags were captured and blocking
    mode was forced: [st4] is the state in which the candidates are tried. *)
Definition tunnel_entry (s : Z) (sa : sockaddr) (len : Z) (st : State W)
  (flags : Z) (st4 : State W) : Prop :=
  socks_server <> []
  /\ 0 <= s /\ sizeof_sockaddr <= len /\ sa_family sa = AF_INET
  /\ ignored_address host (sin_addr sa) = false
  /\ exists r1 st1 r2 st2 st3 r4,
      type_query s st = ((r1, SOCK_STREAM, sizeof_int), st1) /\ 0 <= r1
      /\ domain_query s st1 = ((r2, AF_INET, sizeof_int), st2) /\ 0 <= r2
      /\ fcntl os s F_GETFL None st2 = (flags, st3)
      /\ fcntl os s F_SETFL (Some (Z.land flags (Z.lnot O_NONBLOCK))) st3
         = (r4, st4).

(** A candidate accepted the transport connection: [st5] is the state in which
    the handshake starts. *)
Definition handshake_entry (s : Z) (sa : sockaddr) (len : Z) (st : State W)
  (flags : Z) (st5 : State W) : Prop :=
  exists st4 a,
    tunnel_entry s sa len st flags st4
    /\ try_servers os s socks_server st4 = (Some a, st5).

(** The request was sent in full and the read loop returned [r], leaving
    [response] in the buffer. *)
Definition response_read (fuel : nat) (s : Z) (sa : sockaddr) (len : Z)
  (st : State W) (flags : Z) (r : Z) (response : list Z) (st7 : State W)
  : Prop :=
  exists st5 st6,
    handshake_entry s sa len st flags st5
    /\ do_complete_send os fuel s
         (request_bytes host (message sa (sin_addr sa)))
         sizeof_socks4_request st5 = Some (0, st6)
    /\ do_complete_recv os fuel s (uninit, O) sizeof_socks4_response st6
       = Some (r, response, st7).

(** The failure exits of the transport and handshake phases, each with the
    state in which [goto error] is taken. *)
Inductive failure_exit (fuel : nat) (s : Z) (sa : sockaddr) (len : Z)
  (st : State W) (flags : Z) : State W -> Prop :=
| exhausted_list st4 st5 :
    tunnel_entry s sa len st flags st4 ->
    try_servers os s socks_server st4 = (None, st5) ->
    failure_exit fuel s sa len st flags st5
| send_failure st5 r st6 :
    handshake_entry s sa len st flags st5 ->
    do_complete_send os fuel s
      (request_bytes host (message sa (sin_addr sa)))
      sizeof_socks4_request st5 = Some (r, st6) ->
    r <> 0 ->
    failure_exit fuel s sa len st flags st6
| read_failure r response st7 :
    response_read fuel s sa len st flags r response st7 ->
    r <> 0 ->
    failure_exit fuel s sa len st flags st7
| denial response st7 :
    response_read fuel s sa len st flags 0 response st7 ->
    s4_status response <> SOCKS4_REQUEST_GRANTED ->
    failure_exit fuel s sa len st flags st7.

(** The states a call goes through on its way into the tunnel, computed along
    the code: captured flags and state at the loop over the candidates, state
    at the start of the handshake, state after the write loop, and outcome of
    the read loop. *)
Definition at_tunnel_entry (s : Z) (st : State W) : Z * State W :=
  let st1 := snd (type_query s st) in
  let st2 := snd (domain_query s st1) in
  let '(flags, st3) := fcntl os s F_GETFL None st2 in
  (flags,
   snd (fcntl os s F_SETFL (Some (Z.land flags (Z.lnot O_NONBLOCK))) st3)).

Definition at_handshake_entry (s : Z) (st : State W) : State W :=
  snd (try_servers os s socks_server (snd (at_tunnel_entry s st))).

Definition after_send (fuel : nat) (s : Z) (sa : sockaddr) (st : State W)
  : Z * State W :=
  match do_complete_send os fuel s
          (request_bytes host (message sa (sin_addr sa)))
          sizeof_socks4_request (at_handshake_entry s st) with
  | Some out => out
  | None => (0, at_handshake_entry s st)
  end.

Definition after_recv (fuel : nat) (s : Z) (sa : sockaddr) (st : State W)
  : Z * list Z * State W :=
  match do_complete_recv os fuel s (uninit, O) sizeof_socks4_response
          (snd (after_send fuel s sa st)) with
  | Some out => out
  | None => (0, uninit, snd (after_send fuel s sa st))
  end.

(** The error code that the operation failing last has set, if it has set one,
    and [ECONNREFUSED] otherwise: a primitive sets an error code when it
    returns a negative value, and the operation in question is the last one
    logged when the failure exit is taken. *)
Definition error_code_of_failing_operation (st_e : State W) : Z :=
  if ret_of (last (trace st_e) (EShutdown 0 0 0)) <? 0
  then errno st_e
  else ECONNREFUSED.

(** What the kernel is assumed to do with file status flags.  [fl w s] is the
    flag word of descriptor [s], if open; [mask] holds the bits [F_SETFL] can
    change. *)
Record flags_model (mask : Z) (fl : W -> Z -> option Z) : Prop := {
  query_needs_open :
    forall s level optname opt optlen e w q e' w',
      os_getsockopt os s level optname opt optlen e w = (q, e', w') ->
      0 <= fst (fst q) -> fl w s <> None;
  query_keeps_flags :
    forall s level optname opt optlen e w q e' w' s',
      os_getsockopt os s level optname opt optlen e w = (q, e', w') ->
      fl w' s' = fl w s';
  connect_keeps_flags :
    forall s addr len e w r e' w' s',
      os_connect os s addr len e w = (r, e', w') -> fl w' s' = fl w s';
  send_keeps_flags :
    forall s data len e w r e' w' s',
      os_send os s data len e w = (r, e', w') -> fl w' s' = fl w s';
  recv_keeps_flags :
    forall s len e w r e' w' s',
      os_recv os s len e w = (r, e', w') -> fl w' s' = fl w s';
  shutdown_keeps_flags :
    forall s how e w r e' w' s',
      os_shutdown os s how e w = (r, e', w') -> fl w' s' = fl w s';
  getfl_returns_flags :
    forall s e w r e' w' f,
      os_fcntl os s F_GETFL None e w = (r, e', w') ->
      fl w s = Some f -> r = f /\ fl w' s = Some f;
  setfl_sets_masked :
    forall s v e w r e' w' f,
      os_fcntl os s F_SETFL (Some v) e w = (r, e', w') ->
      fl w s = Some f ->
      fl w' s = Some (Z.lor (Z.land v mask) (Z.land f (Z.lnot mask)))
}.

End Paths.

(** ** A scripted kernel

    One open descriptor, a socket, whose network behaviour is read off three
    scripts: the outcomes of the next calls of [connect], [send] and [recv],
    each with the [errno] to set should the value be negative. *)

Record sim : Type := {
  sim_fd : Z;
  sim_type : Z;
  sim_domain : Z;
  sim_flags : Z;
  sim_connects : list (Z * Z);
  sim_sends : list (Z * Z);
  sim_recvs : list (Z * Z * list Z)
}.

Definition EBADF : Z := 9.
Definition EINVAL : Z := 22.
Definition EPIPE : Z := 32.
Definition ENOPROTOOPT : Z := 92.

(** [O_APPEND | O_NONBLOCK | O_ASYNC | O_DIRECT | O_NOATIME]. *)
Definition sim_mask : Z := 1024 + 2048 + 8192 + 16384 + 262144.

Definition outcome_errno (r e_script e : Z) : Z :=
  if r <? 0 then e_script else e.

Definition sim_connect (s : Z) (addr : option sockaddr) (len : Z)
  : primitive sim Z :=
  fun e w =>
    match sim_connects w with
    | [] => (-1, ECONNREFUSED, w)
    | (r, e1) :: rest =>
        (r, outcome_errno r e1 e,
         {| sim_fd := sim_fd w; sim_type := sim_type w;
            sim_domain := sim_domain w; sim_flags := sim_flags w;
            sim_connects := rest; sim_sends := sim_sends w;
            sim_recvs := sim_recvs w |})
    end.

Definition sim_getsockopt (s level optname opt optlen : Z)
  : primitive sim (Z * Z * Z) :=
  fun e w =>
    if negb (s =? sim_fd w) then ((-1, opt, optlen), EBADF, w)
    else if optname =? SO_TYPE then ((0, sim_type w, sizeof_int), e, w)
    else if optname =? SO_DOMAIN then ((0, sim_domain w, sizeof_int), e, w)
    else ((-1, opt, optlen), ENOPROTOOPT, w).

Definition sim_fcntl (s cmd : Z) (arg : option Z) : primitive sim Z :=
  fun e w =>
    if negb (s =? sim_fd w) then (-1, EBADF, w)
    else if cmd =? F_GETFL then (sim_flags w, e, w)
    else
      match arg with
      | Some v =>
          if cmd =? F_SETFL
          then (0, e,
                {| sim_fd := sim_fd w; sim_type := sim_type w;
                   sim_domain := sim_domain w;
                   sim_flags :=
                     Z.lor (Z.land v sim_mask)
                       (Z.land (sim_flags w) (Z.lnot sim_mask));
                   sim_connects := sim_connects w; sim_sends := sim_sends w;
                   sim_recvs := sim_recvs w |})
          else (-1, EINVAL, w)
      | None => (-1, EINVAL, w)
      end.

Definition sim_send (s : Z) (data : list Z) (len : Z) : primitive sim Z :=
  fun e w =>
    match sim_sends w with
    | [] => (-1, EPIPE, w)
    | (r, e1) :: rest =>
        (r, outcome_errno r e1 e,
         {| sim_fd := sim_fd w; sim_type := sim_type w;
            sim_domain := sim_domain w; sim_flags := sim_flags w;
            sim_connects := sim_connects w; sim_sends := rest;
            sim_recvs := sim_recvs w |})
    end.

Definition sim_recv (s : Z) (len : Z) : primitive sim (Z * list Z) :=
  fun e w =>
    match sim_recvs w with
    | [] => ((0, []), e, w)
    | (r, e1, bytes) :: rest =>
        ((r, bytes), outcome_errno r e1 e,
         {| sim_fd := sim_fd w; sim_type := sim_type w;
            sim_domain := sim_domain w; sim_flags := sim_flags w;
            sim_connects := sim_connects w; sim_sends := sim_sends w;
            sim_recvs := rest |})
    end.

Definition sim_shutdown (s how : Z) : primitive sim Z :=
  fun e w => if negb (s =? sim_fd w) then (-1, EBADF, w) else (0, e, w).

Definition sim_os : OS sim :=
  {| os_connect := sim_connect; os_getsockopt := sim_getsockopt;
     os_fcntl := sim_fcntl; os_send := sim_send; os_recv := sim_recv;
     os_shutdown := sim_shutdown |}.

Definition sim_fl (w : sim) (s : Z) : option Z :=
  if s =? sim_fd w then Some (sim_flags w) else None.

(** A kernel whose [send] accepts nothing and reports no error. *)
Definition stalled_os : OS unit :=
  {| os_connect := fun _ _ _ e w => (0, e, w);
     os_getsockopt := fun _ _ _ opt optlen e w => ((0, opt, optlen), e, w);
     os_fcntl := fun _ _ _ e w => (0, e, w);
     os_send := fun _ _ _ e w => (0, e, w);
     os_recv := fun _ _ e w => ((0, []), e, w);
     os_shutdown := fun _ _ e w => (0, e, w) |}.

(** *** Scenarios *)

(** The integer a host reads from four (two) bytes of memory. *)
Definition load32 (host : endianness) (a b c d : Z) : Z :=
  match host with
  | BigEndian => ((a * 256 + b) * 256 + c) * 256 + d
  | LittleEndian => ((d * 256 + c) * 256 + b) * 256 + a
  end.

Definition load16 (host : endianness) (a b : Z) : Z :=
  match host with
  | BigEndian => a * 256 + b
  | LittleEndian => b * 256 + a
  end.

Definition inet (host : endianness) (a b c d : Z) (port : Z) : sockaddr :=
  {| sa_family := AF_INET;
     sin_port := load16 host (port / 256) (port mod 256);
     sin_addr := load32 host a b c d |}.

(** Two proxy endpoints, 192.0.2.1:1080 and 192.0.2.2:1080. *)
Definition proxies (host : endianness) : list addrinfo :=
  [ {| ai_addr := inet host 192 0 2 1 1080; ai_addrlen := 16 |};
    {| ai_addr := inet host 192 0 2 2 1080; ai_addrlen := 16 |} ].

(** Descriptor 3 is a TCP socket over IPv4, opened [O_RDWR | O_NONBLOCK]. *)
Definition tcp_socket (connects sends : list (Z * Z))
  (recvs : list (Z * Z * list Z)) : sim :=
  {| sim_fd := 3; sim_type := SOCK_STREAM; sim_domain := AF_INET;
     sim_flags := 2 + O_NONBLOCK;
     sim_connects := connects; sim_sends := sends; sim_recvs := recvs |}.

Definition start {W} (e : Z) (w : W) : State W :=
  {| errno := e; world := w; trace := [] |}.

Definition junk : list Z := [170; 170; 170; 170; 170; 170; 170; 170].

(** A reply of the proxy with the given status byte. *)
Definition reply (status : Z) : list Z := [0; status; 0; 0; 0; 0; 0; 0].


(** A kernel whose scripts make the first proxy refuse and the second accept;
    [send] is interrupted once and then takes the request in two pieces; the
    reply comes in two pieces with a would-block in between. *)
Definition bumpy (status : Z) : sim :=
  tcp_socket [(-1, ECONNREFUSED); (0, 0)]
    [(-1, EINTR); (4, 0); (5, 0)]
    [(3, 0, [0; status; 0]); (-1, EAGAIN, []); (5, 0, [0; 0; 0; 0; 0])].

(** A kernel on which every call succeeds at once; the proxy replies with the
    given status. *)
Definition smooth (status : Z) : sim :=
  tcp_socket [(0, 0)] [(9, 0)] [(8, 0, reply status)].

(** A proxy that closes the connection after 3 bytes of its reply. *)
Definition hangup : sim :=
  tcp_socket [(0, 0)] [(9, 0)] [(3, 0, [0; 90; 0]); (0, 0, [])].

(** A kernel whose first [send] accepts nothing. *)
Definition sluggish : sim := tcp_socket [(0, 0)] [(0, 0); (9, 0)] [].

(** The target 93.184.216.34:80, and the multicast target 224.0.0.1:80. *)
Definition web (host : endianness) : sockaddr := inet host 93 184 216 34 80.
Definition all_hosts (host : endianness) : sockaddr := inet host 224 0 0 1 80.

(** ** More on the log *)

(** The descriptor a logged call was made on. *)
Definition descriptor_of (ev : event) : Z :=
  match ev with
  | EConnect s _ _ _ | EGetsockopt s _ _ _ | EFcntl s _ _ _
  | ESend s _ _ _ | ERecv s _ _ | EShutdown s _ _ => s
  end.

(** A [send] or [recv] on [s]. *)
Definition transfer_on (s : Z) (ev : event) : Prop :=
  match ev with
  | ESend s' _ _ _ | ERecv s' _ _ => s' = s
  | _ => False
  end.

(** A [send] on [s]; a [recv] on [s]. *)
Definition send_on (s : Z) (ev : event) : Prop :=
  match ev with
  | ESend s' _ _ _ => s' = s
  | _ => False
  end.

Definition recv_on (s : Z) (ev : event) : Prop :=
  match ev with
  | ERecv s' _ _ => s' = s
  | _ => False
  end.

(** A [getsockopt] on [s]. *)
Definition query_on (s : Z) (ev : event) : Prop :=
  match ev with
  | EGetsockopt s' _ _ _ => s' = s
  | _ => False
  end.

(** The number of bytes that the [send] and [recv] calls of a log report as
    transferred. *)
Definition transferred (evs : list event) : Z :=
  fold_right (fun ev n =>
                match ev with
                | ESend _ _ _ r | ERecv _ _ r => Z.max r 0 + n
                | _ => n
                end) 0 evs.

(** How the calls of [connect] on the tunnel path end: with the restoration of
    the flags when it returns 0, and with the restoration followed by the
    shutdown when it returns -1. *)
Definition closing (s flags r : Z) (tail : list event) : Prop :=
  (r = 0 /\ exists k, tail = [EFcntl s F_SETFL (Some flags) k])
  \/ (r = -1
      /\ exists k1 k2,
          tail = [EFcntl s F_SETFL (Some flags) k1; EShutdown s SHUT_RDWR k2]).

(** The calls of a run of [connect] that is passed through: at most two
    queries, then the real [connect] with the caller's arguments, whose value
    is returned. *)
Definition passthrough_log (s : Z) (_in : option sockaddr) (len r : Z)
  (calls : list event) : Prop :=
  exists queries,
    calls = queries ++ [EConnect s _in len r]
    /\ Forall (query_on s) queries
    /\ (length queries <= 2)%nat.

(** The calls of a run of [connect] that takes the tunnel: the two queries,
    the capture of the flags and the clearing of [O_NONBLOCK], attempts on a
    prefix of the endpoint list [servers], transfers on [s], and the closing
    calls. *)
Definition tunnel_log (servers : list addrinfo) (s : Z) (r : Z)
  (calls : list event) : Prop :=
  exists r1 r2 flags r4 tried rets transfers tail,
    calls
    = [EGetsockopt s SOL_SOCKET SO_TYPE r1;
       EGetsockopt s SOL_SOCKET SO_DOMAIN r2;
       EFcntl s F_GETFL None flags;
       EFcntl s F_SETFL (Some (Z.land flags (Z.lnot O_NONBLOCK))) r4]
        ++ attempts s tried rets ++ transfers ++ tail
    /\ length rets = length tried
    /\ (exists rest, servers = tried ++ rest)
    /\ Forall (transfer_on s) transfers
    /\ closing s flags r tail.

(** [st'] is the state in which a primitive has just failed on [s]: a real
    [connect] on a proxy endpoint that returned non-zero, or a [send] or a
    [recv] that returned a negative value. *)
Inductive failed_call {W} (os : OS W) (s : Z) (st' : State W) : Prop :=
| connect_refused a st r :
    real_connect os s (Some (ai_addr a)) (ai_addrlen a) st = (r, st') ->
    r <> 0 -> failed_call os s st'
| send_failed data len st k :
    send os s data len st = (k, st') -> k < 0 -> failed_call os s st'
| recv_failed len st k bytes :
    recv os s len st = ((k, bytes), st') -> k < 0 -> failed_call os s st'.

(** [read_iterations os s n c c']: from cursor, count and state [c] the read
    loop goes round [n] times and is then about to test its condition in
    [c']. *)
Inductive read_iterations {W} (os : OS W) (s : Z)
  : nat -> (list Z * nat) * Z * State W -> (list Z * nat) * Z * State W -> Prop :=
| read_none c : read_iterations os s O c c
| read_more n cur len st cur' len' st1 c :
    0 < len ->
    recv_body os s cur len st = (Again cur' len', st1) ->
    read_iterations os s n (cur', len', st1) c ->
    read_iterations os s (S n) (cur, len, st) c.

(** A descriptor in blocking mode. *)
Definition blocking {W} (fl : W -> Z -> option Z) (st : State W) (s : Z)
  : Prop :=
  exists f, fl (world st) s = Some f /\ Z.land f O_NONBLOCK = 0.

(** A kernel that transfers at once whatever it is asked to. *)
Definition greedy_os : OS unit :=
  {| os_connect := fun _ _ _ e w => (0, e, w);
     os_getsockopt := fun _ _ _ opt optlen e w => ((0, opt, optlen), e, w);
     os_fcntl := fun _ _ _ e w => (0, e, w);
     os_send := fun _ _ len e w =>
                  if len >? 0 then (len, e, w) else (-1, EINVAL, w);
     os_recv := fun _ len e w =>
                  if len >? 0 then ((len, repeat 0 (Z.to_nat len)), e, w)
                  else ((-1, []), EINVAL, w);
     os_shutdown := fun _ _ e w => (0, e, w) |}.

(** ** Loading the library *)

Module Init.

Import String.
Local Open Scope string_scope.

(** The fields of [hints] that [_init] sets; the others are zero. *)
Record hints : Type := {
  ai_family : Z;
  ai_socktype : Z
}.

(** What [_init] leaves behind: the process is gone ([abort]), or the two
    globals are set. *)
Inductive outcome (F : Type) : Type :=
| Aborted
| Loaded (real_connect : F) (socks_server : list addrinfo).
Arguments Aborted {F}.

Definition symbol_connect : string := "connect".
Definition SOCKS_SERVER : string := "SOCKS_SERVER".
Definition SOCKS_PORT : string := "SOCKS_PORT".
Definition default_service : string := "socks".

(** [dlsym_next name] is [dlsym(RTLD_NEXT, name)], [None] for [NULL];
    [getenv] likewise.  [getaddrinfo node service hints res] is given the
    contents of [*res] before the call and returns its value together with the
    contents of [*res] after the call.  [socks_server] is a static variable,
    [NULL] when [_init] runs. *)
Definition _init {F : Type} (dlsym_next : string -> option F)
  (getenv : string -> option string)
  (getaddrinfo : string -> string -> hints -> list addrinfo
                 -> Z * list addrinfo)
  : outcome F :=
  match dlsym_next symbol_connect with
  | None => Aborted
  | Some real_connect =>
      match getenv SOCKS_SERVER with
      | None => Loaded real_connect []
      | Some socks_host =>
          let socks_port :=
            match getenv SOCKS_PORT with
            | Some port => port
            | None => default_service
            end in
          let hints := {| ai_family := AF_INET; ai_socktype := SOCK_STREAM |} in
          let '(_, socks_server) :=
            getaddrinfo socks_host socks_port hints [] in
          Loaded real_connect socks_server
      end
  end.

(** The primitives of the process once [real_connect] is set. *)
Definition with_real_connect {W} (os : OS W)
  (real_connect : Z -> option sockaddr -> Z -> primitive W Z) : OS W :=
  {| os_connect := real_connect;
     os_getsockopt := os_getsockopt os;
     os_fcntl := os_fcntl os;
     os_send := os_send os;
     os_recv := os_recv os;
     os_shutdown := os_shutdown os |}.

(** A call of [connect] in a process that has loaded the library: [None] when
    [_init] has aborted the process. *)
Definition interposed {W} (host : endianness) (os : OS W)
  (dlsym_next : string -> option (Z -> option sockaddr -> Z -> primitive W Z))
  (getenv : string -> option string)
  (getaddrinfo : string -> string -> hints -> list addrinfo
                 -> Z * list addrinfo)
  (uninit : list Z) (fuel : nat) (s : Z) (_in : option sockaddr) (len : Z)
  (st : State W) : option (option (Z * State W)) :=
  match _init dlsym_next getenv getaddrinfo with
  | Aborted => None
  | Loaded real_connect socks_server =>
      Some (connect host (with_real_connect os real_connect) socks_server
              uninit fuel s _in len st)
  end.

(** An environment with no variable set, one with only [SOCKS_SERVER], and a
    resolver that fails, leaving [*res] alone; one that finds the two
    proxies. *)
Definition no_env (name : string) : option string := None.

Definition proxy_env (name : string) : option string :=
  if String.eqb name SOCKS_SERVER then Some "proxy.example" else None.

Definition no_such_host (node service : string) (h : hints)
  (res : list addrinfo) : Z * list addrinfo := (-2, res).

Definition resolver (host : endianness) (node service : string) (h : hints)
  (res : list addrinfo) : Z * list addrinfo := (0, proxies host).

(** A resolver that knows one host, which is not the proxy of [proxy_env]. *)
Definition knows_another_host (host : endianness) (node service : string)
  (h : hints) (res : list addrinfo) : Z * list addrinfo :=
  if String.eqb node "other.example" then (0, proxies host) else (-2, res).

End Init.

(** ** More scenarios *)

(** The request for 93.184.216.34:80. *)
Definition request : list Z := [4; 1; 0; 80; 93; 184; 216; 34; 0].

(** A connection that takes 4 bytes and then breaks. *)
Definition broken_pipe : sim := tcp_socket [] [(4, 0)] [].

(** A connection that is reset after 3 bytes of the reply; proxies that cannot
    be reached, the first for want of a route and the second timing out. *)
Definition ECONNRESET : Z := 104.
Definition ETIMEDOUT : Z := 110.
Definition EHOSTUNREACH : Z := 113.

Definition reset_by_peer : sim :=
  tcp_socket [(0, 0)] [(9, 0)] [(3, 0, [0; 90; 0]); (-1, ECONNRESET, [])].

Definition unreachable : sim :=
  tcp_socket [(-1, EHOSTUNREACH); (-1, ETIMEDOUT)] [] [].
(** * Properties *)

(** ** Bytes *)

Lemma testbit_byte_at (k x n : Z) :
  0 <= k -> 0 <= n ->
  Z.testbit (byte_at k x) n = (n <? 8) && Z.testbit x (n + 8 * k).
Proof.
  intros Hk Hn; unfold byte_at; change 255 with (Z.ones 8).
  rewrite Z.land_spec, Z.shiftr_spec, Z.testbit_ones by lia.
  destruct (Z.leb_spec 0 n); [|lia].
  cbn [andb]; apply Bool.andb_comm.
Qed.

Lemma testbit_shifted_byte (k m x n : Z) :
  0 <= k -> 0 <= m -> 0 <= n ->
  Z.testbit (Z.shiftl (byte_at k x) m) n
  = (m <=? n) && (n <? m + 8) && Z.testbit x (n - m + 8 * k).
Proof.
  intros Hk Hm Hn; rewrite Z.shiftl_spec by lia.
  destruct (Z.leb_spec m n).
  - rewrite testbit_byte_at by lia; cbn [andb].
    destruct (Z.ltb_spec (n - m) 8), (Z.ltb_spec n (m + 8)); try lia;
      reflexivity.
  - rewrite Z.testbit_neg_r by lia; reflexivity.
Qed.

Ltac bytes :=
  apply Z.bits_inj'; intros n Hn;
  repeat first
    [ rewrite testbit_byte_at by lia
    | rewrite testbit_shifted_byte by lia
    | rewrite Z.lor_spec ];
  repeat match goal with
    | |- context [Z.leb ?a ?b] => destruct (Z.leb_spec a b); try lia
    | |- context [Z.ltb ?a ?b] => destruct (Z.ltb_spec a b); try lia
    end;
  cbn [andb orb];
  rewrite ?Bool.orb_false_r;
  try reflexivity;
  try (f_equal; lia).

Lemma be16_bswap16 (x : Z) : be16 (bswap16 x) = rev (be16 x).
Proof.
  unfold be16, bswap16; cbn [rev app].
  f_equal; [|f_equal]; bytes.
Qed.

Lemma be32_bswap32 (x : Z) : be32 (bswap32 x) = rev (be32 x).
Proof.
  unfold be32, bswap32; cbn [rev app].
  f_equal; [|f_equal; [|f_equal; [|f_equal]]]; bytes.
Qed.

(** What a host stores is the network-order encoding of the value it would
    obtain with [ntohs] / [ntohl]. *)
Lemma store16_network (host : endianness) (x : Z) :
  store16 host x = be16 (ntohs host x).
Proof.
  destruct host; cbn [store16 ntohs]; [symmetry; apply be16_bswap16 | reflexivity].
Qed.

Lemma store32_network (host : endianness) (x : Z) :
  store32 host x = be32 (ntohl host x).
Proof.
  destruct host; cbn [store32 ntohl]; [symmetry; apply be32_bswap32 | reflexivity].
Qed.

(** ** States and logs *)

Lemma set_errno_same {W} (st : State W) : set_errno (errno st) st = st.
Proof. destruct st; reflexivity. Qed.

Lemma syscall_trace {W A} (p : primitive W A) (ev : A -> event)
  (st st' : State W) (a : A) :
  syscall p ev st = (a, st') -> trace st' = trace st ++ [ev a].
Proof.
  unfold syscall; destruct (p (errno st) (world st)) as [[a0 e] w].
  intros H; inversion H; subst; reflexivity.
Qed.

Lemma syscall_world {W A} (p : primitive W A) (ev : A -> event)
  (st st' : State W) (a : A) :
  syscall p ev st = (a, st') ->
  p (errno st) (world st) = (a, errno st', world st').
Proof.
  unfold syscall; destruct (p (errno st) (world st)) as [[a0 e] w].
  intros H; inversion H; subst; reflexivity.
Qed.

Section Facts.

Context {W : Type}.
Variable host : endianness.
Variable os : OS W.
Variable uninit : list Z.

Implicit Types (st : State W) (s len flags : Z) (sa : sockaddr).

Lemma pass_is_real_connect s _in len st :
  pass os (errno st) s _in len st = real_connect os s _in len st.
Proof. unfold pass; rewrite set_errno_same; reflexivity. Qed.

Lemma error_result s flags st :
  exists k1 k2 st',
    error os s flags st = (-1, st')
    /\ errno st' = (if errno st =? 0 then ECONNREFUSED else errno st)
    /\ trace st'
       = trace st ++ [EFcntl s F_SETFL (Some flags) k1; EShutdown s SHUT_RDWR k2].
Proof.
  unfold error.
  destruct (fcntl os s F_SETFL (Some flags) st) as [k1 st1] eqn:E1.
  destruct (shutdown os s SHUT_RDWR st1) as [k2 st2] eqn:E2.
  exists k1, k2, (set_errno (if errno st =? 0 then ECONNREFUSED else errno st) st2).
  apply syscall_trace in E1; apply syscall_trace in E2.
  repeat split; cbn [set_errno trace].
  rewrite E2, E1, <- app_assoc; reflexivity.
Qed.

(** *** The filter *)

Lemma connect_at_tunnel_entry socks_server fuel s sa len st flags st4 :
  tunnel_entry host os socks_server s sa len st flags st4 ->
  connect host os socks_server uninit fuel s (Some sa) len st
  = match try_servers os s socks_server st4 with
    | (None, st5) => Some (error os s flags st5)
    | (Some _, st5) => negotiate host os uninit fuel s sa (sin_addr sa) flags st5
    end.
Proof.
  intros (Hne & Hs & Hlen & Hfam & Hip & r1 & st1 & r2 & st2 & st3 & r4
          & Hq1 & Hr1 & Hq2 & Hr2 & Hg & Hset).
  unfold connect, type_query, domain_query in *.
  destruct socks_server as [|a l]; [congruence|].
  replace (s <? 0) with false by (symmetry; apply Z.ltb_ge; lia).
  replace (len <? sizeof_sockaddr) with false by (symmetry; apply Z.ltb_ge; lia).
  rewrite Hfam, Hip, Hq1; cbn [orb negb].
  replace (r1 <? 0) with false by (symmetry; apply Z.ltb_ge; lia).
  rewrite !Z.eqb_refl, Hq2; cbn [orb negb].
  replace (r2 <? 0) with false by (symmetry; apply Z.ltb_ge; lia).
  rewrite !Z.eqb_refl, Hg, Hset; cbn [orb negb].
  reflexivity.
Qed.

(** C1.  With an empty endpoint list [connect] is the real [connect]: the
    same arguments, run in the state of entry, so that the real primitive sees
    the caller's [errno], and its return value and the [errno] it leaves are
    the result.  This holds for every descriptor, address and length. *)
Theorem connect_without_proxy fuel s _in len st :
  connect host os [] uninit fuel s _in len st
  = Some (real_connect os s _in len st).
Proof.
  unfold connect; rewrite pass_is_real_connect; reflexivity.
Qed.

Lemma queried_log s st st0 :
  queried os s st st0 ->
  exists queries, Forall is_query queries /\ trace st0 = trace st ++ queries.
Proof.
  induction 1 as [|level optname opt optlen st0 q st1 _ (qs & HF & Ht) Hq].
  - exists []; rewrite app_nil_r; auto.
  - apply syscall_trace in Hq.
    exists (qs ++ [EGetsockopt s level optname (fst (fst q))]); split.
    + apply Forall_app; split; [assumption | repeat constructor].
    + rewrite Hq, Ht, app_assoc; reflexivity.
Qed.

Lemma queried_passed_through s _in len st st0 :
  queried os s st st0 ->
  passed_through os s _in len st (Some (pass os (errno st) s _in len st0)).
Proof.
  intros Hq; destruct (queried_log Hq) as (qs & HF & Ht).
  exists qs, (set_errno (errno st) st0); auto.
Qed.

(** The filter either passes the call through, after queries only, or every
    one of its conditions holds. *)
Lemma filter_cases socks_server fuel s _in len st :
  (exists st0,
      queried os s st st0
      /\ connect host os socks_server uninit fuel s _in len st
         = Some (pass os (errno st) s _in len st0))
  \/ exists sa,
      _in = Some sa /\ socks_server <> [] /\ 0 <= s /\ sizeof_sockaddr <= len
      /\ sa_family sa = AF_INET /\ ignored_address host (sin_addr sa) = false
      /\ reports (fst (type_query os s st)) SOCK_STREAM = true
      /\ reports (fst (domain_query os s (snd (type_query os s st)))) AF_INET
         = true.
Proof.
  unfold connect.
  destruct socks_server as [|a l]; [left; exists st; split; [constructor|reflexivity]|].
  destruct _in as [sa|]; [|left; exists st; split; [constructor|reflexivity]].
  destruct (Z.ltb_spec s 0); [left; exists st; split; [constructor|reflexivity]|].
  destruct (Z.ltb_spec len sizeof_sockaddr);
    [left; exists st; split; [constructor|reflexivity]|].
  destruct (Z.eqb_spec (sa_family sa) AF_INET);
    [|left; exists st; split; [constructor|reflexivity]].
  cbn [orb negb].
  destruct (ignored_address host (sin_addr sa)) eqn:Hip;
    [left; exists st; split; [constructor|reflexivity]|].
  unfold type_query, domain_query.
  destruct (getsockopt os s SOL_SOCKET SO_TYPE (-1) sizeof_int st)
    as [[[r1 o1] l1] st1] eqn:Hq1.
  cbn [fst snd reports].
  assert (queried os s st st1) as Q1 by (econstructor; [constructor|exact Hq1]).
  destruct ((r1 <? 0) || negb (l1 =? sizeof_int) || negb (o1 =? SOCK_STREAM))
    eqn:Ht.
  { left; exists st1; split; [assumption|reflexivity]. }
  destruct (getsockopt os s SOL_SOCKET SO_DOMAIN (-1) sizeof_int st1)
    as [[[r2 o2] l2] st2] eqn:Hq2.
  cbn [fst snd].
  destruct ((r2 <? 0) || negb (l2 =? sizeof_int) || negb (o2 =? AF_INET))
    eqn:Hd.
  { left; exists st2; split; [econstructor; eassumption|reflexivity]. }
  right; exists sa.
  apply Bool.orb_false_iff in Ht as [Ht Ht3].
  apply Bool.orb_false_iff in Ht as [Ht1 Ht2].
  apply Bool.orb_false_iff in Hd as [Hd Hd3].
  apply Bool.orb_false_iff in Hd as [Hd1 Hd2].
  apply Bool.negb_false_iff in Ht2, Ht3, Hd2, Hd3.
  cbn [fst snd reports]; rewrite Ht1, Ht2, Ht3, Hd1, Hd2, Hd3.
  repeat split; auto; congruence.
Qed.

(** An eligible request enters the tunnel. *)
Lemma eligible_enters_tunnel socks_server s sa len st :
  socks_server <> [] -> 0 <= s -> sizeof_sockaddr <= len ->
  sa_family sa = AF_INET -> ignored_address host (sin_addr sa) = false ->
  reports (fst (type_query os s st)) SOCK_STREAM = true ->
  reports (fst (domain_query os s (snd (type_query os s st)))) AF_INET = true ->
  exists flags st4, tunnel_entry host os socks_server s sa len st flags st4.
Proof.
  intros Hne Hs Hlen Hfam Hip Ht Hd.
  destruct (type_query os s st) as [[[r1 o1] l1] st1] eqn:Hq1.
  destruct (domain_query os s st1) as [[[r2 o2] l2] st2] eqn:Hq2.
  cbn [fst snd] in Ht, Hd; rewrite Hq2 in Hd; cbn [fst reports] in Ht, Hd.
  apply Bool.andb_true_iff in Ht as [Ht Ht3].
  apply Bool.andb_true_iff in Ht as [Ht1 Ht2].
  apply Bool.andb_true_iff in Hd as [Hd Hd3].
  apply Bool.andb_true_iff in Hd as [Hd1 Hd2].
  apply Bool.negb_true_iff, Z.ltb_ge in Ht1, Hd1.
  apply Z.eqb_eq in Ht2, Ht3, Hd2, Hd3; subst.
  destruct (fcntl os s F_GETFL None st2) as [flags st3] eqn:Hg.
  destruct (fcntl os s F_SETFL (Some (Z.land flags (Z.lnot O_NONBLOCK))) st3)
    as [r4 st4] eqn:Hset.
  exists flags, st4; unfold tunnel_entry.
  repeat (split; [assumption|]).
  exists r1, st1, r2, st2, st3, r4; rewrite Hq2; auto 10.
Qed.

(** Every condition of the filter, as the code tests it, forces passthrough:
    the multicast test is that of the code, [IN_MULTICAST] on the address as
    the host reads it. *)
Theorem ineligible_passes_through socks_server fuel s _in len st :
  ineligible host os (fun ip => IN_MULTICAST ip = true) s _in len st ->
  passed_through os s _in len st
    (connect host os socks_server uninit fuel s _in len st).
Proof.
  intros Hin.
  destruct (filter_cases socks_server fuel s _in len st)
    as [(st0 & Hq & ->) | (sa & Hsa & Hne & Hs & Hlen & Hfam & Hip & Ht & Hd)];
    [apply queried_passed_through; exact Hq | exfalso].
  unfold ignored_address in Hip.
  apply Bool.orb_false_iff in Hip as [Hip H127].
  apply Bool.orb_false_iff in Hip as [Hip Hmc].
  apply Bool.orb_false_iff in Hip as [Hany Hbc].
  apply Z.eqb_neq in Hany, Hbc, H127.
  destruct Hin as [H|H|H|sa' E H|sa' E H|sa' E H|sa' E H|sa' E H|H|H];
    try (rewrite Hsa in E; inversion E; subst sa');
    try congruence; try lia.
  apply H127; exact H.
Qed.

(** *** The transfer loops *)

Lemma send_body_cases s data len st :
  exists k st1,
    send os s data len st = (k, st1)
    /\ trace st1 = trace st ++ [ESend s data len k]
    /\ (send_body os s data len st = (Return (-1), st1) /\ k < 0
        /\ errno st1 <> EINTR /\ errno st1 <> EAGAIN
        \/ send_body os s data len st
           = (Again (skipn (Z.to_nat k) data) (len - k), st1) /\ 0 < k
        \/ send_body os s data len st = (Again data len, st1) /\ k = 0
        \/ send_body os s data len st = (Again data len, st1)
           /\ transient k (errno st1)).
Proof.
  unfold send_body, transient.
  destruct (send os s data len st) as [k st1] eqn:E.
  exists k, st1; split; [reflexivity|]; split; [exact (syscall_trace _ _ _ E)|].
  destruct (Z.ltb_spec k 0); cbn [andb].
  - destruct (Z.eqb_spec (errno st1) EINTR); cbn [negb andb].
    + destruct (Z.gtb_spec k 0); [lia|].
      right; right; right; auto.
    + destruct (Z.eqb_spec (errno st1) EAGAIN); cbn [negb].
      * destruct (Z.gtb_spec k 0); [lia|].
        right; right; right; auto.
      * left; auto.
  - destruct (Z.gtb_spec k 0).
    + right; left; auto.
    + right; right; left; split; [reflexivity | lia].
Qed.

Lemma recv_body_cases s cur len st :
  exists k bytes st1,
    recv os s len st = ((k, bytes), st1)
    /\ trace st1 = trace st ++ [ERecv s len k]
    /\ (recv_body os s cur len st = (Return (-1), st1) /\ k < 0
        /\ errno st1 <> EINTR /\ errno st1 <> EAGAIN
        \/ recv_body os s cur len st = (Break cur len, st1) /\ k = 0
        \/ recv_body os s cur len st
           = (Again (advance_recv bytes k cur) (len - k), st1) /\ 0 < k
        \/ recv_body os s cur len st = (Again cur len, st1)
           /\ transient k (errno st1)).
Proof.
  unfold recv_body, transient, advance_recv; destruct cur as [buf off].
  destruct (recv os s len st) as [[k bytes] st1] eqn:E.
  exists k, bytes, st1; split; [reflexivity|]; split;
    [exact (syscall_trace _ _ _ E)|].
  cbn [fst snd].
  destruct (Z.ltb_spec k 0); cbn [andb].
  - destruct (Z.eqb_spec k 0); [lia|].
    destruct (Z.gtb_spec k 0); [lia|].
    destruct (Z.eqb_spec (errno st1) EINTR); cbn [negb andb].
    + right; right; right; auto.
    + destruct (Z.eqb_spec (errno st1) EAGAIN); cbn [negb].
      * right; right; right; auto.
      * left; auto.
  - destruct (Z.eqb_spec k 0); [right; left; auto|].
    destruct (Z.gtb_spec k 0); [|lia].
    right; right; left; auto.
Qed.

Lemma send_loop_done fuel s data len st :
  len <= 0 -> do_complete_send os fuel s data len st = Some (0, st).
Proof.
  intros H; destruct fuel; cbn [do_complete_send];
    destruct (Z.gtb_spec len 0); try lia; reflexivity.
Qed.

Lemma send_loop_step fuel s data len st :
  0 < len ->
  do_complete_send os (S fuel) s data len st
  = match send_body os s data len st with
    | (Again data' len', st1) => do_complete_send os fuel s data' len' st1
    | (Break _ _, st1) => Some (0, st1)
    | (Return r, st1) => Some (r, st1)
    end.
Proof.
  intros H; cbn [do_complete_send]; destruct (Z.gtb_spec len 0); [|lia].
  reflexivity.
Qed.

Lemma recv_loop_done fuel s cur len st :
  len <= 0 ->
  do_complete_recv os fuel s cur len st = Some (nonzero len, fst cur, st).
Proof.
  intros H; destruct fuel; cbn [do_complete_recv];
    destruct (Z.gtb_spec len 0); try lia; reflexivity.
Qed.

Lemma recv_loop_step fuel s cur len st :
  0 < len ->
  do_complete_recv os (S fuel) s cur len st
  = match recv_body os s cur len st with
    | (Again cur' len', st1) => do_complete_recv os fuel s cur' len' st1
    | (Break cur' len', st1) => Some (nonzero len', fst cur', st1)
    | (Return r, st1) => Some (r, fst cur, st1)
    end.
Proof.
  intros H; cbn [do_complete_recv]; destruct (Z.gtb_spec len 0); [|lia].
  reflexivity.
Qed.

Lemma loop_needs_fuel_send s data len st :
  0 < len -> do_complete_send os O s data len st = None.
Proof.
  intros H; cbn [do_complete_send]; destruct (Z.gtb_spec len 0); [|lia].
  reflexivity.
Qed.

Lemma loop_needs_fuel_recv s cur len st :
  0 < len -> do_complete_recv os O s cur len st = None.
Proof.
  intros H; cbn [do_complete_recv]; destruct (Z.gtb_spec len 0); [|lia].
  reflexivity.
Qed.

(** The log of a run of the write loop: it starts with a [send] of the whole
    buffer, and when the loop returns 0 the kernel has accepted the buffer, byte
    for byte. *)
Lemma send_loop_log fuel :
  forall s data len st r st',
    do_complete_send os fuel s data len st = Some (r, st') ->
    exists evs,
      trace st' = trace st ++ evs
      /\ (0 < len -> exists k evs', evs = ESend s data len k :: evs')
      /\ (r = 0 -> len = Z.of_nat (length data) -> sent_bytes evs = data).
Proof.
  induction fuel as [|fuel IH]; intros s data len st r st' Hrun;
    destruct (Z.lt_ge_cases 0 len) as [Hlen|Hlen].
  - rewrite loop_needs_fuel_send in Hrun by assumption; discriminate.
  - rewrite send_loop_done in Hrun by assumption; inversion Hrun; subst.
    exists []; rewrite app_nil_r; repeat split; try lia.
    intros _ Hl; destruct data; [reflexivity | cbn [length] in Hl; lia].
  - rewrite send_loop_step in Hrun by assumption.
    destruct (send_body_cases s data len st)
      as (k & st1 & _ & Ht & [(Hb & Hk & _) | [(Hb & Hk) | [(Hb & Hk) | (Hb & Hk & _)]]]);
      rewrite Hb in Hrun.
    + inversion Hrun; subst.
      exists [ESend s data len k]; repeat split; eauto.
      intros; lia.
    + destruct (IH _ _ _ _ _ _ Hrun) as (evs & Ht' & _ & Hsent).
      exists (ESend s data len k :: evs); split; [|split].
      * rewrite Ht', Ht, <- app_assoc; reflexivity.
      * eauto.
      * intros Hr Hl; cbn [sent_bytes flat_map].
        destruct (Z.lt_ge_cases 0 (len - k)) as [Hmore|Hall].
        -- fold (sent_bytes evs); rewrite Hsent; [apply firstn_skipn|assumption|].
           rewrite length_skipn; lia.
        -- rewrite send_loop_done in Hrun by lia.
           inversion Hrun; subst st'.
           assert (evs = []) as ->
               by (apply (app_inv_head (trace st1)); rewrite app_nil_r; auto).
           cbn [flat_map]; rewrite app_nil_r; apply firstn_all2; lia.
    + destruct (IH _ _ _ _ _ _ Hrun) as (evs & Ht' & _ & Hsent).
      exists (ESend s data len k :: evs); split; [|split].
      * rewrite Ht', Ht, <- app_assoc; reflexivity.
      * eauto.
      * intros Hr Hl; subst k; cbn [sent_bytes flat_map Z.to_nat firstn app].
        apply Hsent; assumption.
    + destruct (IH _ _ _ _ _ _ Hrun) as (evs & Ht' & _ & Hsent).
      exists (ESend s data len k :: evs); split; [|split].
      * rewrite Ht', Ht, <- app_assoc; reflexivity.
      * eauto.
      * intros Hr Hl; cbn [sent_bytes flat_map].
        replace (Z.to_nat k) with O by lia; cbn [firstn app].
        apply Hsent; assumption.
  - rewrite send_loop_done in Hrun by assumption; inversion Hrun; subst.
    exists []; rewrite app_nil_r; repeat split; try lia.
    intros _ Hl; destruct data; [reflexivity | cbn [length] in Hl; lia].
Qed.

(** The log of a run of the read loop: no [send], and if the last call is a
    zero-length read the loop reports failure. *)
Lemma recv_loop_log fuel :
  forall s cur len st r response st',
    do_complete_recv os fuel s cur len st = Some (r, response, st') ->
    exists evs,
      trace st' = trace st ++ evs
      /\ sent_bytes evs = []
      /\ (forall pre s' l, evs = pre ++ [ERecv s' l 0] -> r = 1).
Proof.
  induction fuel as [|fuel IH]; intros s cur len st r response st' Hrun;
    destruct (Z.lt_ge_cases 0 len) as [Hlen|Hlen];
    try (rewrite recv_loop_done in Hrun by assumption; inversion Hrun; subst;
         exists []; rewrite app_nil_r; repeat split;
         intros [|? ?] ? ? ?; discriminate).
  - rewrite loop_needs_fuel_recv in Hrun by assumption; discriminate.
  - rewrite recv_loop_step in Hrun by assumption.
    destruct (recv_body_cases s cur len st)
      as (k & bytes & st1 & _ & Ht
          & [(Hb & Hk & _) | [(Hb & Hk) | [(Hb & Hk) | (Hb & Hk & _)]]]);
      rewrite Hb in Hrun.
    + inversion Hrun; subst.
      exists [ERecv s len k]; repeat split; auto.
      intros [|? [|? ?]] ? ? E; inversion E; lia.
    + inversion Hrun; subst.
      exists [ERecv s len 0]; repeat split; auto.
      intros _ _ _ _; unfold nonzero; destruct (Z.eqb_spec len 0); [lia|reflexivity].
    + destruct (IH _ _ _ _ _ _ _ Hrun) as (evs & Ht' & Hsent & Heof).
      exists (ERecv s len k :: evs); split; [|split].
      * rewrite Ht', Ht, <- app_assoc; reflexivity.
      * exact Hsent.
      * intros [|e pre] s' l E; inversion E; subst; [lia|].
        eapply Heof; reflexivity.
    + destruct (IH _ _ _ _ _ _ _ Hrun) as (evs & Ht' & Hsent & Heof).
      exists (ERecv s len k :: evs); split; [|split].
      * rewrite Ht', Ht, <- app_assoc; reflexivity.
      * exact Hsent.
      * intros [|e pre] s' l E; inversion E; subst; [lia|].
        eapply Heof; reflexivity.
Qed.

(** *** Exits of the tunnel *)

Lemma connect_at_handshake_entry socks_server fuel s sa len st flags st5 :
  handshake_entry host os socks_server s sa len st flags st5 ->
  connect host os socks_server uninit fuel s (Some sa) len st
  = negotiate host os uninit fuel s sa (sin_addr sa) flags st5.
Proof.
  intros (st4 & a & Hin & Htry).
  rewrite (connect_at_tunnel_entry fuel Hin), Htry; reflexivity.
Qed.

Lemma connect_at_failure_exit socks_server fuel s sa len st flags st_e :
  failure_exit host os socks_server uninit fuel s sa len st flags st_e ->
  connect host os socks_server uninit fuel s (Some sa) len st
  = Some (error os s flags st_e).
Proof.
  intros [st4 st5 Hin Htry
         | st5 r st6 Hh Hsend Hr
         | r response st7 (st5 & st6 & Hh & Hsend & Hrecv) Hr
         | response st7 (st5 & st6 & Hh & Hsend & Hrecv) Hst].
  - rewrite (connect_at_tunnel_entry fuel Hin), Htry; reflexivity.
  - rewrite (connect_at_handshake_entry fuel Hh); unfold negotiate.
    rewrite Hsend; destruct (Z.eqb_spec r 0); [contradiction|reflexivity].
  - rewrite (connect_at_handshake_entry fuel Hh); unfold negotiate.
    rewrite Hsend, Hrecv; cbn [Z.eqb negb].
    destruct (Z.eqb_spec r 0); [contradiction|reflexivity].
  - rewrite (connect_at_handshake_entry fuel Hh); unfold negotiate.
    rewrite Hsend, Hrecv; cbn [Z.eqb negb].
    destruct (Z.eqb_spec (s4_status response) SOCKS4_REQUEST_GRANTED);
      [contradiction|reflexivity].
Qed.

Lemma connect_at_grant socks_server fuel s sa len st flags response st7 :
  response_read host os socks_server uninit fuel s sa len st flags 0 response
    st7 ->
  s4_status response = SOCKS4_REQUEST_GRANTED ->
  connect host os socks_server uninit fuel s (Some sa) len st
  = Some (0, snd (fcntl os s F_SETFL (Some flags) st7)).
Proof.
  intros (st5 & st6 & Hh & Hsend & Hrecv) Hst.
  rewrite (connect_at_handshake_entry fuel Hh); unfold negotiate.
  rewrite Hsend, Hrecv, Hst; cbn [Z.eqb negb].
  destruct (fcntl os s F_SETFL (Some flags) st7); reflexivity.
Qed.

(** C3.  Once the transport connection stands and the read loop has delivered
    the whole response, [connect] returns 0 exactly when the status byte is
    0x5A.  With any other status byte it returns -1, [errno] is not 0, and the
    last two operations on the socket are the restoration of the flags and
    [shutdown(s, SHUT_RDWR)]. *)
Theorem granted_iff_status socks_server fuel s sa len st flags response st7 :
  response_read host os socks_server uninit fuel s sa len st flags 0 response
    st7 ->
  exists r st',
    connect host os socks_server uninit fuel s (Some sa) len st = Some (r, st')
    /\ (r = 0 <-> s4_status response = 0x5a)
    /\ (s4_status response <> 0x5a ->
        r = -1 /\ errno st' <> 0
        /\ exists k1 k2,
            trace st'
            = trace st7
                ++ [EFcntl s F_SETFL (Some flags) k1; EShutdown s SHUT_RDWR k2]).
Proof.
  intros Hread.
  destruct (Z.eq_dec (s4_status response) SOCKS4_REQUEST_GRANTED) as [Hst|Hst].
  - rewrite (connect_at_grant Hread Hst).
    eexists _, _; split; [reflexivity|]; split; [tauto | contradiction].
  - rewrite (connect_at_failure_exit (denial Hread Hst)).
    destruct (error_result s flags st7) as (k1 & k2 & st' & -> & He & Ht).
    exists (-1), st'; split; [reflexivity|]; split; [|intros _; split; [|split]].
    + split; [discriminate | contradiction].
    + reflexivity.
    + rewrite He; destruct (Z.eqb_spec (errno st7) 0); [discriminate|assumption].
    + eauto.
Qed.


(** C10.  On the granted path [connect] returns 0 in the state the last
    [fcntl] leaves: [errno] is not put back to its value of entry, it is
    whatever the operations of the negotiation left. *)
Theorem success_leaves_errno socks_server fuel s sa len st flags response st7 :
  response_read host os socks_server uninit fuel s sa len st flags 0 response
    st7 ->
  s4_status response = SOCKS4_REQUEST_GRANTED ->
  exists k st8,
    fcntl os s F_SETFL (Some flags) st7 = (k, st8)
    /\ connect host os socks_server uninit fuel s (Some sa) len st
       = Some (0, st8).
Proof.
  intros Hread Hst; rewrite (connect_at_grant Hread Hst).
  destruct (fcntl os s F_SETFL (Some flags) st7) as [k st8].
  exists k, st8; auto.
Qed.

(** *** The candidates *)

(** The loop over the candidates attempts a prefix of the list, in order:
    every attempt but the last returned non-zero, and the loop is left either
    at the first candidate that returned 0 or, all having refused, at [NULL]. *)
Lemma try_servers_log s :
  forall servers st,
  exists refused rets,
    length rets = length refused
    /\ Forall (fun r => r <> 0) rets
    /\ match try_servers os s servers st with
       | (None, st5) =>
           servers = refused
           /\ trace st5 = trace st ++ attempts s refused rets
       | (Some a, st5) =>
           exists rest,
             servers = refused ++ a :: rest
             /\ trace st5
                = trace st ++ attempts s refused rets
                    ++ [EConnect s (Some (ai_addr a)) (ai_addrlen a) 0]
       end.
Proof.
  induction servers as [|a next IH]; intros st; cbn [try_servers].
  - exists [], []; cbn; rewrite app_nil_r; auto.
  - destruct (real_connect os s (Some (ai_addr a)) (ai_addrlen a) st)
      as [r st1] eqn:E.
    apply syscall_trace in E.
    destruct (Z.eqb_spec r 0) as [->|Hr].
    + exists [], []; cbn [length attempts combine map app].
      repeat split; auto.
      exists next; auto.
    + destruct (IH st1) as (refused & rets & Hlen & Hall & Hrest).
      exists (a :: refused), (r :: rets); cbn [length].
      split; [congruence|]; split; [constructor; assumption|].
      destruct (try_servers os s next st1) as [[b|] st5].
      * destruct Hrest as (rest & -> & Ht).
        exists rest; split; [reflexivity|].
        rewrite Ht, E, <- app_assoc; reflexivity.
      * destruct Hrest as (-> & Ht); split; [reflexivity|].
        rewrite Ht, E, <- app_assoc; reflexivity.
Qed.

(** C8.  From the state in which the candidates are tried, the real [connect]
    is attempted on a prefix of the endpoint list, in list order, with the
    caller's descriptor.  The attempts stop at the first one that returns 0,
    and the handshake starts from there; the candidates after it are not
    tried.  The call takes the failure exit of this phase only when the whole
    list has refused, and then nothing follows the attempts but the restoration
    of the flags and the shutdown: no handshake. *)
Theorem candidates_in_order socks_server fuel s sa len st flags st4 :
  tunnel_entry host os socks_server s sa len st flags st4 ->
  exists refused rets,
    length rets = length refused
    /\ Forall (fun r => r <> 0) rets
    /\ match try_servers os s socks_server st4 with
       | (None, st5) =>
           socks_server = refused
           /\ trace st5 = trace st4 ++ attempts s refused rets
           /\ exists k1 k2 st',
               connect host os socks_server uninit fuel s (Some sa) len st
               = Some (-1, st')
               /\ trace st'
                  = trace st5
                      ++ [EFcntl s F_SETFL (Some flags) k1;
                          EShutdown s SHUT_RDWR k2]
       | (Some a, st5) =>
           exists rest,
             socks_server = refused ++ a :: rest
             /\ trace st5
                = trace st4 ++ attempts s refused rets
                    ++ [EConnect s (Some (ai_addr a)) (ai_addrlen a) 0]
             /\ connect host os socks_server uninit fuel s (Some sa) len st
                = negotiate host os uninit fuel s sa (sin_addr sa) flags st5
       end.
Proof.
  intros Hin.
  destruct (try_servers_log s socks_server st4)
    as (refused & rets & Hlen & Hall & Hlog).
  exists refused, rets; split; [assumption|]; split; [assumption|].
  rewrite (connect_at_tunnel_entry fuel Hin).
  destruct (try_servers os s socks_server st4) as [[a|] st5].
  - destruct Hlog as (rest & Hs & Ht); exists rest; auto.
  - destruct Hlog as (Hs & Ht); split; [assumption|]; split; [assumption|].
    destruct (error_result s flags st5) as (k1 & k2 & st' & -> & _ & Htr).
    exists k1, k2, st'; auto.
Qed.

(** *** The request *)

Lemma request_bytes_network sa :
  request_bytes host (message sa (sin_addr sa))
  = socks4_connect_request (ntohs host (sin_port sa))
      (ntohl host (sin_addr sa)).
Proof.
  unfold request_bytes, socks4_connect_request, message; cbn [s4_version
    s4_command s4_port s4_addr s4_user template].
  rewrite store16_network, store32_network; reflexivity.
Qed.

Lemma sent_bytes_app evs1 evs2 :
  sent_bytes (evs1 ++ evs2) = sent_bytes evs1 ++ sent_bytes evs2.
Proof. apply flat_map_app. Qed.

(** C4.  In a call that reaches the handshake, the first operation on the
    connected socket is a [send] of 9 bytes: 0x04, 0x01, the port of the
    caller's address in network order, its IPv4 address in network order, and
    0x00.  When the call succeeds, these 9 bytes are what the kernel accepted
    over the whole call. *)
Theorem request_on_the_wire socks_server fuel s sa len st flags st5 r st' :
  handshake_entry host os socks_server s sa len st flags st5 ->
  connect host os socks_server uninit fuel s (Some sa) len st = Some (r, st') ->
  exists k later,
    length (socks4_connect_request (ntohs host (sin_port sa))
              (ntohl host (sin_addr sa))) = 9%nat
    /\ trace st'
       = trace st5
           ++ ESend s
                (socks4_connect_request (ntohs host (sin_port sa))
                   (ntohl host (sin_addr sa))) 9 k
           :: later
    /\ (r = 0 ->
        sent_bytes
          (ESend s
             (socks4_connect_request (ntohs host (sin_port sa))
                (ntohl host (sin_addr sa))) 9 k
           :: later)
        = socks4_connect_request (ntohs host (sin_port sa))
            (ntohl host (sin_addr sa))).
Proof.
  intros Hh Hrun.
  rewrite (connect_at_handshake_entry fuel Hh) in Hrun.
  unfold negotiate in Hrun; rewrite request_bytes_network in Hrun.
  set (wire := socks4_connect_request _ _) in *.
  assert (length wire = 9%nat) as Hlen by reflexivity.
  destruct (do_complete_send os fuel s wire sizeof_socks4_request st5)
    as [[r6 st6]|] eqn:Hsend; [|discriminate].
  destruct (send_loop_log _ _ _ _ _ Hsend) as (evs & Ht6 & Hfirst & Hsent).
  destruct Hfirst as (k & evs' & ->); [reflexivity|].
  change sizeof_socks4_request with 9 in *.
  exists k.
  destruct (Z.eqb_spec r6 0) as [->|Hr6]; cbn [negb] in Hrun.
  - specialize (Hsent eq_refl); rewrite Hlen in Hsent.
    specialize (Hsent eq_refl).
    destruct (do_complete_recv os fuel s (uninit, O) sizeof_socks4_response st6)
      as [[[r7 response] st7]|] eqn:Hrecv; [|discriminate].
    destruct (recv_loop_log _ _ _ _ _ Hrecv) as (evs7 & Ht7 & Hsent7 & _).
    destruct (negb (r7 =? 0) || negb (s4_status response =? SOCKS4_REQUEST_GRANTED))
      eqn:Hfail.
    + assert (Some (r, st') = Some (error os s flags st7)) as Herr.
      { rewrite <- Hrun; destruct (negb (r7 =? 0)); [reflexivity|].
        cbn [orb] in Hfail; rewrite Hfail; reflexivity. }
      destruct (error_result s flags st7) as (k1 & k2 & st'' & He & _ & Htr).
      rewrite He in Herr; inversion Herr; subst r st''.
      eexists; split; [exact Hlen|]; split; [|intros; lia].
      rewrite Htr, Ht7, Ht6, <- !app_assoc; cbn [app]; reflexivity.
    + apply Bool.orb_false_iff in Hfail as [H7 Hst]; rewrite H7, Hst in Hrun.
      destruct (fcntl os s F_SETFL (Some flags) st7) as [k8 st8] eqn:Hf.
      apply syscall_trace in Hf; inversion Hrun; subst r st8.
      exists (evs' ++ evs7 ++ [EFcntl s F_SETFL (Some flags) k8]).
      split; [exact Hlen|]; split.
      * rewrite Hf, Ht7, Ht6, <- !app_assoc; cbn [app]; reflexivity.
      * intros _.
        change (ESend s wire 9 k :: evs' ++ evs7 ++ [EFcntl s F_SETFL (Some flags) k8])
          with ((ESend s wire 9 k :: evs') ++ evs7 ++ [EFcntl s F_SETFL (Some flags) k8]).
        rewrite !sent_bytes_app, Hsent, Hsent7.
        cbn [sent_bytes flat_map app]; apply app_nil_r.
  - destruct (error_result s flags st6) as (k1 & k2 & st'' & He & _ & Htr).
    rewrite He in Hrun; inversion Hrun; subst r st''.
    eexists; split; [exact Hlen|]; split; [|intros; lia].
    rewrite Htr, Ht6, <- !app_assoc; cbn [app]; reflexivity.
Qed.

(** *** Iterations of the loops *)


(** With no transient failure the read loop returns within [len] iterations. *)
Lemma recv_loop_returns :
  (forall s len st,
      ~ transient (fst (fst (recv os s len st))) (errno (snd (recv os s len st)))) ->
  forall fuel s cur len st,
    len <= Z.of_nat fuel -> do_complete_recv os fuel s cur len st <> None.
Proof.
  intros Hnt; induction fuel as [|fuel IH]; intros s cur len st Hlen;
    destruct (Z.lt_ge_cases 0 len) as [Hpos|Hpos];
    try (rewrite recv_loop_done by assumption; discriminate).
  rewrite recv_loop_step by assumption.
  specialize (Hnt s len st).
  destruct (recv_body_cases s cur len st)
    as (k & bytes & st1 & Er & _
        & [(-> & _) | [(-> & _) | [(-> & Hk) | (-> & Hk)]]]);
    try discriminate.
  - apply IH; lia.
  - rewrite Er in Hnt; contradiction.
Qed.

(** While [send] returns 0 the write loop never returns. *)
Lemma send_loop_stalls :
  (forall s data len st, fst (send os s data len st) = 0) ->
  forall fuel s data len st,
    0 < len -> do_complete_send os fuel s data len st = None.
Proof.
  intros Hz; induction fuel as [|fuel IH]; intros s data len st Hlen.
  - apply loop_needs_fuel_send; assumption.
  - rewrite send_loop_step by assumption.
    specialize (Hz s data len st).
    destruct (send_body_cases s data len st)
      as (k & st1 & Es & _
          & [(_ & Hk & _) | [(_ & Hk) | [(-> & Hk) | (_ & Hk & _)]]]);
      rewrite Es in Hz; cbn [fst] in Hz; try lia.
    apply IH; assumption.
Qed.

(** *** The flags of the socket *)

(** Setting the captured word again undoes a masked update. *)
Lemma masked_restore (f v mask : Z) :
  Z.lor (Z.land f mask)
    (Z.land (Z.lor (Z.land v mask) (Z.land f (Z.lnot mask))) (Z.lnot mask))
  = f.
Proof.
  apply Z.bits_inj'; intros n Hn.
  repeat first [rewrite Z.lor_spec | rewrite Z.land_spec
               | rewrite Z.lnot_spec by assumption].
  destruct (Z.testbit f n), (Z.testbit v n), (Z.testbit mask n); reflexivity.
Qed.

Section Flags.

Variable mask : Z.
Variable fl : W -> Z -> option Z.
Hypothesis kernel : flags_model os mask fl.

Lemma real_connect_flags s addr len st r st' s' :
  real_connect os s addr len st = (r, st') ->
  fl (world st') s' = fl (world st) s'.
Proof.
  intros H; apply syscall_world in H.
  exact (connect_keeps_flags kernel _ _ _ _ _ s' H).
Qed.

Lemma getsockopt_flags s level optname opt optlen st q st' s' :
  getsockopt os s level optname opt optlen st = (q, st') ->
  fl (world st') s' = fl (world st) s'.
Proof.
  intros H; apply syscall_world in H.
  exact (query_keeps_flags kernel _ _ _ _ _ _ _ s' H).
Qed.

Lemma queried_flags s st st0 s' :
  queried os s st st0 -> fl (world st0) s' = fl (world st) s'.
Proof.
  induction 1 as [|? ? ? ? ? ? ? _ IH Hq]; [reflexivity|].
  rewrite (getsockopt_flags _ _ _ _ _ _ s' Hq); exact IH.
Qed.

Lemma try_servers_flags s s' :
  forall servers st a st5,
    try_servers os s servers st = (a, st5) ->
    fl (world st5) s' = fl (world st) s'.
Proof.
  induction servers as [|b next IH]; intros st a st5 H; cbn [try_servers] in H.
  - inversion H; reflexivity.
  - destruct (real_connect os s (Some (ai_addr b)) (ai_addrlen b) st)
      as [r st1] eqn:E.
    apply real_connect_flags with (s' := s') in E.
    destruct (r =? 0).
    + inversion H; subst; exact E.
    + rewrite (IH _ _ _ H); exact E.
Qed.

Lemma send_loop_flags s' fuel :
  forall s data len st r st',
    do_complete_send os fuel s data len st = Some (r, st') ->
    fl (world st') s' = fl (world st) s'.
Proof.
  induction fuel as [|fuel IH]; intros s data len st r st' Hrun;
    destruct (Z.lt_ge_cases 0 len) as [Hlen|Hlen];
    try (rewrite send_loop_done in Hrun by assumption; inversion Hrun;
         reflexivity).
  - rewrite loop_needs_fuel_send in Hrun by assumption; discriminate.
  - rewrite send_loop_step in Hrun by assumption.
    destruct (send_body_cases s data len st)
      as (k & st1 & Es & _
          & [(Hb & _) | [(Hb & _) | [(Hb & _) | (Hb & _)]]]);
      rewrite Hb in Hrun; apply syscall_world in Es;
      pose proof (send_keeps_flags kernel _ _ _ _ _ s' Es) as Hfl.
    + inversion Hrun; subst; exact Hfl.
    + rewrite (IH _ _ _ _ _ _ Hrun); exact Hfl.
    + rewrite (IH _ _ _ _ _ _ Hrun); exact Hfl.
    + rewrite (IH _ _ _ _ _ _ Hrun); exact Hfl.
Qed.

Lemma recv_loop_flags s' fuel :
  forall s cur len st r response st',
    do_complete_recv os fuel s cur len st = Some (r, response, st') ->
    fl (world st') s' = fl (world st) s'.
Proof.
  induction fuel as [|fuel IH]; intros s cur len st r response st' Hrun;
    destruct (Z.lt_ge_cases 0 len) as [Hlen|Hlen];
    try (rewrite recv_loop_done in Hrun by assumption; inversion Hrun;
         reflexivity).
  - rewrite loop_needs_fuel_recv in Hrun by assumption; discriminate.
  - rewrite recv_loop_step in Hrun by assumption.
    destruct (recv_body_cases s cur len st)
      as (k & bytes & st1 & Er & _
          & [(Hb & _) | [(Hb & _) | [(Hb & _) | (Hb & _)]]]);
      rewrite Hb in Hrun; apply syscall_world in Er;
      pose proof (recv_keeps_flags kernel _ _ _ _ s' Er) as Hfl.
    + inversion Hrun; subst; exact Hfl.
    + inversion Hrun; subst; exact Hfl.
    + rewrite (IH _ _ _ _ _ _ _ Hrun); exact Hfl.
    + rewrite (IH _ _ _ _ _ _ _ Hrun); exact Hfl.
Qed.

Lemma setfl_flags s v st k st' f :
  fcntl os s F_SETFL (Some v) st = (k, st') ->
  fl (world st) s = Some f ->
  fl (world st') s = Some (Z.lor (Z.land v mask) (Z.land f (Z.lnot mask))).
Proof.
  intros H; apply syscall_world in H.
  exact (setfl_sets_masked kernel _ _ _ _ H).
Qed.

Lemma error_flags s flags st r st' f :
  error os s flags st = (r, st') ->
  fl (world st) s = Some f ->
  fl (world st') s
  = Some (Z.lor (Z.land flags mask) (Z.land f (Z.lnot mask))).
Proof.
  unfold error; intros H Hf.
  destruct (fcntl os s F_SETFL (Some flags) st) as [k1 st1] eqn:E1.
  destruct (shutdown os s SHUT_RDWR st1) as [k2 st2] eqn:E2.
  inversion H; subst; cbn [set_errno world].
  apply syscall_world in E2.
  rewrite (shutdown_keeps_flags kernel _ _ _ _ s E2).
  eapply setfl_flags; eassumption.
Qed.

Lemma negotiate_flags fuel s sa ip flags st5 r st' f :
  negotiate host os uninit fuel s sa ip flags st5 = Some (r, st') ->
  fl (world st5) s = Some f ->
  fl (world st') s
  = Some (Z.lor (Z.land flags mask) (Z.land f (Z.lnot mask))).
Proof.
  unfold negotiate; intros Hrun Hf.
  destruct (do_complete_send os fuel s _ sizeof_socks4_request st5)
    as [[r6 st6]|] eqn:Hsend; [|discriminate].
  apply send_loop_flags with (s' := s) in Hsend; rewrite Hf in Hsend.
  destruct (negb (r6 =? 0));
    [inversion Hrun as [He]; eapply error_flags; eassumption|].
  destruct (do_complete_recv os fuel s (uninit, O) sizeof_socks4_response st6)
    as [[[r7 response] st7]|] eqn:Hrecv; [|discriminate].
  apply recv_loop_flags with (s' := s) in Hrecv; rewrite Hsend in Hrecv.
  destruct (negb (r7 =? 0));
    [inversion Hrun as [He]; eapply error_flags; eassumption|].
  destruct (negb (s4_status response =? SOCKS4_REQUEST_GRANTED));
    [inversion Hrun as [He]; eapply error_flags; eassumption|].
  destruct (fcntl os s F_SETFL (Some flags) st7) as [k8 st8] eqn:Hset.
  inversion Hrun; subst; eapply setfl_flags; eassumption.
Qed.

(** C5.  For a kernel that keeps the flag word of a descriptor except under
    [F_SETFL], which replaces its changeable bits, the flags of the socket
    after [connect] are those before it, whichever way the call went:
    passthrough, grant, or any failure exit. *)
Theorem flags_restored socks_server fuel s _in len st r st' :
  connect host os socks_server uninit fuel s _in len st = Some (r, st') ->
  fl (world st') s = fl (world st) s.
Proof.
  intros Hrun.
  destruct (filter_cases socks_server fuel s _in len st)
    as [(st0 & Hq & Hpass)
       | (sa & -> & Hne & Hs & Hlen & Hfam & Hip & Ht & Hd)].
  - rewrite Hpass in Hrun; inversion Hrun as [Hp]; unfold pass in Hp.
    apply real_connect_flags with (s' := s) in Hp.
    rewrite Hp; cbn [set_errno world]; exact (queried_flags s Hq).
  - destruct (@eligible_enters_tunnel socks_server s sa len st
                Hne Hs Hlen Hfam Hip Ht Hd)
      as (flags & st4 & Hin).
    rewrite (connect_at_tunnel_entry fuel Hin) in Hrun.
    destruct Hin as (_ & _ & _ & _ & _ & r1 & st1 & r2 & st2 & st3 & r4
                     & Hq1 & Hr1 & Hq2 & _ & Hg & Hset).
    unfold type_query, domain_query in *.
    pose proof (syscall_world _ _ _ Hq1) as Hopen.
    apply (query_needs_open kernel) in Hopen; [|exact Hr1].
    destruct (fl (world st) s) as [f|] eqn:Hf; [clear Hopen|contradiction].
    apply getsockopt_flags with (s' := s) in Hq1; rewrite Hf in Hq1.
    apply getsockopt_flags with (s' := s) in Hq2; rewrite Hq1 in Hq2.
    apply syscall_world in Hg.
    destruct (getfl_returns_flags kernel _ _ _ Hg Hq2) as [-> Hf3].
    pose proof (@setfl_flags _ _ _ _ _ _ Hset Hf3) as Hf4.
    destruct (try_servers os s socks_server st4) as [a st5] eqn:Htry.
    apply try_servers_flags with (s' := s) in Htry; rewrite Hf4 in Htry.
    destruct a as [a|].
    + erewrite negotiate_flags; [|eassumption|eassumption]; f_equal.
      apply masked_restore.
    + inversion Hrun as [He].
      erewrite error_flags; [|eassumption|eassumption]; f_equal.
      apply masked_restore.
Qed.

End Flags.

(** *** Fuel *)

(** A loop that has returned returns the same with more iterations allowed. *)
Lemma send_loop_more_fuel fuel :
  forall s data len st out,
    do_complete_send os fuel s data len st = Some out ->
    do_complete_send os (S fuel) s data len st = Some out.
Proof.
  induction fuel as [|fuel IH]; intros s data len st out Hrun;
    destruct (Z.lt_ge_cases 0 len) as [Hlen|Hlen];
    try (rewrite send_loop_done in * by assumption; assumption).
  - rewrite loop_needs_fuel_send in Hrun by assumption; discriminate.
  - rewrite send_loop_step in * by assumption.
    destruct (send_body os s data len st) as [[data' len'|data' len'|r] st1];
      auto.
Qed.

Lemma recv_loop_more_fuel fuel :
  forall s cur len st out,
    do_complete_recv os fuel s cur len st = Some out ->
    do_complete_recv os (S fuel) s cur len st = Some out.
Proof.
  induction fuel as [|fuel IH]; intros s cur len st out Hrun;
    destruct (Z.lt_ge_cases 0 len) as [Hlen|Hlen];
    try (rewrite recv_loop_done in * by assumption; assumption).
  - rewrite loop_needs_fuel_recv in Hrun by assumption; discriminate.
  - rewrite recv_loop_step in * by assumption.
    destruct (recv_body os s cur len st) as [[cur' len'|cur' len'|r] st1];
      auto.
Qed.

Lemma negotiate_more_fuel fuel s sa ip flags st5 out :
  negotiate host os uninit fuel s sa ip flags st5 = Some out ->
  negotiate host os uninit (S fuel) s sa ip flags st5 = Some out.
Proof.
  unfold negotiate; intros Hrun.
  destruct (do_complete_send os fuel s _ sizeof_socks4_request st5)
    as [[r6 st6]|] eqn:Hsend; [|discriminate].
  rewrite (send_loop_more_fuel _ _ _ _ _ Hsend).
  destruct (negb (r6 =? 0)); [assumption|].
  destruct (do_complete_recv os fuel s (uninit, O) sizeof_socks4_response st6)
    as [[[r7 response] st7]|] eqn:Hrecv; [|discriminate].
  rewrite (recv_loop_more_fuel _ _ _ _ _ Hrecv); assumption.
Qed.

(** The result of [connect] does not depend on the bound, once it is large
    enough for the loops to return. *)
Lemma connect_more_fuel socks_server fuel s _in len st out :
  connect host os socks_server uninit fuel s _in len st = Some out ->
  connect host os socks_server uninit (S fuel) s _in len st = Some out.
Proof.
  unfold connect.
  destruct socks_server as [|a l]; [auto|].
  destruct _in as [sa|]; [|auto].
  destruct ((s <? 0) || (len <? sizeof_sockaddr)
            || negb (sa_family sa =? AF_INET)); [auto|].
  destruct (ignored_address host (sin_addr sa)); [auto|].
  destruct (getsockopt os s SOL_SOCKET SO_TYPE (-1) sizeof_int st)
    as [[[r1 o1] l1] st1].
  destruct ((r1 <? 0) || negb (l1 =? sizeof_int) || negb (o1 =? SOCK_STREAM));
    [auto|].
  destruct (getsockopt os s SOL_SOCKET SO_DOMAIN (-1) sizeof_int st1)
    as [[[r2 o2] l2] st2].
  destruct ((r2 <? 0) || negb (l2 =? sizeof_int) || negb (o2 =? AF_INET));
    [auto|].
  destruct (fcntl os s F_GETFL None st2) as [flags st3].
  destruct (fcntl os s F_SETFL (Some (Z.land flags (Z.lnot O_NONBLOCK))) st3)
    as [r4 st4].
  destruct (try_servers os s (a :: l) st4) as [[b|] st5]; [|auto].
  apply negotiate_more_fuel.
Qed.

(** *** Results of the loops *)

Lemma firstn_then_firstn {A} (n m : nat) (l : list A) :
  firstn n l ++ firstn m (skipn n l) = firstn (n + m) l.
Proof.
  revert l; induction n as [|n IH]; intros [|x l]; cbn [firstn skipn app plus];
    try reflexivity.
  - rewrite firstn_nil; reflexivity.
  - rewrite IH; reflexivity.
Qed.

Lemma transferred_app evs1 evs2 :
  transferred (evs1 ++ evs2) = transferred evs1 + transferred evs2.
Proof.
  induction evs1 as [|ev evs1 IH]; [reflexivity|].
  destruct ev; cbn [app transferred fold_right];
    fold (transferred evs1); fold (transferred (evs1 ++ evs2)); lia.
Qed.

(** The write loop never sends a byte twice or out of order: whatever its
    result, the bytes the kernel accepted form a prefix of the buffer, and the
    whole buffer when the loop returns 0. *)
Theorem write_loop_sends_prefix fuel :
  forall s data len st r st',
    len = Z.of_nat (length data) ->
    do_complete_send os fuel s data len st = Some (r, st') ->
    exists evs,
      trace st' = trace st ++ evs
      /\ (exists n, sent_bytes evs = firstn n data)
      /\ (r = 0 -> sent_bytes evs = data).
Proof.
  induction fuel as [|fuel IH]; intros s data len st r st' Hl Hrun;
    destruct (Z.lt_ge_cases 0 len) as [Hlen|Hlen];
    try (rewrite send_loop_done in Hrun by assumption; inversion Hrun; subst;
         exists []; rewrite app_nil_r; repeat split;
         [exists O; reflexivity
         | intros _; destruct data; [reflexivity | cbn [length] in Hlen; lia]]).
  - rewrite loop_needs_fuel_send in Hrun by assumption; discriminate.
  - rewrite send_loop_step in Hrun by assumption.
    destruct (send_body_cases s data len st)
      as (k & st1 & _ & Ht
          & [(Hb & Hk & _) | [(Hb & Hk) | [(Hb & Hk) | (Hb & Hk & _)]]]);
      rewrite Hb in Hrun.
    + inversion Hrun; subst r st'.
      exists [ESend s data len k]; split; [assumption|].
      split; [|intros; lia].
      exists O; cbn [sent_bytes flat_map]; replace (Z.to_nat k) with O by lia.
      reflexivity.
    + destruct (Z.lt_ge_cases 0 (len - k)) as [Hmore|Hall].
      * assert (len - k = Z.of_nat (length (skipn (Z.to_nat k) data))) as Hl'
            by (rewrite length_skipn; lia).
        destruct (IH _ _ _ _ _ _ Hl' Hrun) as (evs & Ht' & (n & Hn) & Hz).
        exists (ESend s data len k :: evs); split; [|split].
        -- rewrite Ht', Ht, <- app_assoc; reflexivity.
        -- exists (Z.to_nat k + n)%nat; cbn [sent_bytes flat_map].
           fold (sent_bytes evs); rewrite Hn; apply firstn_then_firstn.
        -- intros Hr; cbn [sent_bytes flat_map]; fold (sent_bytes evs).
           rewrite (Hz Hr); apply firstn_skipn.
      * rewrite send_loop_done in Hrun by lia; inversion Hrun; subst r st'.
        exists [ESend s data len k]; split; [assumption|].
        cbn [sent_bytes flat_map]; rewrite app_nil_r; split; [eauto|].
        intros _; apply firstn_all2; lia.
    + destruct (IH _ _ _ _ _ _ Hl Hrun) as (evs & Ht' & (n & Hn) & Hz).
      exists (ESend s data len k :: evs); split; [|split].
      * rewrite Ht', Ht, <- app_assoc; reflexivity.
      * exists n; subst k; cbn [sent_bytes flat_map Z.to_nat firstn app].
        exact Hn.
      * intros Hr; subst k; cbn [sent_bytes flat_map Z.to_nat firstn app].
        exact (Hz Hr).
    + destruct (IH _ _ _ _ _ _ Hl Hrun) as (evs & Ht' & (n & Hn) & Hz).
      exists (ESend s data len k :: evs); split; [|split].
      * rewrite Ht', Ht, <- app_assoc; reflexivity.
      * exists n; cbn [sent_bytes flat_map].
        replace (Z.to_nat k) with O by lia; exact Hn.
      * intros Hr; cbn [sent_bytes flat_map].
        replace (Z.to_nat k) with O by lia; exact (Hz Hr).
Qed.

Lemma send_loop_run fuel :
  forall s data len st r st',
    do_complete_send os fuel s data len st = Some (r, st') ->
    exists evs,
      trace st' = trace st ++ evs
      /\ Forall (transfer_on s) evs
      /\ (r = 0 /\ len <= transferred evs
          \/ r = -1 /\ transferred evs < len
             /\ errno st' <> EINTR /\ errno st' <> EAGAIN
             /\ exists pre d l k, evs = pre ++ [ESend s d l k] /\ k < 0).
Proof.
  induction fuel as [|fuel IH]; intros s data len st r st' Hrun;
    destruct (Z.lt_ge_cases 0 len) as [Hlen|Hlen];
    try (rewrite send_loop_done in Hrun by assumption; inversion Hrun; subst;
         exists []; rewrite app_nil_r; repeat split; [constructor|];
         left; split; [reflexivity | assumption]).
  - rewrite loop_needs_fuel_send in Hrun by assumption; discriminate.
  - rewrite send_loop_step in Hrun by assumption.
    destruct (send_body_cases s data len st)
      as (k & st1 & _ & Ht
          & [(Hb & Hk & He1 & He2) | [(Hb & Hk) | [(Hb & Hk) | (Hb & Hk & _)]]]);
      rewrite Hb in Hrun.
    + inversion Hrun; subst r st'.
      exists [ESend s data len k]; split; [assumption|].
      split; [repeat constructor|].
      right; repeat split; auto.
      * cbn [transferred fold_right]; lia.
      * exists [], data, len, k; auto.
    + destruct (IH _ _ _ _ _ _ Hrun) as (evs & Ht' & Hall & Hres).
      exists (ESend s data len k :: evs); split; [|split].
      * rewrite Ht', Ht, <- app_assoc; reflexivity.
      * constructor; [reflexivity | assumption].
      * cbn [transferred fold_right]; fold (transferred evs).
        destruct Hres as [(-> & Hn) | (-> & Hn & H1 & H2 & pre & d & l & j & -> & Hj)];
          [left; split; [reflexivity | lia]|].
        right; repeat split; auto; [lia|].
        exists (ESend s data len k :: pre), d, l, j; auto.
    + destruct (IH _ _ _ _ _ _ Hrun) as (evs & Ht' & Hall & Hres).
      exists (ESend s data len k :: evs); split; [|split].
      * rewrite Ht', Ht, <- app_assoc; reflexivity.
      * constructor; [reflexivity | assumption].
      * cbn [transferred fold_right]; fold (transferred evs).
        destruct Hres as [(-> & Hn) | (-> & Hn & H1 & H2 & pre & d & l & j & -> & Hj)];
          [left; split; [reflexivity | lia]|].
        right; repeat split; auto; [lia|].
        exists (ESend s data len k :: pre), d, l, j; auto.
    + destruct (IH _ _ _ _ _ _ Hrun) as (evs & Ht' & Hall & Hres).
      exists (ESend s data len k :: evs); split; [|split].
      * rewrite Ht', Ht, <- app_assoc; reflexivity.
      * constructor; [reflexivity | assumption].
      * cbn [transferred fold_right]; fold (transferred evs).
        destruct Hres as [(-> & Hn) | (-> & Hn & H1 & H2 & pre & d & l & j & -> & Hj)];
          [left; split; [reflexivity | lia]|].
        right; repeat split; auto; [lia|].
        exists (ESend s data len k :: pre), d, l, j; auto.
Qed.

Lemma recv_loop_run fuel :
  forall s cur len st r response st',
    do_complete_recv os fuel s cur len st = Some (r, response, st') ->
    exists evs,
      trace st' = trace st ++ evs
      /\ Forall (transfer_on s) evs
      /\ (r = 0 /\ transferred evs = len
          \/ r = 1 /\ transferred evs <> len
          \/ r = -1 /\ transferred evs < len
             /\ errno st' <> EINTR /\ errno st' <> EAGAIN
             /\ exists pre l k, evs = pre ++ [ERecv s l k] /\ k < 0).
Proof.
  induction fuel as [|fuel IH]; intros s cur len st r response st' Hrun;
    destruct (Z.lt_ge_cases 0 len) as [Hlen|Hlen];
    try (rewrite recv_loop_done in Hrun by assumption; inversion Hrun; subst;
         exists []; rewrite app_nil_r; repeat split; [constructor|];
         unfold nonzero; cbn [transferred fold_right];
         destruct (Z.eqb_spec len 0); [left | right; left]; split; auto; lia).
  - rewrite loop_needs_fuel_recv in Hrun by assumption; discriminate.
  - rewrite recv_loop_step in Hrun by assumption.
    destruct (recv_body_cases s cur len st)
      as (k & bytes & st1 & _ & Ht
          & [(Hb & Hk & He1 & He2) | [(Hb & Hk) | [(Hb & Hk) | (Hb & Hk & _)]]]);
      rewrite Hb in Hrun.
    + inversion Hrun; subst r st'.
      exists [ERecv s len k]; split; [assumption|].
      split; [repeat constructor|].
      right; right; repeat split; auto.
      * cbn [transferred fold_right]; lia.
      * exists [], len, k; auto.
    + inversion Hrun; subst r st'.
      exists [ERecv s len k]; split; [assumption|].
      split; [repeat constructor|].
      right; left; unfold nonzero; cbn [transferred fold_right].
      destruct (Z.eqb_spec len 0); split; try lia; reflexivity.
    + destruct (IH _ _ _ _ _ _ _ Hrun) as (evs & Ht' & Hall & Hres).
      exists (ERecv s len k :: evs); split; [|split].
      * rewrite Ht', Ht, <- app_assoc; reflexivity.
      * constructor; [reflexivity | assumption].
      * cbn [transferred fold_right]; fold (transferred evs).
        destruct Hres
          as [(-> & Hn) | [(-> & Hn)
                          | (-> & Hn & H1 & H2 & pre & l & j & -> & Hj)]];
          [left; split; [reflexivity | lia]
          | right; left; split; [reflexivity | lia] |].
        right; right; repeat split; auto; [lia|].
        exists (ERecv s len k :: pre), l, j; auto.
    + destruct (IH _ _ _ _ _ _ _ Hrun) as (evs & Ht' & Hall & Hres).
      exists (ERecv s len k :: evs); split; [|split].
      * rewrite Ht', Ht, <- app_assoc; reflexivity.
      * constructor; [reflexivity | assumption].
      * cbn [transferred fold_right]; fold (transferred evs).
        destruct Hres
          as [(-> & Hn) | [(-> & Hn)
                          | (-> & Hn & H1 & H2 & pre & l & j & -> & Hj)]];
          [left; split; [reflexivity | lia]
          | right; left; split; [reflexivity | lia] |].
        right; right; repeat split; auto; [lia|].
        exists (ERecv s len k :: pre), l, j; auto.
Qed.


(** When [send] neither fails transiently nor returns 0, the write loop
    returns within [len] iterations. *)
Theorem write_loop_returns :
  (forall s data len st,
      fst (send os s data len st) <> 0
      /\ ~ transient (fst (send os s data len st))
           (errno (snd (send os s data len st)))) ->
  forall fuel s data len st,
    len <= Z.of_nat fuel -> do_complete_send os fuel s data len st <> None.
Proof.
  intros Hok; induction fuel as [|fuel IH]; intros s data len st Hlen;
    destruct (Z.lt_ge_cases 0 len) as [Hpos|Hpos];
    try (rewrite send_loop_done by assumption; discriminate).
  rewrite send_loop_step by assumption.
  destruct (Hok s data len st) as [Hnz Hnt].
  destruct (send_body_cases s data len st)
    as (k & st1 & Es & _
        & [(-> & _) | [(-> & Hk) | [(-> & Hk) | (-> & Hk)]]]);
    rewrite Es in Hnz, Hnt; cbn [fst snd] in Hnz, Hnt;
    try discriminate; try contradiction.
  apply IH; lia.
Qed.

(** *** The calls of a run *)

Lemma attempts_snoc s tried rets a r :
  length rets = length tried ->
  attempts s (tried ++ [a]) (rets ++ [r])
  = attempts s tried rets ++ [EConnect s (Some (ai_addr a)) (ai_addrlen a) r].
Proof.
  unfold attempts; revert rets; induction tried as [|b tried IH];
    intros [|r0 rets] Hl; cbn [length] in Hl; try discriminate.
  - reflexivity.
  - cbn [app combine map]; rewrite IH by congruence; reflexivity.
Qed.

Lemma pass_log e s _in len st r st' :
  pass os e s _in len st = (r, st') ->
  trace st' = trace st ++ [EConnect s _in len r].
Proof. unfold pass, real_connect; intros H; exact (syscall_trace _ _ _ H). Qed.

Lemma negotiate_log fuel s sa ip flags st5 r st' :
  negotiate host os uninit fuel s sa ip flags st5 = Some (r, st') ->
  exists transfers tail,
    trace st' = trace st5 ++ transfers ++ tail
    /\ Forall (transfer_on s) transfers
    /\ closing s flags r tail.
Proof.
  unfold negotiate, closing; intros Hrun.
  destruct (do_complete_send os fuel s _ sizeof_socks4_request st5)
    as [[r6 st6]|] eqn:Hsend; [|discriminate].
  destruct (send_loop_run _ _ _ _ _ Hsend) as (evs6 & Ht6 & Hall6 & _).
  destruct (negb (r6 =? 0)).
  { destruct (error_result s flags st6) as (k1 & k2 & st'' & He & _ & Htr).
    rewrite He in Hrun; inversion Hrun; subst r st''.
    exists evs6, [EFcntl s F_SETFL (Some flags) k1; EShutdown s SHUT_RDWR k2].
    rewrite Htr, Ht6, <- app_assoc; eauto 10. }
  destruct (do_complete_recv os fuel s (uninit, O) sizeof_socks4_response st6)
    as [[[r7 response] st7]|] eqn:Hrecv; [|discriminate].
  destruct (recv_loop_run _ _ _ _ _ Hrecv) as (evs7 & Ht7 & Hall7 & _).
  assert (Forall (transfer_on s) (evs6 ++ evs7)) as Hall
      by (apply Forall_app; auto).
  destruct (negb (r7 =? 0) || negb (s4_status response =? SOCKS4_REQUEST_GRANTED))
    eqn:Hfail.
  - assert (Some (r, st') = Some (error os s flags st7)) as Herr.
    { rewrite <- Hrun; destruct (negb (r7 =? 0)); [reflexivity|].
      cbn [orb] in Hfail; rewrite Hfail; reflexivity. }
    destruct (error_result s flags st7) as (k1 & k2 & st'' & He & _ & Htr).
    rewrite He in Herr; inversion Herr; subst r st''.
    exists (evs6 ++ evs7),
      [EFcntl s F_SETFL (Some flags) k1; EShutdown s SHUT_RDWR k2].
    rewrite Htr, Ht7, Ht6, <- !app_assoc; eauto 10.
  - apply Bool.orb_false_iff in Hfail as [H7 Hst]; rewrite H7, Hst in Hrun.
    destruct (fcntl os s F_SETFL (Some flags) st7) as [k8 st8] eqn:Hf.
    apply syscall_trace in Hf; inversion Hrun; subst r st8.
    exists (evs6 ++ evs7), [EFcntl s F_SETFL (Some flags) k8].
    rewrite Hf, Ht7, Ht6, <- !app_assoc; eauto 10.
Qed.

Lemma connect_log socks_server fuel s _in len st r st' :
  connect host os socks_server uninit fuel s _in len st = Some (r, st') ->
  exists calls,
    trace st' = trace st ++ calls
    /\ (passthrough_log s _in len r calls \/ tunnel_log socks_server s r calls).
Proof.
  unfold connect.
  assert (forall e, Some (pass os e s _in len st) = Some (r, st') ->
                    exists calls,
                      trace st' = trace st ++ calls
                      /\ (passthrough_log s _in len r calls
                          \/ tunnel_log socks_server s r calls)) as Hpass0.
  { intros e H; inversion H as [Hp]; apply pass_log in Hp.
    exists [EConnect s _in len r]; split; [assumption|left].
    exists []; repeat split; [constructor | cbn; lia]. }
  destruct socks_server as [|a0 l0] eqn:Hservers; [apply Hpass0|].
  destruct _in as [sa|]; [|apply Hpass0].
  destruct ((s <? 0) || (len <? sizeof_sockaddr)
            || negb (sa_family sa =? AF_INET)); [apply Hpass0|].
  destruct (ignored_address host (sin_addr sa)); [apply Hpass0|].
  destruct (getsockopt os s SOL_SOCKET SO_TYPE (-1) sizeof_int st)
    as [[[r1 o1] l1] st1] eqn:Hq1; apply syscall_trace in Hq1.
  cbn [fst] in Hq1.
  destruct ((r1 <? 0) || negb (l1 =? sizeof_int) || negb (o1 =? SOCK_STREAM)).
  { intros H; inversion H as [Hp]; apply pass_log in Hp.
    exists [EGetsockopt s SOL_SOCKET SO_TYPE r1; EConnect s (Some sa) len r].
    split; [rewrite Hp, Hq1, <- app_assoc; reflexivity | left].
    exists [EGetsockopt s SOL_SOCKET SO_TYPE r1]; repeat split;
      [repeat constructor | cbn; lia]. }
  destruct (getsockopt os s SOL_SOCKET SO_DOMAIN (-1) sizeof_int st1)
    as [[[r2 o2] l2] st2] eqn:Hq2; apply syscall_trace in Hq2.
  cbn [fst] in Hq2.
  destruct ((r2 <? 0) || negb (l2 =? sizeof_int) || negb (o2 =? AF_INET)).
  { intros H; inversion H as [Hp]; apply pass_log in Hp.
    exists [EGetsockopt s SOL_SOCKET SO_TYPE r1;
            EGetsockopt s SOL_SOCKET SO_DOMAIN r2; EConnect s (Some sa) len r].
    split; [rewrite Hp, Hq2, Hq1, <- !app_assoc; reflexivity | left].
    exists [EGetsockopt s SOL_SOCKET SO_TYPE r1;
            EGetsockopt s SOL_SOCKET SO_DOMAIN r2]; repeat split;
      [repeat constructor | cbn; lia]. }
  destruct (fcntl os s F_GETFL None st2) as [flags st3] eqn:Hg;
    apply syscall_trace in Hg.
  destruct (fcntl os s F_SETFL (Some (Z.land flags (Z.lnot O_NONBLOCK))) st3)
    as [r4 st4] eqn:Hset; apply syscall_trace in Hset.
  assert (trace st4
          = trace st
              ++ [EGetsockopt s SOL_SOCKET SO_TYPE r1;
                  EGetsockopt s SOL_SOCKET SO_DOMAIN r2;
                  EFcntl s F_GETFL None flags;
                  EFcntl s F_SETFL (Some (Z.land flags (Z.lnot O_NONBLOCK))) r4])
    as Ht4 by (rewrite Hset, Hg, Hq2, Hq1, <- !app_assoc; reflexivity).
  rewrite <- Hservers.
  destruct (try_servers_log s socks_server st4)
    as (refused & rets & Hlen & _ & Hlog).
  destruct (try_servers os s socks_server st4) as [[a|] st5].
  - destruct Hlog as (rest & Hs & Ht5); intros Hrun.
    destruct (negotiate_log _ _ _ _ _ _ Hrun) as (hs & tail & Ht & Hall & Hc).
    eexists; split.
    + rewrite Ht, Ht5, Ht4, <- !app_assoc; reflexivity.
    + right; exists r1, r2, flags, r4, (refused ++ [a]), (rets ++ [0]), hs, tail.
      rewrite attempts_snoc by assumption.
      repeat split; auto.
      * rewrite <- !app_assoc; reflexivity.
      * rewrite !length_app; cbn [length]; lia.
      * exists rest; rewrite <- app_assoc; exact Hs.
  - destruct Hlog as (Hs & Ht5); intros Hrun.
    destruct (error_result s flags st5) as (k1 & k2 & st'' & He & _ & Htr).
    rewrite He in Hrun; inversion Hrun; subst r st''.
    eexists; split.
    + rewrite Htr, Ht5, Ht4, <- !app_assoc; reflexivity.
    + right; exists r1, r2, flags, r4, refused, rets, [],
        [EFcntl s F_SETFL (Some flags) k1; EShutdown s SHUT_RDWR k2].
      repeat split; auto.
      * exists []; rewrite app_nil_r; exact Hs.
      * right; eauto.
Qed.

(** The calls of a returning run of [connect] have one of two shapes.
    Passthrough: at most two queries on [s], then the real [connect] with the
    caller's arguments, whose value is the result.  Tunnel: the two queries,
    [F_GETFL], [F_SETFL] without [O_NONBLOCK], attempts on a prefix of the
    endpoint list in order, then only [send] and [recv] on [s], then the
    restoration of the flags, and the result is 0, or -1 with the shutdown as
    the last call.  In particular no candidate is tried once a transfer has
    been made. *)
Theorem call_log socks_server fuel s _in len st r st' :
  connect host os socks_server uninit fuel s _in len st = Some (r, st') ->
  exists calls,
    trace st' = trace st ++ calls
    /\ (passthrough_log s _in len r calls \/ tunnel_log socks_server s r calls).
Proof. apply connect_log. Qed.

Lemma attempts_on_descriptor s tried rets :
  Forall (fun ev => descriptor_of ev = s) (attempts s tried rets).
Proof.
  unfold attempts; apply Forall_forall; intros ev Hin.
  apply in_map_iff in Hin as (ar & <- & _); reflexivity.
Qed.

Lemma attempts_no_shutdown s tried rets s' how k :
  ~ In (EShutdown s' how k) (attempts s tried rets).
Proof.
  unfold attempts; intros Hin.
  apply in_map_iff in Hin as (ar & Heq & _); discriminate Heq.
Qed.

(** [connect] operates on no descriptor but the caller's: every call it makes,
    on every path, is on [s]. *)
Theorem only_the_callers_descriptor socks_server fuel s _in len st r st' :
  connect host os socks_server uninit fuel s _in len st = Some (r, st') ->
  exists calls,
    trace st' = trace st ++ calls
    /\ Forall (fun ev => descriptor_of ev = s) calls.
Proof.
  intros Hrun; destruct (connect_log _ _ _ _ _ _ Hrun) as (calls & Ht & Hshape).
  exists calls; split; [assumption|].
  destruct Hshape
    as [(queries & -> & Hq & _)
       | (r1 & r2 & flags & r4 & tried & rets & hs & tail & -> & _ & _ & Hhs
          & Hc)].
  - apply Forall_app; split; [|repeat constructor].
    eapply Forall_impl; [|exact Hq].
    intros [] H; cbn in *; try contradiction; assumption.
  - repeat (apply Forall_app; split); [repeat constructor | | |].
    + apply attempts_on_descriptor.
    + eapply Forall_impl; [|exact Hhs].
      intros [] H; cbn in *; try contradiction; assumption.
    + destruct Hc as [(_ & k & ->) | (_ & k1 & k2 & ->)]; repeat constructor.
Qed.

(** [connect] shuts the socket down only when it fails on the tunnel path: if
    a [shutdown] is among its calls, it is a [shutdown(s, SHUT_RDWR)], the
    result is -1, and nothing is called after it. *)
Theorem shutdown_only_on_failure socks_server fuel s _in len st r st' calls
  s' how k :
  connect host os socks_server uninit fuel s _in len st = Some (r, st') ->
  trace st' = trace st ++ calls ->
  In (EShutdown s' how k) calls ->
  r = -1 /\ exists before, calls = before ++ [EShutdown s SHUT_RDWR k].
Proof.
  intros Hrun Ht Hin.
  destruct (connect_log _ _ _ _ _ _ Hrun) as (calls' & Ht' & Hshape).
  rewrite Ht in Ht'; apply app_inv_head in Ht'; subst calls'.
  destruct Hshape
    as [(queries & -> & Hq & _)
       | (r1 & r2 & flags & r4 & tried & rets & hs & tail & -> & _ & _ & Hhs
          & Hc)].
  - exfalso; apply in_app_or in Hin as [Hin|[Hin|[]]]; [|discriminate Hin].
    rewrite Forall_forall in Hq; exact (Hq _ Hin).
  - apply in_app_or in Hin as [Hin|Hin].
    { exfalso; cbn [In] in Hin.
      destruct Hin as [H|[H|[H|[H|[]]]]]; discriminate H. }
    apply in_app_or in Hin as [Hin|Hin];
      [exfalso; exact (attempts_no_shutdown _ _ _ _ _ _ Hin)|].
    apply in_app_or in Hin as [Hin|Hin].
    { exfalso; rewrite Forall_forall in Hhs; exact (Hhs _ Hin). }
    destruct Hc as [(_ & k0 & ->) | (-> & k1 & k2 & ->)].
    + exfalso; destruct Hin as [H|[]]; discriminate H.
    + destruct Hin as [H|[H|[]]]; [discriminate H|].
      injection H as Hs Hh Hk; subst s' how k2; split; [reflexivity|].
      eexists; rewrite !app_assoc.
      change [EFcntl s F_SETFL (Some flags) k1; EShutdown s SHUT_RDWR k]
        with ([EFcntl s F_SETFL (Some flags) k1] ++ [EShutdown s SHUT_RDWR k]).
      rewrite app_assoc; reflexivity.
Qed.

(** *** The decision of the filter *)

Lemma tunnel_entry_log socks_server s sa len st flags st4 :
  tunnel_entry host os socks_server s sa len st flags st4 ->
  exists r1 r2 r4,
    trace st4
    = trace st
        ++ [EGetsockopt s SOL_SOCKET SO_TYPE r1;
            EGetsockopt s SOL_SOCKET SO_DOMAIN r2;
            EFcntl s F_GETFL None flags;
            EFcntl s F_SETFL (Some (Z.land flags (Z.lnot O_NONBLOCK))) r4].
Proof.
  intros (_ & _ & _ & _ & _ & r1 & st1 & r2 & st2 & st3 & r4
          & Hq1 & _ & Hq2 & _ & Hg & Hset).
  unfold type_query, domain_query in *.
  apply syscall_trace in Hq1, Hq2, Hg, Hset; cbn [fst] in Hq1, Hq2.
  exists r1, r2, r4; rewrite Hset, Hg, Hq2, Hq1, <- !app_assoc; reflexivity.
Qed.

Lemma tunnel_run_log socks_server fuel s sa len st flags st4 r st' :
  tunnel_entry host os socks_server s sa len st flags st4 ->
  connect host os socks_server uninit fuel s (Some sa) len st = Some (r, st') ->
  exists more, trace st' = trace st4 ++ more.
Proof.
  intros Hin Hrun; rewrite (connect_at_tunnel_entry fuel Hin) in Hrun.
  destruct (try_servers_log s socks_server st4) as (refused & rets & _ & _ & Hlog).
  destruct (try_servers os s socks_server st4) as [[a|] st5].
  - destruct Hlog as (rest & _ & Ht5).
    destruct (negotiate_log _ _ _ _ _ _ Hrun) as (hs & tail & Ht & _ & _).
    eexists; rewrite Ht, Ht5, <- !app_assoc; reflexivity.
  - destruct Hlog as (_ & Ht5).
    destruct (error_result s flags st5) as (k1 & k2 & st'' & He & _ & Htr).
    rewrite He in Hrun; inversion Hrun; subst.
    eexists; rewrite Htr, Ht5, <- !app_assoc; reflexivity.
Qed.

Lemma tunnel_not_passed socks_server fuel s sa len st flags st4 :
  tunnel_entry host os socks_server s sa len st flags st4 ->
  ~ passed_through os s (Some sa) len st
      (connect host os socks_server uninit fuel s (Some sa) len st).
Proof.
  intros Hin (queries & st0 & Hq & Ht0 & _ & Hrun).
  destruct (real_connect os s (Some sa) len st0) as [r st'] eqn:Hc.
  apply syscall_trace in Hc.
  destruct (tunnel_run_log fuel Hin Hrun) as (more & Ht').
  destruct (tunnel_entry_log Hin) as (r1 & r2 & r4 & Ht4).
  rewrite Hc, Ht0, Ht4, <- !app_assoc in Ht'.
  apply app_inv_head in Ht'; cbn [app] in Ht'.
  destruct queries as [|q1 [|q2 [|q3 queries]]]; cbn [app] in Ht';
    try discriminate Ht'.
  inversion Ht'; subst.
  inversion Hq as [|? ? _ Hq2]; inversion Hq2 as [|? ? _ Hq3].
  inversion Hq3 as [|? ? Hbad _]; exact Hbad.
Qed.

(** The filter is exact: [connect] passes a call through if and only if the
    endpoint list is empty or the request fails one of the conditions, as the
    code tests them; every other call takes the tunnel. *)
Theorem passthrough_iff_ineligible socks_server fuel s _in len st :
  passed_through os s _in len st
    (connect host os socks_server uninit fuel s _in len st)
  <-> socks_server = []
      \/ ineligible host os (fun ip => IN_MULTICAST ip = true) s _in len st.
Proof.
  destruct (filter_cases socks_server fuel s _in len st)
    as [(st0 & Hq & Hpass)
       | (sa & -> & Hne & Hs & Hlen & Hfam & Hip & Ht & Hd)].
  - split.
    + intros _.
      destruct socks_server as [|a0 l0] eqn:Hservers; [left; reflexivity|right].
      destruct (Z.lt_ge_cases s 0) as [Hs|Hs]; [apply bad_descriptor; exact Hs|].
      destruct _in as [sa|]; [|apply null_address; reflexivity].
      destruct (Z.lt_ge_cases len sizeof_sockaddr) as [Hlen|Hlen];
        [apply short_address; exact Hlen|].
      destruct (Z.eq_dec (sa_family sa) AF_INET) as [Hfam|Hfam];
        [|eapply wrong_family; [reflexivity | exact Hfam]].
      destruct (ignored_address host (sin_addr sa)) eqn:Hip.
      { unfold ignored_address in Hip.
        apply Bool.orb_true_iff in Hip as [Hip|Hip];
          [|eapply loopback_target; [reflexivity | apply Z.eqb_eq; exact Hip]].
        apply Bool.orb_true_iff in Hip as [Hip|Hip];
          [|eapply multicast_target; [reflexivity | exact Hip]].
        apply Bool.orb_true_iff in Hip as [Hip|Hip]; apply Z.eqb_eq in Hip.
        - eapply unspecified_target; [reflexivity | exact Hip].
        - eapply broadcast_target; [reflexivity | exact Hip]. }
      destruct (reports (fst (type_query os s st)) SOCK_STREAM) eqn:Ht;
        [|apply not_stream; exact Ht].
      destruct (reports (fst (domain_query os s (snd (type_query os s st))))
                  AF_INET) eqn:Hd; [|apply not_inet_domain; exact Hd].
      exfalso.
      destruct (@eligible_enters_tunnel (a0 :: l0) s sa len st
                  ltac:(discriminate) Hs Hlen Hfam Hip Ht Hd)
        as (flags & st4 & Hin).
      apply (tunnel_not_passed fuel Hin); rewrite Hpass.
      apply queried_passed_through; exact Hq.
    + intros _; rewrite Hpass; apply queried_passed_through; exact Hq.
  - destruct (@eligible_enters_tunnel socks_server s sa len st
                Hne Hs Hlen Hfam Hip Ht Hd) as (flags & st4 & Hin).
    split; [intros Hp; exfalso; exact (tunnel_not_passed fuel Hin Hp)|].
    intros [Hempty|Hin']; [contradiction|exfalso].
    unfold ignored_address in Hip.
    apply Bool.orb_false_iff in Hip as [Hip H127].
    apply Bool.orb_false_iff in Hip as [Hip Hmc].
    apply Bool.orb_false_iff in Hip as [Hany Hbc].
    apply Z.eqb_neq in Hany, Hbc, H127.
    destruct Hin' as [H|H|H|sa' E H|sa' E H|sa' E H|sa' E H|sa' E H|H|H];
      try (inversion E; subst sa'); try congruence; try lia.
    apply H127; exact H.
Qed.

(** *** Blocking mode *)

Lemma nonblock_cleared (f mask : Z) :
  Z.land mask O_NONBLOCK = O_NONBLOCK ->
  Z.land
    (Z.lor (Z.land (Z.land f (Z.lnot O_NONBLOCK)) mask)
       (Z.land f (Z.lnot mask))) O_NONBLOCK
  = 0.
Proof.
  intros Hmask; apply Z.bits_inj'; intros n Hn.
  assert (Z.testbit (Z.land mask O_NONBLOCK) n = Z.testbit O_NONBLOCK n) as Hm
      by (rewrite Hmask; reflexivity).
  rewrite Z.land_spec in Hm.
  repeat first [rewrite Z.lor_spec | rewrite Z.land_spec
               | rewrite Z.lnot_spec by assumption].
  rewrite Z.bits_0.
  destruct (Z.testbit O_NONBLOCK n), (Z.testbit mask n), (Z.testbit f n);
    cbn in *; congruence.
Qed.

Section Blocking.

Variable mask : Z.
Variable fl : W -> Z -> option Z.
Hypothesis kernel : flags_model os mask fl.
Hypothesis settable : Z.land mask O_NONBLOCK = O_NONBLOCK.

(** For a kernel that keeps to [flags_model] and lets [F_SETFL] change
    [O_NONBLOCK], the socket is in blocking mode throughout the negotiation:
    when the handshake starts, after the write loop and after the read loop,
    whatever mode the caller had set. *)
Theorem blocking_during_negotiation socks_server fuel s sa len st flags st5 r6
  st6 r7 response st7 :
  handshake_entry host os socks_server s sa len st flags st5 ->
  do_complete_send os fuel s (request_bytes host (message sa (sin_addr sa)))
    sizeof_socks4_request st5 = Some (r6, st6) ->
  do_complete_recv os fuel s (uninit, O) sizeof_socks4_response st6
  = Some (r7, response, st7) ->
  blocking fl st5 s /\ blocking fl st6 s /\ blocking fl st7 s.
Proof.
  intros (st4 & a & Hin & Htry) Hsend Hrecv.
  destruct Hin as (_ & _ & _ & _ & _ & r1 & st1 & r2 & st2 & st3 & r4
                   & Hq1 & Hr1 & Hq2 & _ & Hg & Hset).
  unfold type_query, domain_query in *.
  pose proof (syscall_world _ _ _ Hq1) as Hopen.
  apply (query_needs_open kernel) in Hopen; [|exact Hr1].
  destruct (fl (world st) s) as [f|] eqn:Hf; [clear Hopen|contradiction].
  apply (getsockopt_flags kernel) with (s' := s) in Hq1; rewrite Hf in Hq1.
  apply (getsockopt_flags kernel) with (s' := s) in Hq2; rewrite Hq1 in Hq2.
  apply syscall_world in Hg.
  destruct (getfl_returns_flags kernel _ _ _ Hg Hq2) as [-> Hf3].
  assert (fl (world st4) s
          = Some (Z.lor (Z.land (Z.land f (Z.lnot O_NONBLOCK)) mask)
                    (Z.land f (Z.lnot mask)))) as Hf4
      by (eapply setfl_flags; eassumption).
  apply (try_servers_flags kernel) with (s' := s) in Htry; rewrite Hf4 in Htry.
  apply (send_loop_flags kernel) with (s' := s) in Hsend; rewrite Htry in Hsend.
  apply (recv_loop_flags kernel) with (s' := s) in Hrecv; rewrite Hsend in Hrecv.
  unfold blocking; repeat split; eexists; (split; [eassumption|]);
    apply nonblock_cleared; exact settable.
Qed.

End Blocking.

(** *** What the loops do with each outcome *)

(** C9, as the code has it.  While bytes are missing, each loop calls its
    primitive once and then:
    - after a positive result [k] it carries on with the cursor moved by
      exactly [k] and [k] bytes fewer to transfer;
    - after a transient failure ([EINTR] or [EAGAIN]) it carries on with the
      same transfer, and so does the write loop after a [send] that returned
      0;
    - after any other result it is left at once: both loops return -1 after
      another failure, in the state the primitive left, and the read loop
      returns 1 after a zero-length read. *)
Theorem transfer_loop_iterations fuel s data cur len st :
  0 < len ->
  ((0 < fst (send os s data len st) ->
    do_complete_send os (S fuel) s data len st
    = do_complete_send os fuel s
        (advance_send (fst (send os s data len st)) data)
        (len - fst (send os s data len st)) (snd (send os s data len st)))
   /\ (transient (fst (send os s data len st))
         (errno (snd (send os s data len st)))
       \/ fst (send os s data len st) = 0 ->
       do_complete_send os (S fuel) s data len st
       = do_complete_send os fuel s data len (snd (send os s data len st)))
   /\ (fst (send os s data len st) < 0 ->
       ~ transient (fst (send os s data len st))
           (errno (snd (send os s data len st))) ->
       do_complete_send os (S fuel) s data len st
       = Some (-1, snd (send os s data len st))))
  /\ ((0 < fst (fst (recv os s len st)) ->
       do_complete_recv os (S fuel) s cur len st
       = do_complete_recv os fuel s
           (advance_recv (snd (fst (recv os s len st)))
              (fst (fst (recv os s len st))) cur)
           (len - fst (fst (recv os s len st))) (snd (recv os s len st)))
      /\ (transient (fst (fst (recv os s len st)))
            (errno (snd (recv os s len st))) ->
          do_complete_recv os (S fuel) s cur len st
          = do_complete_recv os fuel s cur len (snd (recv os s len st)))
      /\ (fst (fst (recv os s len st)) = 0 ->
          do_complete_recv os (S fuel) s cur len st
          = Some (1, fst cur, snd (recv os s len st)))
      /\ (fst (fst (recv os s len st)) < 0 ->
          ~ transient (fst (fst (recv os s len st)))
              (errno (snd (recv os s len st))) ->
          do_complete_recv os (S fuel) s cur len st
          = Some (-1, fst cur, snd (recv os s len st)))).
Proof.
  intros Hlen.
  rewrite send_loop_step, recv_loop_step by assumption.
  destruct (send_body_cases s data len st) as (k & st1 & Es & _ & Hs).
  destruct (recv_body_cases s cur len st) as (k' & bytes & st1' & Er & _ & Hr).
  rewrite Es, Er; cbn [fst snd]; unfold transient, advance_send in *.
  split.
  - destruct Hs
      as [(-> & H1 & H2 & H3) | [(-> & H1) | [(-> & H1) | (-> & H1 & H2)]]];
      repeat split; intros; try lia; try tauto; try reflexivity.
  - destruct Hr
      as [(-> & H1 & H2 & H3) | [(-> & H1) | [(-> & H1) | (-> & H1 & H2)]]];
      repeat split; intros; try lia; try tauto; try reflexivity.
    unfold nonzero; destruct (Z.eqb_spec len 0); [lia | reflexivity].
Qed.

(** *** Where a loop that fails leaves its caller *)

Lemma send_loop_outcome fuel :
  forall s data len st r st',
    do_complete_send os fuel s data len st = Some (r, st') ->
    exists evs,
      trace st' = trace st ++ evs
      /\ Forall (send_on s) evs
      /\ (r = 0 /\ len <= transferred evs
          \/ r = -1 /\ transferred evs < len
             /\ exists pre d l st0 k,
                 evs = pre ++ [ESend s d l k]
                 /\ send os s d l st0 = (k, st')
                 /\ k < 0 /\ errno st' <> EINTR /\ errno st' <> EAGAIN).
Proof.
  induction fuel as [|fuel IH]; intros s data len st r st' Hrun;
    destruct (Z.lt_ge_cases 0 len) as [Hlen|Hlen];
    try (rewrite send_loop_done in Hrun by assumption; inversion Hrun; subst;
         exists []; rewrite app_nil_r; repeat split; [constructor|];
         left; split; [reflexivity | assumption]).
  - rewrite loop_needs_fuel_send in Hrun by assumption; discriminate.
  - rewrite send_loop_step in Hrun by assumption.
    destruct (send_body_cases s data len st)
      as (k & st1 & Es & Ht
          & [(Hb & Hk & He1 & He2) | [(Hb & Hk) | [(Hb & Hk) | (Hb & Hk & _)]]]);
      rewrite Hb in Hrun.
    + inversion Hrun; subst r st'.
      exists [ESend s data len k]; split; [assumption|].
      split; [repeat constructor|].
      right; split; [reflexivity|]; split;
        [cbn [transferred fold_right]; lia|].
      exists [], data, len, st, k; repeat split; auto.
    + destruct (IH _ _ _ _ _ _ Hrun) as (evs & Ht' & Hall & Hres).
      exists (ESend s data len k :: evs).
      split; [rewrite Ht', Ht, <- app_assoc; reflexivity|].
      split; [constructor; [reflexivity | assumption]|].
      cbn [transferred fold_right]; fold (transferred evs).
      destruct Hres
        as [(-> & Hn) | (-> & Hn & pre & d & l & st0 & j & -> & Hj)];
        [left; split; [reflexivity | lia]|].
      right; split; [reflexivity|]; split; [lia|].
      exists (ESend s data len k :: pre), d, l, st0, j; auto.
    + destruct (IH _ _ _ _ _ _ Hrun) as (evs & Ht' & Hall & Hres).
      exists (ESend s data len k :: evs).
      split; [rewrite Ht', Ht, <- app_assoc; reflexivity|].
      split; [constructor; [reflexivity | assumption]|].
      cbn [transferred fold_right]; fold (transferred evs).
      destruct Hres
        as [(-> & Hn) | (-> & Hn & pre & d & l & st0 & j & -> & Hj)];
        [left; split; [reflexivity | lia]|].
      right; split; [reflexivity|]; split; [lia|].
      exists (ESend s data len k :: pre), d, l, st0, j; auto.
    + destruct (IH _ _ _ _ _ _ Hrun) as (evs & Ht' & Hall & Hres).
      exists (ESend s data len k :: evs).
      split; [rewrite Ht', Ht, <- app_assoc; reflexivity|].
      split; [constructor; [reflexivity | assumption]|].
      cbn [transferred fold_right]; fold (transferred evs).
      destruct Hres
        as [(-> & Hn) | (-> & Hn & pre & d & l & st0 & j & -> & Hj)];
        [left; split; [reflexivity | lia]|].
      right; split; [reflexivity|]; split; [lia|].
      exists (ESend s data len k :: pre), d, l, st0, j; auto.
Qed.

Lemma recv_loop_outcome fuel :
  forall s cur len st r response st',
    do_complete_recv os fuel s cur len st = Some (r, response, st') ->
    exists evs,
      trace st' = trace st ++ evs
      /\ Forall (recv_on s) evs
      /\ (r = 0 /\ transferred evs = len
          \/ r = 1 /\ transferred evs <> len
             /\ (len < 0 /\ evs = []
                 \/ exists pre l st0 k bytes,
                     evs = pre ++ [ERecv s l k]
                     /\ recv os s l st0 = ((k, bytes), st')
                     /\ (k = 0 \/ l < k))
          \/ r = -1 /\ transferred evs < len
             /\ exists pre l st0 k bytes,
                 evs = pre ++ [ERecv s l k]
                 /\ recv os s l st0 = ((k, bytes), st')
                 /\ k < 0 /\ errno st' <> EINTR /\ errno st' <> EAGAIN).
Proof.
  induction fuel as [|fuel IH]; intros s cur len st r response st' Hrun;
    destruct (Z.lt_ge_cases 0 len) as [Hlen|Hlen];
    try (rewrite recv_loop_done in Hrun by assumption; inversion Hrun; subst;
         exists []; rewrite app_nil_r; repeat split; [constructor|];
         unfold nonzero; cbn [transferred fold_right];
         destruct (Z.eqb_spec len 0);
         [left; split; auto
         | right; left; split; [reflexivity|]; split; [lia|];
           left; split; [lia | reflexivity]]).
  - rewrite loop_needs_fuel_recv in Hrun by assumption; discriminate.
  - rewrite recv_loop_step in Hrun by assumption.
    destruct (recv_body_cases s cur len st)
      as (k & bytes & st1 & Er & Ht
          & [(Hb & Hk & He1 & He2) | [(Hb & Hk) | [(Hb & Hk) | (Hb & Hk & _)]]]);
      rewrite Hb in Hrun.
    + inversion Hrun; subst r st'.
      exists [ERecv s len k]; split; [assumption|].
      split; [repeat constructor|].
      right; right; split; [reflexivity|]; split;
        [cbn [transferred fold_right]; lia|].
      exists [], len, st, k, bytes; repeat split; auto.
    + inversion Hrun; subst r st'.
      exists [ERecv s len k]; split; [assumption|].
      split; [repeat constructor|].
      right; left; unfold nonzero; cbn [transferred fold_right].
      destruct (Z.eqb_spec len 0); [lia|].
      split; [reflexivity|]; split; [lia|].
      right; exists [], len, st, k, bytes; repeat split; auto.
    + destruct (IH _ _ _ _ _ _ _ Hrun) as (evs & Ht' & Hall & Hres).
      exists (ERecv s len k :: evs).
      split; [rewrite Ht', Ht, <- app_assoc; reflexivity|].
      split; [constructor; [reflexivity | assumption]|].
      cbn [transferred fold_right]; fold (transferred evs).
      destruct Hres
        as [(-> & Hn)
           | [(-> & Hn & [(Hneg & ->)
                         | (pre & l & st0 & j & bs & -> & Hj & Hjk)])
             | (-> & Hn & pre & l & st0 & j & bs & -> & Hj)]].
      * left; split; [reflexivity | lia].
      * right; left; split; [reflexivity|]; split;
          [cbn [transferred fold_right]; lia|].
        right; exists [], len, st, k, bytes; repeat split; auto.
        -- assert (do_complete_recv os fuel s (advance_recv bytes k cur)
                     (len - k) st1
                   = Some (nonzero (len - k),
                           fst (advance_recv bytes k cur), st1)) as Hdone
               by (apply recv_loop_done; lia).
           rewrite Hdone in Hrun; inversion Hrun; subst; exact Er.
        -- right; lia.
      * right; left; split; [reflexivity|]; split; [lia|].
        right; exists (ERecv s len k :: pre), l, st0, j, bs; auto.
      * right; right; split; [reflexivity|]; split; [lia|].
        exists (ERecv s len k :: pre), l, st0, j, bs; auto.
    + destruct (IH _ _ _ _ _ _ _ Hrun) as (evs & Ht' & Hall & Hres).
      exists (ERecv s len k :: evs).
      split; [rewrite Ht', Ht, <- app_assoc; reflexivity|].
      split; [constructor; [reflexivity | assumption]|].
      cbn [transferred fold_right]; fold (transferred evs).
      destruct Hres
        as [(-> & Hn)
           | [(-> & Hn & [(Hneg & ->)
                         | (pre & l & st0 & j & bs & -> & Hj & Hjk)])
             | (-> & Hn & pre & l & st0 & j & bs & -> & Hj)]].
      * left; split; [reflexivity | lia].
      * exfalso; lia.
      * right; left; split; [reflexivity|]; split; [lia|].
        right; exists (ERecv s len k :: pre), l, st0, j, bs; auto.
      * right; right; split; [reflexivity|]; split; [lia|].
        exists (ERecv s len k :: pre), l, st0, j, bs; auto.
Qed.

(** The write loop returns 0 or -1 and makes no call but [send] on [s].  It
    returns 0 only when the byte counts reported by [send] reach [len].  It
    returns -1 only with fewer bytes than [len] reported, and then the state
    it returns in is the very one the last [send] left when it returned a
    negative value: the caller finds the [errno] of that [send], which is
    neither [EINTR] nor [EAGAIN]. *)
Theorem write_loop_result fuel s data len st r st' :
  do_complete_send os fuel s data len st = Some (r, st') ->
  exists evs,
    trace st' = trace st ++ evs
    /\ Forall (send_on s) evs
    /\ (r = 0 /\ len <= transferred evs
        \/ r = -1 /\ transferred evs < len
           /\ exists pre d l st0 k,
               evs = pre ++ [ESend s d l k]
               /\ send os s d l st0 = (k, st')
               /\ k < 0 /\ errno st' <> EINTR /\ errno st' <> EAGAIN).
Proof. apply send_loop_outcome. Qed.

(** The read loop returns 0, 1 or -1 and makes no call but [recv] on [s].  It
    returns 0 exactly when the byte counts reported by [recv] add up to [len].
    It returns 1 when the last [recv] returned 0 or more than was asked for
    (or when [len] was negative to begin with).  It returns -1 in the very
    state the last [recv] left when it returned a negative value: the caller
    finds the [errno] of that [recv], which is neither [EINTR] nor [EAGAIN]. *)
Theorem read_loop_result fuel s cur len st r response st' :
  do_complete_recv os fuel s cur len st = Some (r, response, st') ->
  exists evs,
    trace st' = trace st ++ evs
    /\ Forall (recv_on s) evs
    /\ (r = 0 /\ transferred evs = len
        \/ r = 1 /\ transferred evs <> len
           /\ (len < 0 /\ evs = []
               \/ exists pre l st0 k bytes,
                   evs = pre ++ [ERecv s l k]
                   /\ recv os s l st0 = ((k, bytes), st')
                   /\ (k = 0 \/ l < k))
        \/ r = -1 /\ transferred evs < len
           /\ exists pre l st0 k bytes,
               evs = pre ++ [ERecv s l k]
               /\ recv os s l st0 = ((k, bytes), st')
               /\ k < 0 /\ errno st' <> EINTR /\ errno st' <> EAGAIN).
Proof. apply recv_loop_outcome. Qed.

Lemma try_servers_exhausted s :
  forall servers st st5,
    servers <> [] ->
    try_servers os s servers st = (None, st5) ->
    exists a st0 r,
      (exists init, servers = init ++ [a])
      /\ real_connect os s (Some (ai_addr a)) (ai_addrlen a) st0 = (r, st5)
      /\ r <> 0.
Proof.
  induction servers as [|a next IH]; intros st st5 Hne Htry; [contradiction|].
  cbn [try_servers] in Htry.
  destruct (real_connect os s (Some (ai_addr a)) (ai_addrlen a) st)
    as [r st1] eqn:E.
  destruct (Z.eqb_spec r 0) as [|Hr]; [discriminate|].
  destruct next as [|b next].
  - cbn [try_servers] in Htry; inversion Htry; subst st5.
    exists a, st, r; repeat split; auto.
    exists []; reflexivity.
  - destruct (IH st1 st5 ltac:(discriminate) Htry)
      as (c & st0 & r0 & (init & Hinit) & Hc & Hr0).
    exists c, st0, r0; repeat split; auto.
    exists (a :: init); rewrite Hinit; reflexivity.
Qed.

(** After a primitive has failed -- every candidate has refused, a [send] of
    the request has failed, or a [recv] of the response has failed --
    [connect] returns -1 and reports the error code of that very call: the
    exit is taken in the state the failed call left, and [errno] on return is
    the [errno] of that state, or [ECONNREFUSED] if the call left 0. *)
Theorem failed_call_errno socks_server fuel s sa len st flags st_e :
  (exists st4,
      tunnel_entry host os socks_server s sa len st flags st4
      /\ try_servers os s socks_server st4 = (None, st_e))
  \/ (exists st5 r,
         handshake_entry host os socks_server s sa len st flags st5
         /\ do_complete_send os fuel s
              (request_bytes host (message sa (sin_addr sa)))
              sizeof_socks4_request st5 = Some (r, st_e)
         /\ r <> 0)
  \/ (exists response,
         response_read host os socks_server uninit fuel s sa len st flags (-1)
           response st_e) ->
  failed_call os s st_e
  /\ exists st',
      connect host os socks_server uninit fuel s (Some sa) len st
      = Some (-1, st')
      /\ errno st' = (if errno st_e =? 0 then ECONNREFUSED else errno st_e).
Proof.
  intros Hexit.
  assert (failed_call os s st_e
          /\ failure_exit host os socks_server uninit fuel s sa len st flags
               st_e) as [Hcall Hfail].
  { destruct Hexit
      as [(st4 & Hin & Htry)
         | [(st5 & r & Hh & Hsend & Hr)
           | (response & st5 & st6 & Hh & Hsend & Hrecv)]].
    - split; [|eapply exhausted_list; eassumption].
      destruct Hin as (Hne & _).
      destruct (try_servers_exhausted _ _ Hne Htry)
        as (a & st0 & r & _ & Hc & Hr).
      eapply connect_refused; eassumption.
    - split; [|eapply send_failure; eassumption].
      destruct (send_loop_outcome _ _ _ _ _ Hsend)
        as (evs & _ & _
            & [(-> & _) | (_ & _ & pre & d & l & st0 & k & _ & Hk & Hneg & _)]);
        [contradiction|].
      eapply send_failed; eassumption.
    - split.
      + destruct (recv_loop_outcome _ _ _ _ _ Hrecv)
          as (evs & _ & _
              & [(Hr & _)
                | [(Hr & _)
                  | (_ & _ & pre & l & st0 & k & bs & _ & Hk & Hneg & _)]]);
          try discriminate Hr.
        eapply recv_failed; eassumption.
      + apply read_failure with (r := -1) (response := response);
          [|discriminate].
        exists st5, st6; auto. }
  split; [exact Hcall|].
  rewrite (connect_at_failure_exit Hfail).
  destruct (error_result s flags st_e) as (k1 & k2 & st' & -> & He & _).
  exists st'; auto.
Qed.

(** *** The peer closes early *)

Lemma read_loop_stops_at_eof s :
  forall n c c',
    read_iterations os s n c c' ->
    forall fuel,
      0 < snd (fst c') ->
      fst (fst (recv os s (snd (fst c')) (snd c'))) = 0 ->
      (n < fuel)%nat ->
      do_complete_recv os fuel s (fst (fst c)) (snd (fst c)) (snd c)
      = Some (1, fst (fst (fst c')),
              snd (recv os s (snd (fst c')) (snd c'))).
Proof.
  induction 1 as [[[cur len] st]
                 | n cur len st cur' len' st1 c Hlen Hbody _ IH];
    intros fuel Hpos Heof Hfuel; cbn [fst snd] in *;
    (destruct fuel as [|fuel]; [lia|]);
    rewrite recv_loop_step by assumption.
  - destruct (recv_body_cases s cur len st)
      as (k & bytes & st1 & Er & _
          & [(_ & Hk & _) | [(-> & Hk) | [(_ & Hk) | (_ & Hk & _)]]]);
      rewrite Er in Heof |- *; cbn [fst snd] in *; try lia.
    unfold nonzero; destruct (Z.eqb_spec len 0); [lia | reflexivity].
  - rewrite Hbody; apply IH; auto; lia.
Qed.

(** When the peer closes the connection before the response is complete --
    the read loop has gone round any number of times, bytes are still
    missing, and [recv] returns 0 -- the read loop stops there and returns 1,
    and [connect] returns -1 with a non-zero [errno], having restored the
    flags and shut the socket down in both directions as its last two
    calls. *)
Theorem premature_close_shuts_down socks_server fuel s sa len st flags st5 st6
  n cur' len' st_k :
  handshake_entry host os socks_server s sa len st flags st5 ->
  do_complete_send os fuel s (request_bytes host (message sa (sin_addr sa)))
    sizeof_socks4_request st5 = Some (0, st6) ->
  read_iterations os s n ((uninit, O), sizeof_socks4_response, st6)
    (cur', len', st_k) ->
  0 < len' ->
  fst (fst (recv os s len' st_k)) = 0 ->
  (n < fuel)%nat ->
  do_complete_recv os fuel s (uninit, O) sizeof_socks4_response st6
  = Some (1, fst cur', snd (recv os s len' st_k))
  /\ exists k1 k2 st',
      connect host os socks_server uninit fuel s (Some sa) len st
      = Some (-1, st')
      /\ errno st' <> 0
      /\ trace st'
         = trace (snd (recv os s len' st_k))
             ++ [EFcntl s F_SETFL (Some flags) k1; EShutdown s SHUT_RDWR k2].
Proof.
  intros Hh Hsend Hiter Hpos Heof Hfuel.
  pose proof (read_loop_stops_at_eof Hiter (fuel := fuel) Hpos Heof Hfuel)
    as Hrecv.
  cbn [fst snd] in Hrecv; split; [exact Hrecv|].
  assert (failure_exit host os socks_server uninit fuel s sa len st flags
            (snd (recv os s len' st_k))) as Hexit.
  { apply read_failure with (r := 1) (response := fst cur'); [|discriminate].
    exists st5, st6; auto. }
  rewrite (connect_at_failure_exit Hexit).
  destruct (error_result s flags (snd (recv os s len' st_k)))
    as (k1 & k2 & st' & -> & He & Htr).
  exists k1, k2, st'; repeat split; auto.
  rewrite He; destruct (Z.eqb_spec (errno (snd (recv os s len' st_k))) 0);
    [discriminate | assumption].
Qed.

End Facts.

(** ** The scripted kernel *)

Lemma sim_flags_model : flags_model sim_os sim_mask sim_fl.
Proof.
  constructor; cbn [sim_os os_connect os_getsockopt os_fcntl os_send os_recv
                      os_shutdown]; unfold sim_fl.
  - intros s level optname opt optlen e w q e' w'; unfold sim_getsockopt.
    destruct (s =? sim_fd w); cbn [negb]; [discriminate|].
    intros H; inversion H; subst; cbn; lia.
  - intros s level optname opt optlen e w q e' w' s'; unfold sim_getsockopt.
    destruct (s =? sim_fd w); cbn [negb];
      [destruct (optname =? SO_TYPE); [|destruct (optname =? SO_DOMAIN)]|];
      intros H; inversion H; subst; reflexivity.
  - intros s addr len e w r e' w' s'; unfold sim_connect.
    destruct (sim_connects w) as [|[r0 e0] rest]; intros H; inversion H; subst;
      reflexivity.
  - intros s data len e w r e' w' s'; unfold sim_send.
    destruct (sim_sends w) as [|[r0 e0] rest]; intros H; inversion H; subst;
      reflexivity.
  - intros s len e w r e' w' s'; unfold sim_recv.
    destruct (sim_recvs w) as [|[[r0 e0] bs] rest]; intros H; inversion H; subst;
      reflexivity.
  - intros s how e w r e' w' s'; unfold sim_shutdown.
    destruct (s =? sim_fd w); intros H; inversion H; subst; reflexivity.
  - intros s e w r e' w' f; unfold sim_fcntl.
    destruct (s =? sim_fd w) eqn:Hs; cbn [negb]; [|discriminate].
    change (F_GETFL =? F_GETFL) with true; cbn iota.
    intros H Hf; inversion H; inversion Hf; subst; rewrite Hs; auto.
  - intros s v e w r e' w' f; unfold sim_fcntl.
    destruct (s =? sim_fd w) eqn:Hs; cbn [negb]; [|discriminate].
    change (F_SETFL =? F_GETFL) with false; change (F_SETFL =? F_SETFL) with true;
      cbn iota.
    intros H Hf; inversion H; inversion Hf; subst; cbn [sim_fd sim_flags].
    rewrite Hs; reflexivity.
Qed.

(** ** Runs on the scripted kernel *)

Ltac scripted :=
  repeat match goal with
    | |- _ /\ _ => split
    | |- exists _, _ => eexists
    | |- _ <> _ => discriminate
    | |- _ <= _ => vm_compute; discriminate
    | |- _ = _ => vm_compute; reflexivity
    end.

Lemma granted_iff_status_witness :
  response_read LittleEndian sim_os (proxies LittleEndian) junk 20 3
    (web LittleEndian) 16 (start 0 (bumpy 90)) 2050 0 (reply 90)
    (snd (after_recv LittleEndian sim_os (proxies LittleEndian) junk 20 3
            (web LittleEndian) (start 0 (bumpy 90))))
  /\ exists r st',
      connect LittleEndian sim_os (proxies LittleEndian) junk 20 3
        (Some (web LittleEndian)) 16 (start 0 (bumpy 90)) = Some (r, st')
      /\ (r = 0 <-> s4_status (reply 90) = 0x5a)
      /\ (s4_status (reply 90) <> 0x5a ->
          r = -1 /\ errno st' <> 0
          /\ exists k1 k2,
              trace st'
              = trace
                  (snd (after_recv LittleEndian sim_os (proxies LittleEndian)
                          junk 20 3 (web LittleEndian) (start 0 (bumpy 90))))
                  ++ [EFcntl 3 F_SETFL (Some 2050) k1;
                      EShutdown 3 SHUT_RDWR k2]).
Proof.
  assert (response_read LittleEndian sim_os (proxies LittleEndian) junk 20 3
            (web LittleEndian) 16 (start 0 (bumpy 90)) 2050 0 (reply 90)
            (snd (after_recv LittleEndian sim_os (proxies LittleEndian) junk 20
                    3 (web LittleEndian) (start 0 (bumpy 90))))) as H
      by (unfold response_read, handshake_entry, tunnel_entry; scripted).
  split; [exact H | exact (granted_iff_status H)].
Defined.

Lemma request_on_the_wire_witness :
  handshake_entry LittleEndian sim_os (proxies LittleEndian) 3
    (web LittleEndian) 16 (start 0 (bumpy 90)) 2050
    (at_handshake_entry sim_os (proxies LittleEndian) 3 (start 0 (bumpy 90)))
  /\ exists st',
      connect LittleEndian sim_os (proxies LittleEndian) junk 20 3
        (Some (web LittleEndian)) 16 (start 0 (bumpy 90)) = Some (0, st')
      /\ exists k later,
          length (socks4_connect_request 80 (((93 * 256 + 184) * 256 + 216) * 256 + 34))
          = 9%nat
          /\ trace st'
             = trace (at_handshake_entry sim_os (proxies LittleEndian) 3
                        (start 0 (bumpy 90)))
                 ++ ESend 3 [4; 1; 0; 80; 93; 184; 216; 34; 0] 9 k :: later
          /\ (0 = 0 ->
              sent_bytes (ESend 3 [4; 1; 0; 80; 93; 184; 216; 34; 0] 9 k :: later)
              = [4; 1; 0; 80; 93; 184; 216; 34; 0]).
Proof.
  assert (handshake_entry LittleEndian sim_os (proxies LittleEndian) 3
            (web LittleEndian) 16 (start 0 (bumpy 90)) 2050
            (at_handshake_entry sim_os (proxies LittleEndian) 3
               (start 0 (bumpy 90)))) as H
      by (unfold handshake_entry, tunnel_entry; scripted).
  split; [exact H|].
  eexists; split; [vm_compute; reflexivity|].
  eapply (request_on_the_wire junk 20 H).
  vm_compute; reflexivity.
Defined.

Lemma flags_restored_witness :
  flags_model sim_os sim_mask sim_fl
  /\ exists st',
      connect LittleEndian sim_os (proxies LittleEndian) junk 20 3
        (Some (web LittleEndian)) 16 (start 0 (bumpy 91)) = Some (-1, st')
      /\ sim_fl (world st') 3 = sim_fl (bumpy 91) 3.
Proof.
  split; [exact sim_flags_model|].
  eexists; split; [vm_compute; reflexivity|].
  eapply (flags_restored LittleEndian junk sim_flags_model (proxies LittleEndian)
            20 3 (Some (web LittleEndian)) 16 (start 0 (bumpy 91))).
  vm_compute; reflexivity.
Defined.


Lemma candidates_in_order_witness :
  tunnel_entry LittleEndian sim_os (proxies LittleEndian) 3 (web LittleEndian)
    16 (start 0 (bumpy 90)) 2050
    (snd (at_tunnel_entry sim_os 3 (start 0 (bumpy 90))))
  /\ exists refused rets,
      length rets = length refused
      /\ Forall (fun r => r <> 0) rets
      /\ exists a st5 rest,
          try_servers sim_os 3 (proxies LittleEndian)
            (snd (at_tunnel_entry sim_os 3 (start 0 (bumpy 90))))
          = (Some a, st5)
          /\ proxies LittleEndian = refused ++ a :: rest
          /\ trace st5
             = trace (snd (at_tunnel_entry sim_os 3 (start 0 (bumpy 90))))
                 ++ attempts 3 refused rets
                 ++ [EConnect 3 (Some (ai_addr a)) (ai_addrlen a) 0].
Proof.
  assert (tunnel_entry LittleEndian sim_os (proxies LittleEndian) 3
            (web LittleEndian) 16 (start 0 (bumpy 90)) 2050
            (snd (at_tunnel_entry sim_os 3 (start 0 (bumpy 90))))) as H
      by (unfold tunnel_entry; scripted).
  split; [exact H|].
  destruct (candidates_in_order junk 20 H) as (refused & rets & Hl & Hr & Hrun).
  exists refused, rets; split; [exact Hl|]; split; [exact Hr|].
  destruct (try_servers sim_os 3 (proxies LittleEndian)
              (snd (at_tunnel_entry sim_os 3 (start 0 (bumpy 90)))))
    as [[a|] st5] eqn:E.
  - destruct Hrun as (rest & Hs & Ht & _).
    exists a, st5, rest; split; [reflexivity|]; split; assumption.
  - vm_compute in E; discriminate E.
Defined.

Lemma success_leaves_errno_witness :
  response_read LittleEndian sim_os (proxies LittleEndian) junk 20 3
    (web LittleEndian) 16 (start 0 (bumpy 90)) 2050 0 (reply 90)
    (snd (after_recv LittleEndian sim_os (proxies LittleEndian) junk 20 3
            (web LittleEndian) (start 0 (bumpy 90))))
  /\ s4_status (reply 90) = SOCKS4_REQUEST_GRANTED
  /\ exists k st8,
      fcntl sim_os 3 F_SETFL (Some 2050)
        (snd (after_recv LittleEndian sim_os (proxies LittleEndian) junk 20 3
                (web LittleEndian) (start 0 (bumpy 90)))) = (k, st8)
      /\ connect LittleEndian sim_os (proxies LittleEndian) junk 20 3
           (Some (web LittleEndian)) 16 (start 0 (bumpy 90)) = Some (0, st8).
Proof.
  assert (response_read LittleEndian sim_os (proxies LittleEndian) junk 20 3
            (web LittleEndian) 16 (start 0 (bumpy 90)) 2050 0 (reply 90)
            (snd (after_recv LittleEndian sim_os (proxies LittleEndian) junk 20
                    3 (web LittleEndian) (start 0 (bumpy 90))))) as H
      by (unfold response_read, handshake_entry, tunnel_entry; scripted).
  split; [exact H|]; split; [reflexivity|].
  exact (success_leaves_errno H eq_refl).
Defined.

(** On the granted path of this run [errno] is 0 on entry and [EAGAIN] on
    return, left there by the [recv] that the read loop retried. *)
Lemma success_with_foreign_errno :
  exists st',
    connect LittleEndian sim_os (proxies LittleEndian) junk 20 3
      (Some (web LittleEndian)) 16 (start 0 (bumpy 90)) = Some (0, st')
    /\ errno (start 0 (bumpy 90)) = 0
    /\ errno st' = EAGAIN.
Proof. scripted. Qed.

(** ** Runs that separate the code from its description *)

(** C2 on a little-endian host.  224.0.0.1 is a multicast address, so the
    request is ineligible; yet [IN_MULTICAST] is applied to the address in
    network order, where the top nibble is that of the last octet, the test
    fails, and the call is tunnelled: the flags are changed, the proxy is
    connected to and a request for 224.0.0.1 is sent. *)
Theorem multicast_tunnelled_on_little_endian :
  ineligible LittleEndian sim_os (multicast_range LittleEndian) 3
    (Some (all_hosts LittleEndian)) 16 (start 0 (smooth 90))
  /\ IN_MULTICAST (sin_addr (all_hosts LittleEndian)) = false
  /\ (exists st',
         connect LittleEndian sim_os (proxies LittleEndian) junk 20 3
           (Some (all_hosts LittleEndian)) 16 (start 0 (smooth 90))
         = Some (0, st')
         /\ trace st'
            = [EGetsockopt 3 SOL_SOCKET SO_TYPE 0;
               EGetsockopt 3 SOL_SOCKET SO_DOMAIN 0;
               EFcntl 3 F_GETFL None 2050;
               EFcntl 3 F_SETFL (Some 2) 0;
               EConnect 3 (Some (inet LittleEndian 192 0 2 1 1080)) 16 0;
               ESend 3 [4; 1; 0; 80; 224; 0; 0; 1; 0] 9 9;
               ERecv 3 8 8;
               EFcntl 3 F_SETFL (Some 2050) 0])
  /\ ~ passed_through sim_os 3 (Some (all_hosts LittleEndian)) 16
         (start 0 (smooth 90))
         (connect LittleEndian sim_os (proxies LittleEndian) junk 20 3
            (Some (all_hosts LittleEndian)) 16 (start 0 (smooth 90))).
Proof.
  split; [|split; [reflexivity|split]].
  - apply multicast_target with (sa := all_hosts LittleEndian);
      [reflexivity | vm_compute; split; discriminate].
  - eexists; split; vm_compute; reflexivity.
  - intros (queries & st0 & _ & _ & _ & Hrun).
    unfold real_connect, syscall in Hrun.
    destruct (os_connect sim_os 3 (Some (all_hosts LittleEndian)) 16
                (errno st0) (world st0)) as [[r e] w].
    vm_compute in Hrun; inversion Hrun as [[Hr He Hw Ht]].
    change [EGetsockopt 3 1 3 0; EGetsockopt 3 1 39 0; EFcntl 3 3 None 2050;
            EFcntl 3 4 (Some 2) 0;
            EConnect 3 (Some {| sa_family := 2; sin_port := 14340;
                                sin_addr := 16908480 |}) 16 0;
            ESend 3 [4; 1; 0; 80; 224; 0; 0; 1; 0] 9 9; ERecv 3 8 8;
            EFcntl 3 4 (Some 2050) 0]
      with ([EGetsockopt 3 1 3 0; EGetsockopt 3 1 39 0; EFcntl 3 3 None 2050;
             EFcntl 3 4 (Some 2) 0;
             EConnect 3 (Some {| sa_family := 2; sin_port := 14340;
                                 sin_addr := 16908480 |}) 16 0;
             ESend 3 [4; 1; 0; 80; 224; 0; 0; 1; 0] 9 9; ERecv 3 8 8]
              ++ [EFcntl 3 4 (Some 2050) 0]) in Ht.
    apply app_inj_tail in Ht as [_ Ht]; discriminate Ht.
Qed.

(** The same test takes 10.0.0.230, whose last octet is 0xE6, for a multicast
    address: on a little-endian host the call goes straight to the real
    [connect]. *)
Lemma last_octet_taken_for_multicast :
  IN_MULTICAST (sin_addr (inet LittleEndian 10 0 0 230 80)) = true
  /\ first_octet LittleEndian (sin_addr (inet LittleEndian 10 0 0 230 80)) = 10
  /\ connect LittleEndian sim_os (proxies LittleEndian) junk 20 3
       (Some (inet LittleEndian 10 0 0 230 80)) 16 (start 0 (smooth 90))
     = Some (real_connect sim_os 3 (Some (inet LittleEndian 10 0 0 230 80)) 16
               (start 0 (smooth 90))).
Proof. repeat split; vm_compute; reflexivity. Qed.

(** C6.  The proxy denies the request and no operation of the call fails, so
    that no operation sets an error code; [errno] was 2 on entry.  The call
    fails with [errno] 2, not with [ECONNREFUSED]. *)
Lemma denial_reports_stale_errno :
  exists st_e st',
    failure_exit LittleEndian sim_os (proxies LittleEndian) junk 20 3
      (web LittleEndian) 16 (start 2 (smooth 91)) 2050 st_e
    /\ connect LittleEndian sim_os (proxies LittleEndian) junk 20 3
         (Some (web LittleEndian)) 16 (start 2 (smooth 91)) = Some (-1, st')
    /\ Forall (fun ev => 0 <= ret_of ev) (trace st')
    /\ error_code_of_failing_operation st_e = ECONNREFUSED
    /\ errno st' = 2
    /\ errno st' <> error_code_of_failing_operation st_e.
Proof.
  exists (snd (after_recv LittleEndian sim_os (proxies LittleEndian) junk 20 3
                 (web LittleEndian) (start 2 (smooth 91)))).
  eexists; split; [|split; [vm_compute; reflexivity|]].
  - apply denial with (response := reply 91); [|discriminate].
    unfold response_read, handshake_entry, tunnel_entry; scripted.
  - split; [|scripted].
    vm_compute; repeat constructor; discriminate.
Qed.

(** C7.  The proxy closes the connection after 3 of the 8 bytes of its reply.
    No primitive fails in the call, so no error code is set by it; the call is
    made once with [errno] 0 and once with [errno] 2 left over from before.
    The calls made are the same, both runs return -1 after shutting the socket
    down, but the error code is [ECONNREFUSED] in the first and 2 in the
    second: it is not determined by the failure. *)
Theorem premature_close_reports_stale_errno :
  exists st_a st_b,
    connect LittleEndian sim_os (proxies LittleEndian) junk 20 3
      (Some (web LittleEndian)) 16 (start 0 hangup) = Some (-1, st_a)
    /\ connect LittleEndian sim_os (proxies LittleEndian) junk 20 3
         (Some (web LittleEndian)) 16 (start 2 hangup) = Some (-1, st_b)
    /\ trace st_a = trace st_b
    /\ trace st_b
       = [EGetsockopt 3 SOL_SOCKET SO_TYPE 0;
          EGetsockopt 3 SOL_SOCKET SO_DOMAIN 0;
          EFcntl 3 F_GETFL None 2050;
          EFcntl 3 F_SETFL (Some 2) 0;
          EConnect 3 (Some (inet LittleEndian 192 0 2 1 1080)) 16 0;
          ESend 3 [4; 1; 0; 80; 93; 184; 216; 34; 0] 9 9;
          ERecv 3 8 3;
          ERecv 3 5 0;
          EFcntl 3 F_SETFL (Some 2050) 0;
          EShutdown 3 SHUT_RDWR 0]
    /\ errno st_a = ECONNREFUSED
    /\ errno st_b = 2.
Proof. scripted. Qed.

(** C9.  [send] returns 0 and sets no error code: no progress and no transient
    failure, and yet the write loop goes round again with the cursor where it
    was. *)
Lemma zero_send_is_retried :
  send sim_os 3 [4; 1; 0; 80; 93; 184; 216; 34; 0] 9 (start 0 sluggish)
  = (0, {| errno := 0;
           world := tcp_socket [(0, 0)] [(9, 0)] [];
           trace := [ESend 3 [4; 1; 0; 80; 93; 184; 216; 34; 0] 9 0] |})
  /\ fst (send_body sim_os 3 [4; 1; 0; 80; 93; 184; 216; 34; 0] 9
            (start 0 sluggish))
     = Again [4; 1; 0; 80; 93; 184; 216; 34; 0] 9
  /\ ~ loop_discipline advance_send 0 0 [4; 1; 0; 80; 93; 184; 216; 34; 0] 9
         (fst (send_body sim_os 3 [4; 1; 0; 80; 93; 184; 216; 34; 0] 9
                 (start 0 sluggish))).
Proof.
  split; [reflexivity|]; split; [reflexivity|].
  intros (_ & _ & H).
  apply H; [lia | intros [Hneg _]; lia].
Qed.


(** On the kernel of [bumpy] the first [send] is interrupted and the write
    loop carries on with the same transfer; the first [recv] delivers 3 bytes
    and the read loop carries on 3 bytes further; on the kernel of [hangup]
    the second [recv] returns 0 and the read loop returns 1 there. *)
Lemma transfer_loop_iterations_witness :
  0 < 9 /\ 0 < 8 /\ 0 < 5
  /\ do_complete_send sim_os 20 3 request 9 (start 0 (bumpy 90))
     = do_complete_send sim_os 19 3 request 9
         (snd (send sim_os 3 request 9 (start 0 (bumpy 90))))
  /\ do_complete_recv sim_os 20 3 (junk, O) 8 (start 0 (bumpy 90))
     = do_complete_recv sim_os 19 3
         ([0; 90; 0; 170; 170; 170; 170; 170], 3%nat) 5
         (snd (recv sim_os 3 8 (start 0 (bumpy 90))))
  /\ do_complete_recv sim_os 19 3
       ([0; 90; 0; 170; 170; 170; 170; 170], 3%nat) 5
       (snd (recv sim_os 3 8 (start 0 hangup)))
     = Some (1, [0; 90; 0; 170; 170; 170; 170; 170],
             snd (recv sim_os 3 5 (snd (recv sim_os 3 8 (start 0 hangup))))).
Proof.
  assert (0 < 9) as H9 by lia.
  assert (0 < 8) as H8 by lia.
  assert (0 < 5) as H5 by lia.
  destruct (transfer_loop_iterations sim_os 19 3 request (junk, O)
              (start 0 (bumpy 90)) H9) as ((_ & Hretry & _) & _).
  destruct (transfer_loop_iterations sim_os 19 3 request (junk, O)
              (start 0 (bumpy 90)) H8) as (_ & (Hprogress & _)).
  destruct (transfer_loop_iterations sim_os 18 3 request
              ([0; 90; 0; 170; 170; 170; 170; 170], 3%nat)
              (snd (recv sim_os 3 8 (start 0 hangup))) H5)
    as (_ & (_ & _ & Heof & _)).
  split; [exact H9|]; split; [exact H8|]; split; [exact H5|].
  split; [|split].
  - apply Hretry; left; split; [vm_compute; reflexivity | left; reflexivity].
  - rewrite Hprogress; [reflexivity | vm_compute; reflexivity].
  - apply Heof; reflexivity.
Defined.

(** On a kernel whose [send] never accepts anything the write loop does not
    return, however many iterations it is given. *)
Lemma write_loop_stalls (fuel : nat) :
  do_complete_send stalled_os fuel 3 [4; 1; 0; 80; 93; 184; 216; 34; 0] 9
    (start 0 tt) = None.
Proof. apply send_loop_stalls; [reflexivity | lia]. Qed.

(** ** The filter on a big-endian host *)

Lemma multicast_test_in_host_order (a : Z) :
  0 <= a < 2 ^ 32 -> 224 <= Z.shiftr a 24 <= 239 -> IN_MULTICAST a = true.
Proof.
  intros Ha Hq; unfold IN_MULTICAST; apply Z.eqb_eq.
  rewrite Z.shiftr_div_pow2 in Hq by lia.
  assert (a / 2 ^ 28 = 14) as H28.
  { pose proof (Z.div_mod a (2 ^ 24)) as Hd.
    pose proof (Z.mod_pos_bound a (2 ^ 24)) as Hm.
    change (2 ^ 24) with 16777216 in *; change (2 ^ 28) with 268435456 in *.
    symmetry; apply Z.div_unique with (r := a - 14 * 268435456); lia. }
  apply Z.bits_inj'; intros n Hn.
  rewrite Z.land_spec.
  change 0xf0000000 with (Z.shiftl 15 28); change 0xe0000000 with (Z.shiftl 14 28).
  rewrite !Z.shiftl_spec by assumption.
  destruct (Z.lt_ge_cases n 28) as [Hlt|Hge].
  - rewrite !(Z.testbit_neg_r _ (n - 28)) by lia; apply Bool.andb_false_r.
  - replace (Z.testbit a n) with (Z.testbit 14 (n - 28)).
    + destruct (Z.testbit 14 (n - 28)) eqn:E; [|reflexivity].
      destruct (Z.lt_ge_cases (n - 28) 4) as [H4|H4].
      * assert (n - 28 = 1 \/ n - 28 = 2 \/ n - 28 = 3 \/ n - 28 = 0) as Hc by lia.
        destruct Hc as [Hc|[Hc|[Hc|Hc]]]; rewrite Hc in *;
          try reflexivity; discriminate E.
      * change 14 with (Z.land 14 (Z.ones 4)) in E.
        rewrite Z.land_spec, Z.testbit_ones_nonneg in E by lia.
        destruct (Z.ltb_spec (n - 28) 4); [lia|].
        rewrite Bool.andb_false_r in E; discriminate E.
    + rewrite <- H28, <- Z.shiftr_div_pow2, Z.shiftr_spec by lia.
      f_equal; lia.
Qed.

(** On a big-endian host the network order is the host order, the multicast
    test sees the first octet, and every ineligible request for a 32-bit
    address is passed through. *)
Theorem big_endian_filter {W} (os : OS W) (uninit : list Z)
  (socks_server : list addrinfo) (fuel : nat) (s : Z) (_in : option sockaddr)
  (len : Z) (st : State W) :
  (forall sa, _in = Some sa -> 0 <= sin_addr sa < 2 ^ 32) ->
  ineligible BigEndian os (multicast_range BigEndian) s _in len st ->
  passed_through os s _in len st
    (connect BigEndian os socks_server uninit fuel s _in len st).
Proof.
  intros Hrange Hin; apply ineligible_passes_through.
  destruct Hin as [H|H|H|sa E H|sa E H|sa E H|sa E H|sa E H|H|H].
  - apply bad_descriptor; assumption.
  - apply null_address; assumption.
  - apply short_address; assumption.
  - eapply wrong_family; eassumption.
  - eapply unspecified_target; eassumption.
  - eapply broadcast_target; eassumption.
  - eapply multicast_target; [eassumption|].
    apply multicast_test_in_host_order; [apply Hrange; assumption | exact H].
  - eapply loopback_target; eassumption.
  - apply not_stream; assumption.
  - apply not_inet_domain; assumption.
Qed.

(** ** The address tests, octet by octet *)

Lemma load32_range host a b c d :
  0 <= a < 256 -> 0 <= b < 256 -> 0 <= c < 256 -> 0 <= d < 256 ->
  0 <= load32 host a b c d < 2 ^ 32.
Proof.
  intros; change (2 ^ 32) with 4294967296; destruct host; cbn [load32]; lia.
Qed.

Lemma byte_at_div (k x : Z) :
  0 <= k -> byte_at k x = (x / 2 ^ (8 * k)) mod 256.
Proof.
  intros Hk; unfold byte_at; change 255 with (Z.ones 8).
  rewrite Z.land_ones, Z.shiftr_div_pow2 by lia; reflexivity.
Qed.

Lemma bytes_of_little_endian a b c d :
  0 <= a < 256 -> 0 <= b < 256 -> 0 <= c < 256 -> 0 <= d < 256 ->
  byte_at 0 (load32 LittleEndian a b c d) = a
  /\ byte_at 1 (load32 LittleEndian a b c d) = b
  /\ byte_at 2 (load32 LittleEndian a b c d) = c
  /\ byte_at 3 (load32 LittleEndian a b c d) = d.
Proof.
  intros; rewrite !byte_at_div by lia; cbn [load32].
  change (2 ^ (8 * 0)) with 1; change (2 ^ (8 * 1)) with 256;
    change (2 ^ (8 * 2)) with 65536; change (2 ^ (8 * 3)) with 16777216.
  repeat split; Z.div_mod_to_equations; lia.
Qed.

Lemma first_octet_of_load host a b c d :
  0 <= a < 256 -> 0 <= b < 256 -> 0 <= c < 256 -> 0 <= d < 256 ->
  first_octet host (load32 host a b c d) = a.
Proof.
  intros Ha Hb Hc Hd; unfold first_octet; destruct host; cbn [ntohl].
  - unfold bswap32.
    destruct (bytes_of_little_endian Ha Hb Hc Hd) as (-> & -> & -> & ->).
    rewrite !Z.shiftr_lor.
    rewrite Z.shiftr_shiftl_l, !Z.shiftr_shiftl_r by lia.
    rewrite !Z.shiftr_div_pow2 by lia.
    change (24 - 24) with 0; change (24 - 16) with 8; change (24 - 8) with 16.
    rewrite Z.shiftl_0_r.
    replace (b / 2 ^ 8) with 0
      by (change (2 ^ 8) with 256; symmetry; apply Z.div_small; lia).
    replace (c / 2 ^ 16) with 0
      by (change (2 ^ 16) with 65536; symmetry; apply Z.div_small; lia).
    replace (d / 2 ^ 24) with 0
      by (change (2 ^ 24) with 16777216; symmetry; apply Z.div_small; lia).
    rewrite !Z.lor_0_r; reflexivity.
  - rewrite Z.shiftr_div_pow2 by lia; cbn [load32].
    change (2 ^ 24) with 16777216; Z.div_mod_to_equations; lia.
Qed.

Lemma multicast_test_range (x : Z) :
  0 <= x < 2 ^ 32 ->
  IN_MULTICAST x = true <-> 14 * 2 ^ 28 <= x < 15 * 2 ^ 28.
Proof.
  intros Hx; unfold IN_MULTICAST; rewrite Z.eqb_eq.
  assert (Z.land x 0xf0000000 = Z.shiftl (Z.shiftr x 28) 28) as ->.
  { apply Z.bits_inj'; intros n Hn.
    change 0xf0000000 with (Z.shiftl (Z.ones 4) 28).
    rewrite Z.land_spec, !Z.shiftl_spec by assumption.
    destruct (Z.lt_ge_cases n 28) as [Hlt|Hge].
    - rewrite !(Z.testbit_neg_r _ (n - 28)) by lia; apply Bool.andb_false_r.
    - rewrite Z.shiftr_spec, Z.testbit_ones_nonneg by lia.
      replace (n - 28 + 28) with n by lia.
      destruct (Z.ltb_spec (n - 28) 4); [apply Bool.andb_true_r|].
      rewrite Bool.andb_false_r; symmetry.
      destruct (Z.eq_dec x 0) as [->|Hnz]; [apply Z.bits_0|].
      apply Z.bits_above_log2; [lia|].
      assert (Z.log2 x < 32) by (apply Z.log2_lt_pow2; lia); lia. }
  rewrite Z.shiftl_mul_pow2, Z.shiftr_div_pow2 by lia.
  change (2 ^ 28) with 268435456 in *; change (2 ^ 32) with 4294967296 in *.
  change 0xe0000000 with (14 * 268435456).
  split; intros H; Z.div_mod_to_equations; lia.
Qed.

(** Which dotted-quad targets the filter leaves alone.  For the address
    a.b.c.d as the host reads it from a [sockaddr_in], the address tests of
    [connect] fire exactly for 0.0.0.0, for 255.255.255.255, for a = 127, and
    when the octet that [IN_MULTICAST] ends up looking at is in 224..239: the
    first octet on a big-endian host, the last one on a little-endian host. *)
Theorem ignored_address_octets host a b c d :
  0 <= a < 256 -> 0 <= b < 256 -> 0 <= c < 256 -> 0 <= d < 256 ->
  ignored_address host (load32 host a b c d) = true
  <-> (a = 0 /\ b = 0 /\ c = 0 /\ d = 0)
      \/ (a = 255 /\ b = 255 /\ c = 255 /\ d = 255)
      \/ 224 <= match host with BigEndian => a | LittleEndian => d end <= 239
      \/ a = 127.
Proof.
  intros Ha Hb Hc Hd; unfold ignored_address.
  pose proof (first_octet_of_load host Ha Hb Hc Hd) as H1.
  unfold first_octet in H1; rewrite H1.
  rewrite !Bool.orb_true_iff, !Z.eqb_eq.
  rewrite (multicast_test_range (load32_range host Ha Hb Hc Hd)).
  unfold INADDR_ANY, INADDR_BROADCAST.
  change (2 ^ 28) with 268435456.
  destruct host; cbn [load32]; lia.
Qed.

(** ** Loading the library *)

(** [_init] aborts the process exactly when the real [connect] cannot be
    found, whatever the environment and the resolver. *)
Theorem init_aborts_iff {F : Type} (dlsym_next : String.string -> option F)
  (getenv : String.string -> option String.string)
  (getaddrinfo : String.string -> String.string -> Init.hints -> list addrinfo
                 -> Z * list addrinfo) :
  Init._init dlsym_next getenv getaddrinfo = Init.Aborted
  <-> dlsym_next Init.symbol_connect = None.
Proof.
  unfold Init._init.
  destruct (dlsym_next Init.symbol_connect) as [f|]; [|tauto].
  destruct (getenv Init.SOCKS_SERVER) as [h|];
    [destruct (getaddrinfo _ _ _ _)|]; split; discriminate.
Qed.


(** A process that loads the library without [SOCKS_SERVER], or whose proxy
    host does not resolve -- the one call of [getaddrinfo] that [_init] makes,
    for that host, the configured or default service and the IPv4 stream
    hints, leaves the list [NULL] -- sees no difference: every call of
    [connect] is the real [connect] that [dlsym] found, with the same
    arguments, in the same state. *)
Theorem transparent_without_proxy {W} (host : endianness) (os : OS W)
  (dlsym_next : String.string
                -> option (Z -> option sockaddr -> Z -> primitive W Z))
  (getenv : String.string -> option String.string)
  (getaddrinfo : String.string -> String.string -> Init.hints -> list addrinfo
                 -> Z * list addrinfo)
  (real : Z -> option sockaddr -> Z -> primitive W Z)
  (uninit : list Z) (fuel : nat) (s : Z) (_in : option sockaddr) (len : Z)
  (st : State W) :
  dlsym_next Init.symbol_connect = Some real ->
  (forall socks_host,
      getenv Init.SOCKS_SERVER = Some socks_host ->
      snd (getaddrinfo socks_host
             match getenv Init.SOCKS_PORT with
             | Some port => port
             | None => Init.default_service
             end
             {| Init.ai_family := AF_INET; Init.ai_socktype := SOCK_STREAM |}
             [])
      = []) ->
  Init.interposed host os dlsym_next getenv getaddrinfo uninit fuel s _in len st
  = Some (Some (syscall (real s _in len) (EConnect s _in len) st)).
Proof.
  intros Hsym Hoff; unfold Init.interposed, Init._init; rewrite Hsym.
  assert (forall o : OS W,
             connect host o [] uninit fuel s _in len st
             = Some (real_connect o s _in len st)) as Hreal
      by (intros o; unfold connect; rewrite pass_is_real_connect; reflexivity).
  destruct (getenv Init.SOCKS_SERVER) as [h|].
  - specialize (Hoff h eq_refl).
    destruct (getaddrinfo _ _ _ _) as [ret res]; cbn [snd] in Hoff; subst res.
    rewrite Hreal; reflexivity.
  - rewrite Hreal; reflexivity.
Qed.

(** ** Runs for the properties above *)

Lemma write_loop_sends_prefix_witness :
  9 = Z.of_nat (length request)
  /\ exists st',
      do_complete_send sim_os 20 3 request 9 (start 0 (bumpy 90))
      = Some (0, st')
      /\ exists evs,
          trace st' = trace (start 0 (bumpy 90)) ++ evs
          /\ (exists n, sent_bytes evs = firstn n request)
          /\ (0 = 0 -> sent_bytes evs = request).
Proof.
  split; [reflexivity|].
  eexists; split; [vm_compute; reflexivity|].
  eapply (write_loop_sends_prefix sim_os 20 3 request (start 0 (bumpy 90)));
    [reflexivity | vm_compute; reflexivity].
Defined.


Lemma greedy_send_progresses (s : Z) (data : list Z) (len : Z)
  (st : State unit) :
  fst (send greedy_os s data len st) <> 0
  /\ ~ transient (fst (send greedy_os s data len st))
         (errno (snd (send greedy_os s data len st))).
Proof.
  unfold send, syscall, transient; cbn [greedy_os os_send].
  destruct (Z.gtb_spec len 0); cbn [fst snd errno]; split; try lia.
  intros [_ [E|E]]; discriminate E.
Qed.

Lemma greedy_recv_progresses (s len : Z) (st : State unit) :
  ~ transient (fst (fst (recv greedy_os s len st)))
      (errno (snd (recv greedy_os s len st))).
Proof.
  unfold recv, syscall, transient; cbn [greedy_os os_recv].
  destruct (Z.gtb_spec len 0); cbn [fst snd errno]; [lia|].
  intros [_ [E|E]]; discriminate E.
Qed.

Lemma write_loop_returns_witness :
  (forall s data len st,
      fst (send greedy_os s data len st) <> 0
      /\ ~ transient (fst (send greedy_os s data len st))
             (errno (snd (send greedy_os s data len st))))
  /\ 9 <= Z.of_nat 9
  /\ do_complete_send greedy_os 9 3 request 9 (start 0 tt) <> None.
Proof.
  split; [exact greedy_send_progresses|]; split; [lia|].
  apply (write_loop_returns greedy_os greedy_send_progresses 9 3 request
           (start 0 tt)); lia.
Defined.

Lemma recv_loop_returns_witness :
  (forall s len st,
      ~ transient (fst (fst (recv greedy_os s len st)))
          (errno (snd (recv greedy_os s len st))))
  /\ 8 <= Z.of_nat 8
  /\ do_complete_recv greedy_os 8 3 (junk, O) 8 (start 0 tt) <> None.
Proof.
  split; [exact greedy_recv_progresses|]; split; [lia|].
  apply (recv_loop_returns greedy_os greedy_recv_progresses 8 3 (junk, O)
           (start 0 tt)); lia.
Defined.

Lemma call_log_witness :
  exists st',
    connect LittleEndian sim_os (proxies LittleEndian) junk 20 3
      (Some (web LittleEndian)) 16 (start 0 (bumpy 91)) = Some (-1, st')
    /\ exists calls,
        trace st' = trace (start 0 (bumpy 91)) ++ calls
        /\ (passthrough_log 3 (Some (web LittleEndian)) 16 (-1) calls
            \/ tunnel_log (proxies LittleEndian) 3 (-1) calls).
Proof.
  eexists; split; [vm_compute; reflexivity|].
  eapply (call_log LittleEndian sim_os junk (proxies LittleEndian) 20 3
            (Some (web LittleEndian)) 16 (start 0 (bumpy 91))).
  vm_compute; reflexivity.
Defined.

Lemma only_the_callers_descriptor_witness :
  exists st',
    connect LittleEndian sim_os (proxies LittleEndian) junk 20 3
      (Some (web LittleEndian)) 16 (start 0 (bumpy 90)) = Some (0, st')
    /\ exists calls,
        trace st' = trace (start 0 (bumpy 90)) ++ calls
        /\ Forall (fun ev => descriptor_of ev = 3) calls.
Proof.
  eexists; split; [vm_compute; reflexivity|].
  eapply (only_the_callers_descriptor LittleEndian sim_os junk
            (proxies LittleEndian) 20 3 (Some (web LittleEndian)) 16
            (start 0 (bumpy 90))).
  vm_compute; reflexivity.
Defined.

Lemma shutdown_only_on_failure_witness :
  exists st' calls,
    connect LittleEndian sim_os (proxies LittleEndian) junk 20 3
      (Some (web LittleEndian)) 16 (start 0 (smooth 91)) = Some (-1, st')
    /\ trace st' = trace (start 0 (smooth 91)) ++ calls
    /\ In (EShutdown 3 SHUT_RDWR 0) calls
    /\ -1 = -1
    /\ exists before, calls = before ++ [EShutdown 3 SHUT_RDWR 0].
Proof.
  eexists; eexists; split; [vm_compute; reflexivity|].
  split; [vm_compute; reflexivity|].
  assert (In (EShutdown 3 SHUT_RDWR 0)
            [EGetsockopt 3 1 3 0; EGetsockopt 3 1 39 0; EFcntl 3 3 None 2050;
             EFcntl 3 4 (Some 2) 0;
             EConnect 3 (Some {| sa_family := 2; sin_port := 14340;
                                 sin_addr := 16908480 |}) 16 0;
             ESend 3 [4; 1; 0; 80; 93; 184; 216; 34; 0] 9 9; ERecv 3 8 8;
             EFcntl 3 4 (Some 2050) 0; EShutdown 3 2 0]) as Hin
      by (cbn [In]; auto 10).
  split; [exact Hin|].
  eapply (shutdown_only_on_failure LittleEndian sim_os junk
            (proxies LittleEndian) 20 3 (Some (web LittleEndian)) 16
            (start 0 (smooth 91)) _ 3 SHUT_RDWR 0);
    [vm_compute; reflexivity | vm_compute; reflexivity | exact Hin].
Defined.

Lemma blocking_during_negotiation_witness :
  flags_model sim_os sim_mask sim_fl
  /\ Z.land sim_mask O_NONBLOCK = O_NONBLOCK
  /\ Z.land (sim_flags (bumpy 90)) O_NONBLOCK = O_NONBLOCK
  /\ blocking sim_fl
       (at_handshake_entry sim_os (proxies LittleEndian) 3 (start 0 (bumpy 90)))
       3
  /\ blocking sim_fl
       (snd (after_send LittleEndian sim_os (proxies LittleEndian) 20 3
               (web LittleEndian) (start 0 (bumpy 90)))) 3
  /\ blocking sim_fl
       (snd (after_recv LittleEndian sim_os (proxies LittleEndian) junk 20 3
               (web LittleEndian) (start 0 (bumpy 90)))) 3.
Proof.
  split; [exact sim_flags_model|]; split; [reflexivity|];
    split; [reflexivity|].
  refine (blocking_during_negotiation junk sim_flags_model eq_refl 20
            (host := LittleEndian) (socks_server := proxies LittleEndian)
            (s := 3) (sa := web LittleEndian) (len := 16)
            (st := start 0 (bumpy 90)) (flags := 2050)
            (r6 := 0) (r7 := 0) (response := reply 90) _ _ _).
  - unfold handshake_entry, tunnel_entry; scripted.
  - vm_compute; reflexivity.
  - vm_compute; reflexivity.
Defined.

Lemma ignored_address_octets_witness :
  0 <= 224 < 256 /\ 0 <= 0 < 256 /\ 0 <= 1 < 256
  /\ (ignored_address LittleEndian (load32 LittleEndian 224 0 0 1) = true
      <-> (224 = 0 /\ 0 = 0 /\ 0 = 0 /\ 1 = 0)
          \/ (224 = 255 /\ 0 = 255 /\ 0 = 255 /\ 1 = 255)
          \/ 224 <= 1 <= 239
          \/ 224 = 127).
Proof.
  assert (0 <= 224 < 256) as Ha by lia.
  assert (0 <= 0 < 256) as Hb by lia.
  assert (0 <= 1 < 256) as Hd by lia.
  repeat split; try lia;
    apply (ignored_address_octets LittleEndian Ha Hb Hb Hd).
Defined.


Lemma transparent_without_proxy_witness :
  (fun _ => Some sim_connect) Init.symbol_connect = Some sim_connect
  /\ (forall socks_host,
         Init.proxy_env Init.SOCKS_SERVER = Some socks_host ->
         snd (Init.knows_another_host LittleEndian socks_host
                match Init.proxy_env Init.SOCKS_PORT with
                | Some port => port
                | None => Init.default_service
                end
                {| Init.ai_family := AF_INET; Init.ai_socktype := SOCK_STREAM |}
                [])
         = [])
  /\ Init.proxy_env Init.SOCKS_SERVER <> None
  /\ Init.interposed LittleEndian sim_os (fun _ => Some sim_connect)
       Init.proxy_env (Init.knows_another_host LittleEndian) junk 20 3
       (Some (web LittleEndian)) 16 (start 0 (smooth 90))
     = Some (Some (syscall (sim_connect 3 (Some (web LittleEndian)) 16)
                     (EConnect 3 (Some (web LittleEndian)) 16)
                     (start 0 (smooth 90)))).
Proof.
  assert (forall socks_host,
             Init.proxy_env Init.SOCKS_SERVER = Some socks_host ->
             snd (Init.knows_another_host LittleEndian socks_host
                    match Init.proxy_env Init.SOCKS_PORT with
                    | Some port => port
                    | None => Init.default_service
                    end
                    {| Init.ai_family := AF_INET;
                       Init.ai_socktype := SOCK_STREAM |}
                    [])
             = []) as Hunresolved.
  { intros socks_host Hhost; vm_compute in Hhost.
    injection Hhost as <-; reflexivity. }
  split; [reflexivity|]; split; [exact Hunresolved|]; split; [discriminate|].
  apply transparent_without_proxy; [reflexivity | exact Hunresolved].
Defined.

Lemma write_loop_result_witness :
  exists st',
    do_complete_send sim_os 20 3 request 9 (start 0 broken_pipe)
    = Some (-1, st')
    /\ errno st' = EPIPE
    /\ exists evs,
        trace st' = trace (start 0 broken_pipe) ++ evs
        /\ Forall (send_on 3) evs
        /\ (-1 = 0 /\ 9 <= transferred evs
            \/ -1 = -1 /\ transferred evs < 9
               /\ exists pre d l st0 k,
                   evs = pre ++ [ESend 3 d l k]
                   /\ send sim_os 3 d l st0 = (k, st')
                   /\ k < 0 /\ errno st' <> EINTR /\ errno st' <> EAGAIN).
Proof.
  eexists; split; [vm_compute; reflexivity|]; split; [reflexivity|].
  eapply (write_loop_result sim_os 20 3 request 9 (start 0 broken_pipe)).
  vm_compute; reflexivity.
Defined.

Lemma read_loop_result_witness :
  exists response st',
    do_complete_recv sim_os 20 3 (junk, O) 8 (start 0 reset_by_peer)
    = Some (-1, response, st')
    /\ errno st' = ECONNRESET
    /\ exists evs,
        trace st' = trace (start 0 reset_by_peer) ++ evs
        /\ Forall (recv_on 3) evs
        /\ (-1 = 0 /\ transferred evs = 8
            \/ -1 = 1 /\ transferred evs <> 8
               /\ (8 < 0 /\ evs = []
                   \/ exists pre l st0 k bytes,
                       evs = pre ++ [ERecv 3 l k]
                       /\ recv sim_os 3 l st0 = ((k, bytes), st')
                       /\ (k = 0 \/ l < k))
            \/ -1 = -1 /\ transferred evs < 8
               /\ exists pre l st0 k bytes,
                   evs = pre ++ [ERecv 3 l k]
                   /\ recv sim_os 3 l st0 = ((k, bytes), st')
                   /\ k < 0 /\ errno st' <> EINTR /\ errno st' <> EAGAIN).
Proof.
  eexists; eexists; split; [vm_compute; reflexivity|]; split; [reflexivity|].
  eapply (read_loop_result sim_os 20 3 (junk, O) 8 (start 0 reset_by_peer)).
  vm_compute; reflexivity.
Defined.

Lemma failed_call_errno_witness :
  (exists st4,
      tunnel_entry LittleEndian sim_os (proxies LittleEndian) 3
        (web LittleEndian) 16 (start 2 unreachable) 2050 st4
      /\ try_servers sim_os 3 (proxies LittleEndian) st4
         = (None,
            at_handshake_entry sim_os (proxies LittleEndian) 3
              (start 2 unreachable)))
  /\ errno (at_handshake_entry sim_os (proxies LittleEndian) 3
              (start 2 unreachable)) = ETIMEDOUT
  /\ failed_call sim_os 3
       (at_handshake_entry sim_os (proxies LittleEndian) 3
          (start 2 unreachable))
  /\ exists st',
      connect LittleEndian sim_os (proxies LittleEndian) junk 20 3
        (Some (web LittleEndian)) 16 (start 2 unreachable) = Some (-1, st')
      /\ errno st'
         = (if errno (at_handshake_entry sim_os (proxies LittleEndian) 3
                        (start 2 unreachable)) =? 0
            then ECONNREFUSED
            else errno (at_handshake_entry sim_os (proxies LittleEndian) 3
                          (start 2 unreachable))).
Proof.
  assert (exists st4,
             tunnel_entry LittleEndian sim_os (proxies LittleEndian) 3
               (web LittleEndian) 16 (start 2 unreachable) 2050 st4
             /\ try_servers sim_os 3 (proxies LittleEndian) st4
                = (None,
                   at_handshake_entry sim_os (proxies LittleEndian) 3
                     (start 2 unreachable))) as H
      by (unfold tunnel_entry; scripted).
  split; [exact H|]; split; [reflexivity|].
  apply (failed_call_errno (uninit := junk) (fuel := 20) (flags := 2050)).
  left; exact H.
Defined.

Lemma premature_close_shuts_down_witness :
  handshake_entry LittleEndian sim_os (proxies LittleEndian) 3
    (web LittleEndian) 16 (start 0 hangup) 2050
    (at_handshake_entry sim_os (proxies LittleEndian) 3 (start 0 hangup))
  /\ read_iterations sim_os 3 1
       ((junk, O), sizeof_socks4_response,
        snd (after_send LittleEndian sim_os (proxies LittleEndian) 20 3
               (web LittleEndian) (start 0 hangup)))
       (([0; 90; 0; 170; 170; 170; 170; 170], 3%nat), 5,
        snd (recv sim_os 3 8
               (snd (after_send LittleEndian sim_os (proxies LittleEndian) 20 3
                       (web LittleEndian) (start 0 hangup)))))
  /\ do_complete_recv sim_os 20 3 (junk, O) sizeof_socks4_response
       (snd (after_send LittleEndian sim_os (proxies LittleEndian) 20 3
               (web LittleEndian) (start 0 hangup)))
     = Some (1, [0; 90; 0; 170; 170; 170; 170; 170],
             snd (recv sim_os 3 5
                    (snd (recv sim_os 3 8
                            (snd (after_send LittleEndian sim_os
                                    (proxies LittleEndian) 20 3
                                    (web LittleEndian) (start 0 hangup)))))))
  /\ exists k1 k2 st',
      connect LittleEndian sim_os (proxies LittleEndian) junk 20 3
        (Some (web LittleEndian)) 16 (start 0 hangup) = Some (-1, st')
      /\ errno st' <> 0
      /\ trace st'
         = trace (snd (recv sim_os 3 5
                         (snd (recv sim_os 3 8
                                 (snd (after_send LittleEndian sim_os
                                         (proxies LittleEndian) 20 3
                                         (web LittleEndian)
                                         (start 0 hangup)))))))
             ++ [EFcntl 3 F_SETFL (Some 2050) k1; EShutdown 3 SHUT_RDWR k2].
Proof.
  assert (handshake_entry LittleEndian sim_os (proxies LittleEndian) 3
            (web LittleEndian) 16 (start 0 hangup) 2050
            (at_handshake_entry sim_os (proxies LittleEndian) 3
               (start 0 hangup))) as H
      by (unfold handshake_entry, tunnel_entry; scripted).
  assert (read_iterations sim_os 3 1
            ((junk, O), sizeof_socks4_response,
             snd (after_send LittleEndian sim_os (proxies LittleEndian) 20 3
                    (web LittleEndian) (start 0 hangup)))
            (([0; 90; 0; 170; 170; 170; 170; 170], 3%nat), 5,
             snd (recv sim_os 3 8
                    (snd (after_send LittleEndian sim_os (proxies LittleEndian)
                            20 3 (web LittleEndian) (start 0 hangup))))))
    as Hiter.
  { eapply read_more; [reflexivity | vm_compute; reflexivity|].
    apply read_none. }
  split; [exact H|]; split; [exact Hiter|].
  assert (do_complete_send sim_os 20 3
            (request_bytes LittleEndian
               (message (web LittleEndian) (sin_addr (web LittleEndian))))
            sizeof_socks4_request
            (at_handshake_entry sim_os (proxies LittleEndian) 3
               (start 0 hangup))
          = Some (0, snd (after_send LittleEndian sim_os (proxies LittleEndian)
                            20 3 (web LittleEndian) (start 0 hangup))))
    as Hsend by (vm_compute; reflexivity).
  assert (0 < 5) as Hpos by lia.
  assert (1 < 20)%nat as Hfuel by lia.
  exact (premature_close_shuts_down (fuel := 20) H Hsend Hiter Hpos eq_refl
           Hfuel).
Defined.
